(** * exactonline/elements/invoice.py: assembling and committing an invoice

    A shallow embedding of [ExactInvoice.assemble] and [ExactInvoice.commit]
    and the properties of the payload they send to the remote API.

    The remote API client ([self._api]) and the customer element are
    collaborators that live outside [invoice.py]: they are taken as a record
    of operations over an abstract remote state, and every call made to them
    is recorded in a trace, so that "how many calls, with which arguments, in
    which order" can be stated. *)

From Stdlib Require Import Ascii ZArith.
From stdpp Require Import gmap strings list pretty.

Local Open Scope string_scope.
Local Open Scope list_scope.
Local Open Scope Z_scope.

(** ** Python values *)

(** The scalar values that travel through the payload: identifiers handed
    out by the remote, numbers and strings. *)
Inductive pyval :=
  | PyNone
  | PyBool (b : bool)
  | PyInt (z : Z)
  | PyStr (s : string).

Global Instance pyval_eq_dec : EqDecision pyval.
Proof. solve_decision. Defined.

(** Python's truth value testing, as used by [if exact_guid:]. *)
Definition truthy (v : pyval) : bool :=
  match v with
  | PyNone => false
  | PyBool b => b
  | PyInt z => negb (z =? 0)
  | PyStr s => negb (String.eqb s "")
  end.

(** [unicode(x)] on a scalar. *)
Definition unicode (v : pyval) : string :=
  match v with
  | PyNone => "None"
  | PyBool true => "True"
  | PyBool false => "False"
  | PyInt z => pretty z
  | PyStr s => s
  end.

(** The exceptions that [assemble] and [commit] raise, catch or let through. *)
Inductive exn :=
  | ObjectDoesNotExist
  | ExactOnlineError (msg : string)
  | NotImplementedError (msg : string)
  | KeyError (key : string)
  | ValueError (msg : string)
  | UnboundLocalError (name : string)
  | AttributeError (msg : string)
  | RemoteError (msg : string).

Global Instance exn_eq_dec : EqDecision exn.
Proof. solve_decision. Defined.

Inductive outcome (A : Type) :=
  | Ok (a : A)
  | Raise (e : exn).
Arguments Ok {A} a.
Arguments Raise {A} e.

(** ** Dates and [strftime] *)

(** A [datetime.date]: a calendar date, without a time of day. *)
Record date := { year : Z; month : Z; day : Z }.

Fixpoint zeros (n : nat) : string :=
  match n with
  | O => ""
  | S k => String "0"%char (zeros k)
  end.

(** [%0wd] for a number that is not negative. *)
Definition zfill (w : nat) (z : Z) : string :=
  let s := pretty z in zeros (w - String.length s) +:+ s.

(** One conversion of the format.  A [date] has no time of day: the hour,
    minute and second conversions give zero. *)
Definition directive (d : date) (c : ascii) : string :=
  if Ascii.eqb c "Y"%char then zfill 4 (year d)
  else if Ascii.eqb c "m"%char then zfill 2 (month d)
  else if Ascii.eqb c "d"%char then zfill 2 (day d)
  else if Ascii.eqb c "H"%char then "00"
  else if Ascii.eqb c "M"%char then "00"
  else if Ascii.eqb c "S"%char then "00"
  else if Ascii.eqb c "%"%char then "%"
  else String "%"%char (String c "").

Fixpoint strftime_go (d : date) (fmt : string) : string :=
  match fmt with
  | "" => ""
  | String c rest =>
      if Ascii.eqb c "%"%char then
        match rest with
        | String c' rest' => directive d c' +:+ strftime_go d rest'
        | "" => "%"
        end
      else String c (strftime_go d rest)
  end.

(** [date.strftime(fmt)].  The module is Python 2 code ([basestring],
    [unicode]), where [strftime] refuses years before 1900. *)
Definition strftime (d : date) (fmt : string) : outcome string :=
  if year d <? 1900
  then Raise (ValueError ("year=" +:+ pretty (year d) +:+
                          " is before 1900; the datetime strftime() methods require year >= 1900"))
  else Ok (strftime_go d fmt).

(** The dates a [datetime.date] can hold. *)
Definition days_in_month (y m : Z) : Z :=
  if m =? 2 then
    if ((y mod 4 =? 0) && negb (y mod 100 =? 0)) || (y mod 400 =? 0) then 29 else 28
  else if (m =? 4) || (m =? 6) || (m =? 9) || (m =? 11) then 30
  else 31.

Definition valid_date (d : date) : Prop :=
  1 <= year d <= 9999 /\ 1 <= month d <= 12 /\ 1 <= day d <= days_in_month (year d) (month d).

(** The entry date in full: four digits of year, two of month, two of day,
    midnight, and the letter Z. *)
Definition iso_midnight_z (d : date) : string :=
  zfill 4 (year d) +:+ "-" +:+ zfill 2 (month d) +:+ "-" +:+ zfill 2 (day d) +:+
  "T00:00:00Z".

(** ** Decimals and [str] *)

(** A [decimal.Decimal] that is a number (not NaN, not an infinity): sign,
    coefficient and exponent; its value is [(-1)^sign * coeff * 10^exp].
    The coefficient is a number, so its digit string has no leading zeros,
    as in Python. *)
Record Decimal := { dsign : bool; dcoeff : N; dexp : Z }.

Global Instance Decimal_eq_dec : EqDecision Decimal.
Proof. solve_decision. Defined.

Fixpoint string_take (n : nat) (s : string) : string :=
  match n, s with
  | S k, String c r => String c (string_take k r)
  | _, _ => ""
  end.

Fixpoint string_drop (n : nat) (s : string) : string :=
  match n, s with
  | S k, String c r => string_drop k r
  | _, _ => s
  end.

(** ["%+d" % z] *)
Definition signed (z : Z) : string :=
  if 0 <=? z then "+" +:+ pretty z else pretty z.

(** [str(d)] for a [Decimal], as [Decimal.__str__] computes it: plain
    notation when the exponent is not positive and the number is not too
    small, scientific notation otherwise. *)
Definition str (d : Decimal) : string :=
  let sign := if dsign d then "-" else "" in
  let digits := pretty (dcoeff d) in
  let len := Z.of_nat (String.length digits) in
  let leftdigits := dexp d + len in
  let dotplace := if (dexp d <=? 0) && (-6 <? leftdigits) then leftdigits else 1 in
  let intpart :=
    if dotplace <=? 0 then "0"
    else if len <=? dotplace then digits +:+ zeros (Z.to_nat (dotplace - len))
    else string_take (Z.to_nat dotplace) digits in
  let fracpart :=
    if dotplace <=? 0 then "." +:+ zeros (Z.to_nat (- dotplace)) +:+ digits
    else if len <=? dotplace then ""
    else "." +:+ string_drop (Z.to_nat dotplace) digits in
  let exp := if leftdigits =? dotplace then "" else "E" +:+ signed (leftdigits - dotplace) in
  sign +:+ intpart +:+ fracpart +:+ exp.

(** ** Reading a decimal back *)

(** The number that a string of digits denotes, most significant first. *)
Fixpoint digits_go (s : string) (acc : N) : option N :=
  match s with
  | "" => Some acc
  | String c r =>
      match Ascii.is_nat c with
      | Some d => digits_go r (acc * 10 + N.of_nat d)%N
      | None => None
      end
  end.

(** [int(s)] for a non-empty string of digits. *)
Definition N_of_digits (s : string) : option N :=
  match s with
  | "" => None
  | _ => digits_go s 0%N
  end.

(** [int(s)] for digits with an optional sign. *)
Definition Z_of_signed (s : string) : option Z :=
  match s with
  | String c r =>
      if Ascii.eqb c "+" then Z.of_N <$> N_of_digits r
      else if Ascii.eqb c "-" then (λ n, - Z.of_N n) <$> N_of_digits r
      else Z.of_N <$> N_of_digits s
  | "" => None
  end.

(** The part of [s] before the first [sep], and the part after it if [sep]
    occurs. *)
Fixpoint split_at (sep : ascii) (s : string) : string * option string :=
  match s with
  | "" => ("", None)
  | String c r =>
      if Ascii.eqb c sep then ("", Some r)
      else match split_at sep r with (a, b) => (String c a, b) end
  end.

(** [Decimal(s)] for a finite number: sign, integer part, fraction and
    exponent.  The coefficient is the number that the digits of the integer
    part and of the fraction denote, and the exponent is lowered by the
    number of digits of the fraction. *)
Definition Decimal_of_body (sign : bool) (body : string) : option Decimal :=
  let '(mantissa, exponent) := split_at "E" body in
  let '(intpart, frac) := split_at "." mantissa in
  let fracpart := default "" frac in
  coeff ← N_of_digits (intpart +:+ fracpart);
  e ← match exponent with
      | None => Some 0
      | Some x => Z_of_signed x
      end;
  Some {| dsign := sign; dcoeff := coeff;
          dexp := e - Z.of_nat (String.length fracpart) |}.

(** [Decimal(s)]: an optional minus sign, then the body. *)
Definition Decimal_of_str (s : string) : option Decimal :=
  match s with
  | String c r => if Ascii.eqb c "-" then Decimal_of_body true r else Decimal_of_body false s
  | "" => None
  end.

(** A string of digits. *)
Fixpoint string_forall (p : ascii → bool) (s : string) : bool :=
  match s with
  | "" => true
  | String c r => p c && string_forall p r
  end.

Definition is_digit (c : ascii) : bool :=
  match Ascii.is_nat c with Some _ => true | None => false end.

Definition all_digits : string → bool := string_forall is_digit.

(** The fraction and the exponent as [str] writes them, when present. *)
Definition dot_fraction (fd : option string) : string :=
  match fd with Some f => "." +:+ f | None => "" end.

Definition e_exponent (ex : option Z) : string :=
  match ex with Some z => "E" +:+ signed z | None => "" end.

Definition fraction (fd : option string) : string :=
  match fd with Some f => f | None => "" end.

Definition exponent_of (ex : option Z) : Z :=
  match ex with Some z => z | None => 0 end.

(** ** The invoice and the payload *)

(** One ledger line, as [get_ledger_lines] returns them. *)
Record LedgerLine := {
  code : string;
  vat_percentage : Z;
  total_amount_excl_vat : Decimal;
  description : string
}.

(** The customer element is identified by the application's relation key. *)
Definition Customer := string.

(** What the application-specific subclass supplies.  The getters of
    [ExactInvoice] read the application's invoice and are taken as fields:
    two calls of a getter give the same value. *)
Record Invoice := {
  get_customer : Customer;
  get_created_date : date;
  get_exact_journal : string;
  get_ledger_lines : list LedgerLine;
  get_invoice_number : string;
  get_total_amount_incl_vat : Decimal;
  get_total_vat : Decimal;
  hint_exact_invoice_number : pyval
}.

(** A record of the remote, and one entry of [SalesEntryLines]. *)
Abbreviation record := (gmap string pyval).

(** A value of the payload: a scalar, or the list of sales entry lines. *)
Inductive field :=
  | Scalar (v : pyval)
  | Lines (l : list record).

Global Instance field_eq_dec : EqDecision field.
Proof. solve_decision. Defined.

Abbreviation payload := (gmap string field).

(** ** The collaborators *)

(** Every call that leaves [invoice.py], and the warning. *)
Inductive event :=
  | EvInvoicesGet (invoice_number : string)
  | EvInvoicesCreate (data : payload)
  | EvInvoicesUpdate (guid : pyval) (data : payload)
  | EvLedgerFilter (code__in : gset string)
  | EvCustomerGetName (c : Customer)
  | EvCustomerGetGuid (c : Customer)
  | EvCustomerCommit (c : Customer)
  | EvWarn (msg : string).

Global Instance event_eq_dec : EqDecision event.
Proof. solve_decision. Defined.

(** The operations of the API client and of the customer element, over the
    state [W] of the remote.  Each may fail with any exception. *)
Record Api (W : Type) := {
  invoices_get : string -> W -> outcome record * W;
  invoices_create : payload -> W -> outcome record * W;
  invoices_update : pyval -> payload -> W -> outcome (option record) * W;
  ledgeraccounts_filter : gset string -> W -> outcome (list record) * W;
  customer_get_name : Customer -> W -> outcome string * W;
  customer_get_guid : Customer -> W -> outcome pyval * W;
  customer_commit : Customer -> W -> outcome unit * W
}.
Arguments invoices_get {W} _ _ _.
Arguments invoices_create {W} _ _ _.
Arguments invoices_update {W} _ _ _ _.
Arguments ledgeraccounts_filter {W} _ _ _.
Arguments customer_get_name {W} _ _ _.
Arguments customer_get_guid {W} _ _ _.
Arguments customer_commit {W} _ _ _.

(** ** Computations: remote state, exceptions and the trace of calls *)

Module Run.

(** A computation runs from a remote state to an outcome, the new remote
    state and the events it emitted, oldest first.  An exception keeps the
    state and the events reached so far. *)
Definition M (W A : Type) : Type := W -> outcome A * W * list event.

Definition ret {W A} (a : A) : M W A := fun w => (Ok a, w, []).

Definition raise {W A} (e : exn) : M W A := fun w => (Raise e, w, []).

Definition bind {W A B} (m : M W A) (k : A -> M W B) : M W B :=
  fun w =>
    match m w with
    | (Ok a, w1, t1) =>
        match k a w1 with
        | (r, w2, t2) => (r, w2, t1 ++ t2)
        end
    | (Raise e, w1, t1) => (Raise e, w1, t1)
    end.

(** A pure step that may raise. *)
Definition lift {W A} (o : outcome A) : M W A := fun w => (o, w, []).

(** A call to a collaborator. *)
Definition call {W A} (ev : event) (f : W -> outcome A * W) : M W A :=
  fun w => match f w with (r, w1) => (r, w1, [ev]) end.

(** [try: m except e: h] *)
Definition try_except {W A} (m : M W A) (e : exn) (h : M W A) : M W A :=
  fun w =>
    match m w with
    | (Raise e', w1, t1) =>
        if decide (e' = e) then
          match h w1 with
          | (r, w2, t2) => (r, w2, t1 ++ t2)
          end
        else (Raise e', w1, t1)
    | r => r
    end.

(** [warnings.warn(msg)]: reported, and the program goes on. *)
Definition warn {W} (msg : string) : M W unit := fun w => (Ok tt, w, [EvWarn msg]).

End Run.

Import Run.

Global Instance M_ret {W} : MRet (M W) := fun A => ret.
Global Instance M_bind {W} : MBind (M W) := fun A B k m => bind m k.

(** ** [ExactInvoice] *)

Section ExactInvoice.

Context {W : Type} (api : Api W).

(** [ExactInvoice.get_guid] *)
Definition get_guid (self : Invoice) : M W pyval :=
  exact_invoice ← call (EvInvoicesGet (get_invoice_number self))
                    (invoices_get api (get_invoice_number self));
  match exact_invoice !! "EntryID" with
  | Some guid => mret guid
  | None => raise (KeyError "EntryID")
  end.

(** [dict((unicode(i['Code']), i['ID']) for i in ledger_ids)]: rows are
    read in order, a later row with the same code replaces the earlier. *)
Fixpoint ledger_dict (rows : list record) (acc : record) : outcome record :=
  match rows with
  | [] => Ok acc
  | i :: rest =>
      match i !! "Code" with
      | None => Raise (KeyError "Code")
      | Some c =>
          match i !! "ID" with
          | None => Raise (KeyError "ID")
          | Some id => ledger_dict rest (<[unicode c := id]> acc)
          end
      end
  end.

(** The VAT code of a line (the [if]/[elif]/[else] of the loop). *)
Definition vatcode_of (vat : Z) : outcome string :=
  if vat =? 0 then Ok "0  "
  else if vat =? 21 then Ok "2  "
  else Raise (NotImplementedError ("Unknown VAT: " +:+ pretty vat)).

(** The body of the loop over the ledger lines, up to the [append].
    [ledger_ids] is only bound when the lookup was made. *)
Definition assemble_line (ledger_ids : option record) (ledger_line : LedgerLine)
  : outcome record :=
  match ledger_ids with
  | None => Raise (UnboundLocalError "ledger_ids")
  | Some ids =>
      match ids !! code ledger_line with
      | None =>
          Raise (ExactOnlineError
                   ("Cannot submit invoice with ledger code " +:+ code ledger_line))
      | Some ledger_id =>
          match vatcode_of (vat_percentage ledger_line) with
          | Raise e => Raise e
          | Ok vatcode =>
              Ok (<["AmountDC" := PyStr (str (total_amount_excl_vat ledger_line))]>
                 (<["AmountFC" := PyStr (str (total_amount_excl_vat ledger_line))]>
                 (<["Description" := PyStr (description ledger_line)]>
                 (<["GLAccount" := ledger_id]>
                 (<["VATCode" := PyStr vatcode]> ∅)))))
          end
      end
  end.

(** [data['SalesEntryLines'].append(line)] *)
Definition append_line (line : record) (data : payload) : outcome payload :=
  match data !! "SalesEntryLines" with
  | Some (Lines l) => Ok (<["SalesEntryLines" := Lines (l ++ [line])]> data)
  | Some (Scalar _) => Raise (AttributeError "append")
  | None => Raise (KeyError "SalesEntryLines")
  end.

(** The loop [for ledger_line in self.get_ledger_lines()]. *)
Fixpoint assemble_lines (ledger_ids : option record) (lines : list LedgerLine)
    (data : payload) : outcome payload :=
  match lines with
  | [] => Ok data
  | ledger_line :: rest =>
      match assemble_line ledger_ids ledger_line with
      | Raise e => Raise e
      | Ok line =>
          match append_line line data with
          | Raise e => Raise e
          | Ok data' => assemble_lines ledger_ids rest data'
          end
      end
  end.

(** The customer's identifier: created first when it does not exist. *)
Definition customer_guid_of (customer : Customer) : M W pyval :=
  try_except
    (call (EvCustomerGetGuid customer) (customer_get_guid api customer))
    ObjectDoesNotExist
    (call (EvCustomerCommit customer) (customer_commit api customer);;
     call (EvCustomerGetGuid customer) (customer_get_guid api customer)).

(** The lookup of the ledger codes, [if ledger_lines:]. *)
Definition fetch_ledger_ids (ledger_lines : list LedgerLine) : M W (option record) :=
  match ledger_lines with
  | [] => mret None
  | _ :: _ =>
      let codes : gset string := list_to_set (code <$> ledger_lines) in
      rows ← call (EvLedgerFilter codes) (ledgeraccounts_filter api codes);
      ids ← lift (ledger_dict rows ∅);
      mret (Some ids)
  end.

(** The dictionary [data] that [assemble] compiles, with its empty
    [SalesEntryLines]. *)
Definition compile_data (self : Invoice) (description : string)
    (customer_guid : pyval) (entry_date : string) : payload :=
  <["AmountDC" := Scalar (PyStr (str (get_total_amount_incl_vat self)))]>
 (<["AmountFC" := Scalar (PyStr (str (get_total_amount_incl_vat self)))]>
 (<["EntryDate" := Scalar (PyStr entry_date)]>
 (<["Customer" := Scalar customer_guid]>
 (<["Description" := Scalar (PyStr description)]>
 (<["Journal" := Scalar (PyStr (get_exact_journal self))]>
 (<["ReportingPeriod" := Scalar (PyInt (month (get_created_date self)))]>
 (<["ReportingYear" := Scalar (PyInt (year (get_created_date self)))]>
 (<["SalesEntryLines" := Lines []]>
 (<["VATAmountDC" := Scalar (PyStr (str (get_total_vat self)))]>
 (<["VATAmountFC" := Scalar (PyStr (str (get_total_vat self)))]>
 (<["YourRef" := Scalar (PyStr (get_invoice_number self))]>
 (<["InvoiceNumber" := Scalar (hint_exact_invoice_number self)]>
    (∅ : payload))))))))))))).

(** [ExactInvoice.assemble], up to the dictionary [data]: the description,
    the customer's identifier and the entry date. *)
Definition assemble_header (self : Invoice) : M W payload :=
  let invoice_number := get_invoice_number self in
  let customer := get_customer self in
  let created_date := get_created_date self in
  name ← call (EvCustomerGetName customer) (customer_get_name api customer);
  month_year ← lift (strftime created_date "%m-%Y");
  let description := invoice_number +:+ " - " +:+ name +:+ ", " +:+ month_year in
  customer_guid ← customer_guid_of customer;
  entry_date ← lift (strftime created_date "%Y-%m-%dT%H:%M:%SZ");
  mret (compile_data self description customer_guid entry_date).

(** [ExactInvoice.assemble]: the header, the lookup of the ledger codes,
    and the loop over the ledger lines.  The [assert] on the type of the
    first code holds by typing: [code] is a string. *)
Definition assemble (self : Invoice) : M W payload :=
  data ← assemble_header self;
  let ledger_lines := get_ledger_lines self in
  ledger_ids ← fetch_ledger_ids ledger_lines;
  lift (assemble_lines ledger_ids (get_ledger_lines self) data).

(** [data.pop('SalesEntryLines')]: the removed value and the rest. *)
Definition pop_lines (data : payload) : outcome (field * payload) :=
  match data !! "SalesEntryLines" with
  | Some salesentrylines => Ok (salesentrylines, delete "SalesEntryLines" data)
  | None => Raise (KeyError "SalesEntryLines")
  end.

(** [ExactInvoice.commit] *)
Definition commit (self : Invoice) : M W (option record) :=
  exact_guid ← try_except (get_guid self) ObjectDoesNotExist (mret PyNone);
  data ← assemble self;
  if truthy exact_guid then
    popped ← lift (pop_lines data);
    let data' := popped.2 in
    ret_ ← call (EvInvoicesUpdate exact_guid data') (invoices_update api exact_guid data');
    warn "PUT of SalesEntry SalesEntryLines is not supported yet!";;
    mret ret_
  else
    ret_ ← call (EvInvoicesCreate data) (invoices_create api data);
    mret (Some ret_).

End ExactInvoice.

(** The description that [assemble] computes from the customer's name:
    invoice number, name, month and year. *)
Definition description_of (self : Invoice) (name : string) : string :=
  get_invoice_number self +:+ " - " +:+ name +:+ ", " +:+
  strftime_go (get_created_date self) "%m-%Y".

(** ** Counting the calls of a trace *)

Definition is_customer_commit (ev : event) : bool :=
  match ev with EvCustomerCommit _ => true | _ => false end.

Definition is_customer_get_guid (ev : event) : bool :=
  match ev with EvCustomerGetGuid _ => true | _ => false end.

Definition is_ledger_filter (ev : event) : bool :=
  match ev with EvLedgerFilter _ => true | _ => false end.

Definition is_invoices_get (ev : event) : bool :=
  match ev with EvInvoicesGet _ => true | _ => false end.

Definition is_invoices_create (ev : event) : bool :=
  match ev with EvInvoicesCreate _ => true | _ => false end.

Definition is_invoices_update (ev : event) : bool :=
  match ev with EvInvoicesUpdate _ _ => true | _ => false end.

Definition is_warn (ev : event) : bool :=
  match ev with EvWarn _ => true | _ => false end.

(** The number of events of a kind in a trace. *)
Fixpoint count (p : event → bool) (t : list event) : nat :=
  match t with
  | [] => 0%nat
  | ev :: t' => ((if p ev then 1 else 0) + count p t')%nat
  end.

(** ** A small remote, to run the code on concrete invoices *)

Module Remote.

(** The customers known remotely (relation key to identifier), the invoices
    by invoice number, and the ledger accounts (code to identifier). *)
Record remote := {
  customers : gmap string pyval;
  invoices : gmap string record;
  ledgeraccounts : gmap string pyval
}.

Definition find {A} (o : option A) : outcome A :=
  match o with
  | Some a => Ok a
  | None => Raise ObjectDoesNotExist
  end.

Definition row (c : string) (id : pyval) : record :=
  <["Code" := PyStr c]> (<["ID" := id]> ∅).

Definition your_ref (data : payload) : string :=
  match data !! "YourRef" with
  | Some (Scalar (PyStr s)) => s
  | _ => ""
  end.

(** Modelled from the spec: the API client ([self._api]) and the customer
    element are not part of [invoice.py].  This is a smallest remote with
    their interface ([invoices.get], [create] and [update],
    [ledgeraccounts.filter], [customer.get_guid], [commit] and [get_name]):
    lookups fail with [ObjectDoesNotExist] for what is not there, creations
    add a record.  It serves to run the code on concrete invoices; the
    theorems hold for every [Api]. *)
Definition api : Api remote := {|
  invoices_get := fun n w => (find (invoices w !! n), w);
  invoices_create := fun data w =>
    let r : record := <["EntryID" := PyStr ("guid-" +:+ your_ref data)]> ∅ in
    (Ok r, {| customers := customers w;
              invoices := <[your_ref data := r]> (invoices w);
              ledgeraccounts := ledgeraccounts w |});
  invoices_update := fun guid data w => (Ok None, w);
  ledgeraccounts_filter := fun codes w =>
    (Ok (omap (fun c => row c <$> ledgeraccounts w !! c) (elements codes)), w);
  customer_get_name := fun c w => (Ok ("Relation " +:+ c), w);
  customer_get_guid := fun c w => (find (customers w !! c), w);
  customer_commit := fun c w =>
    (Ok tt, {| customers := <[c := PyStr ("cust-" +:+ c)]> (customers w);
               invoices := invoices w;
               ledgeraccounts := ledgeraccounts w |})
|}.

(** A remote that knows ledger account 1234 and nothing else. *)
Definition fresh : remote := {|
  customers := ∅;
  invoices := ∅;
  ledgeraccounts := <["1234" := PyStr "ledger-1234"]> ∅
|}.

(** The invoice of the example: INV-001 of 2024-03-15, 121.00 including
    21.00 VAT, one line of 100.00 at 21%. *)
Definition goods : LedgerLine := {|
  code := "1234";
  vat_percentage := 21;
  total_amount_excl_vat := {| dsign := false; dcoeff := 10000; dexp := -2 |};
  description := "Goods"
|}.

Definition inv001 : Invoice := {|
  get_customer := "ACME";
  get_created_date := {| year := 2024; month := 3; day := 15 |};
  get_exact_journal := "70";
  get_ledger_lines := [goods];
  get_invoice_number := "INV-001";
  get_total_amount_incl_vat := {| dsign := false; dcoeff := 12100; dexp := -2 |};
  get_total_vat := {| dsign := false; dcoeff := 2100; dexp := -2 |};
  hint_exact_invoice_number := PyNone
|}.

(** An invoice whose first line has a known ledger account and 5% VAT, and
    whose second line has a ledger code that the remote does not know. *)
Definition mixed : Invoice := {|
  get_customer := "ACME";
  get_created_date := {| year := 2024; month := 3; day := 15 |};
  get_exact_journal := "70";
  get_ledger_lines :=
    [ {| code := "1234"; vat_percentage := 5;
         total_amount_excl_vat := {| dsign := false; dcoeff := 10000; dexp := -2 |};
         description := "Books" |};
      {| code := "9999"; vat_percentage := 0;
         total_amount_excl_vat := {| dsign := false; dcoeff := 500; dexp := -2 |};
         description := "Postage" |} ];
  get_invoice_number := "INV-002";
  get_total_amount_incl_vat := {| dsign := false; dcoeff := 11000; dexp := -2 |};
  get_total_vat := {| dsign := false; dcoeff := 500; dexp := -2 |};
  hint_exact_invoice_number := PyNone
|}.

(** An invoice whose first line is well and whose second line has a ledger
    code that the remote does not know. *)
Definition unresolved : Invoice := {|
  get_customer := "ACME";
  get_created_date := {| year := 2024; month := 3; day := 15 |};
  get_exact_journal := "70";
  get_ledger_lines :=
    [ goods;
      {| code := "9999"; vat_percentage := 0;
         total_amount_excl_vat := {| dsign := false; dcoeff := 500; dexp := -2 |};
         description := "Postage" |} ];
  get_invoice_number := "INV-003";
  get_total_amount_incl_vat := {| dsign := false; dcoeff := 12600; dexp := -2 |};
  get_total_vat := {| dsign := false; dcoeff := 2100; dexp := -2 |};
  hint_exact_invoice_number := PyNone
|}.

(** An invoice whose only line has 5% VAT and a ledger code that the remote
    does not know. *)
Definition unlisted : Invoice := {|
  get_customer := "ACME";
  get_created_date := {| year := 2024; month := 3; day := 15 |};
  get_exact_journal := "70";
  get_ledger_lines :=
    [ {| code := "9999"; vat_percentage := 5;
         total_amount_excl_vat := {| dsign := false; dcoeff := 10000; dexp := -2 |};
         description := "Books" |} ];
  get_invoice_number := "INV-005";
  get_total_amount_incl_vat := {| dsign := false; dcoeff := 10500; dexp := -2 |};
  get_total_vat := {| dsign := false; dcoeff := 500; dexp := -2 |};
  hint_exact_invoice_number := PyNone
|}.

(** An invoice without ledger lines. *)
Definition no_lines : Invoice := {|
  get_customer := "ACME";
  get_created_date := {| year := 2024; month := 3; day := 15 |};
  get_exact_journal := "70";
  get_ledger_lines := [];
  get_invoice_number := "INV-004";
  get_total_amount_incl_vat := {| dsign := false; dcoeff := 0; dexp := -2 |};
  get_total_vat := {| dsign := false; dcoeff := 0; dexp := -2 |};
  hint_exact_invoice_number := PyNone
|}.

(** A remote that already has the customer ACME and the invoice INV-001. *)
Definition known : remote := {|
  customers := <["ACME" := PyStr "cust-ACME"]> ∅;
  invoices := <["INV-001" := <["EntryID" := PyStr "guid-INV-001"]> ∅]> ∅;
  ledgeraccounts := <["1234" := PyStr "ledger-1234"]> ∅
|}.

(** A remote whose record of INV-001 carries no identifier. *)
Definition blank : remote := {|
  customers := <["ACME" := PyStr "cust-ACME"]> ∅;
  invoices := <["INV-001" := <["EntryID" := PyNone]> ∅]> ∅;
  ledgeraccounts := <["1234" := PyStr "ledger-1234"]> ∅
|}.

End Remote.

(** ** Looking into a run *)

(** The value a run returned, or [dflt] when it raised. *)
Definition returned {W A} (run : outcome A * W * list event) (dflt : A) : A :=
  match run.1.1 with
  | Ok a => a
  | Raise _ => dflt
  end.

(** The remote state and the trace a run ended with. *)
Definition final {W A} (run : outcome A * W * list event) : W := run.1.2.

Definition calls {W A} (run : outcome A * W * list event) : list event := run.2.

(** The text of the warning of the update path. *)
Definition put_warning : string :=
  "PUT of SalesEntry SalesEntryLines is not supported yet!".

(** C2 as the specification words it: every ledger line that the loop
    processes gets the code of its percentage, "0  " for 0 and "2  " for 21,
    and any other percentage makes [assemble] fail with the unsupported-input
    failure, [NotImplementedError].  A line is processed when the lines
    before it each gave an entry. *)
Definition processed_line_gets_vatcode {W} (api : Api W)
    (self : Invoice) (w : W) : Prop :=
  ∀ data0 w1 t1 ids w2 t2 pre line post,
    assemble_header api self w = (Ok data0, w1, t1) →
    fetch_ledger_ids api (get_ledger_lines self) w1 = (Ok (Some ids), w2, t2) →
    get_ledger_lines self = pre ++ line :: post →
    Forall (λ l, ∃ entry, assemble_line (Some ids) l = Ok entry) pre →
    let vat := vat_percentage line in
    let yields (vatcode : string) :=
      ∃ entry, assemble_line (Some ids) line = Ok entry ∧
               entry !! "VATCode" = Some (PyStr vatcode) in
    (vat = 0 → yields "0  ") ∧
    (vat = 21 → yields "2  ") ∧
    (vat ≠ 0 → vat ≠ 21 →
     ∃ msg, (assemble api self w).1.1 = Raise (NotImplementedError msg)).

(** C3 as the specification words it: an absent ledger code always surfaces
    as an [ExactOnlineError]. *)
Definition absent_code_raises_ExactOnlineError {W} (api : Api W)
    (self : Invoice) (w : W) : Prop :=
  ∀ data0 w1 t1 ids w2 t2 line,
    assemble_header api self w = (Ok data0, w1, t1) →
    fetch_ledger_ids api (get_ledger_lines self) w1 = (Ok (Some ids), w2, t2) →
    line ∈ get_ledger_lines self →
    ids !! code line = None →
    ∃ msg, (assemble api self w).1.1 = Raise (ExactOnlineError msg).

(** ** The keys of the payload *)

(** The keys of the dictionary that [assemble] returns. *)
Definition payload_keys : gset string :=
  list_to_set
    ["AmountDC"; "AmountFC"; "EntryDate"; "Customer"; "Description"; "Journal";
     "ReportingPeriod"; "ReportingYear"; "SalesEntryLines"; "VATAmountDC";
     "VATAmountFC"; "YourRef"; "InvoiceNumber"].

(** The keys of one entry of [SalesEntryLines]. *)
Definition entry_keys : gset string :=
  list_to_set ["AmountDC"; "AmountFC"; "Description"; "GLAccount"; "VATCode"].

(** The traces that a run of [assemble] can leave: the customer's name, its
    identifier (with a creation and a second lookup when it was missing),
    and the lookup of the ledger codes. *)
Definition assemble_traces (c : Customer) (codes : gset string) : list (list event) :=
  [ [EvCustomerGetName c];
    [EvCustomerGetName c; EvCustomerGetGuid c];
    [EvCustomerGetName c; EvCustomerGetGuid c; EvCustomerCommit c];
    [EvCustomerGetName c; EvCustomerGetGuid c; EvCustomerCommit c; EvCustomerGetGuid c];
    [EvCustomerGetName c; EvCustomerGetGuid c; EvLedgerFilter codes];
    [EvCustomerGetName c; EvCustomerGetGuid c; EvCustomerCommit c; EvCustomerGetGuid c;
     EvLedgerFilter codes] ].

(** The row, if any, that decides the identifier of the code [c]: the last
    one whose [Code] reads [c]. *)
Definition row_has_code (c : string) (i : record) : Prop :=
  unicode <$> i !! "Code" = Some c.

Global Instance row_has_code_dec c i : Decision (row_has_code c i).
Proof. unfold row_has_code. apply _. Defined.

(** What a request of [commit] must look like: a creation carries all the
    keys, an update goes with an identifier that is true and carries all the
    keys but the line items. *)
Definition well_formed_request (ev : event) : Prop :=
  match ev with
  | EvInvoicesCreate data => dom data = payload_keys
  | EvInvoicesUpdate guid data =>
      truthy guid = true ∧ dom data = payload_keys ∖ {["SalesEntryLines"]}
  | _ => True
  end.

(** One lookup of the invoice, at most one request, no warning without an
    update, and well-formed requests only. *)
Definition submits_once (t : list event) : Prop :=
  (count is_invoices_create t + count is_invoices_update t ≤ 1)%nat ∧
  (count is_warn t ≤ count is_invoices_update t)%nat ∧
  count is_invoices_get t = 1%nat ∧
  Forall well_formed_request t.

(** ** The class and its getters *)

(** [ExactInvoice] is a base class: an application subclasses it and
    overrides the getters.  Here the getters are what a call of them gives,
    a value or an exception, and [assemble] and [commit] call them where the
    source does. *)
Module Class.

(** What [get_created_date] hands back: a date, or another object.
    [ExactInvoice.get_created_date] itself returns (it does not raise) a
    [NotImplementedError] instance. *)
Inductive created :=
  | ADate (d : date)
  | AnExceptionObject.

Record methods := {
  get_customer : outcome Customer;
  get_created_date : outcome created;
  get_exact_journal : outcome string;
  get_ledger_lines : outcome (list LedgerLine);
  get_invoice_number : outcome string;
  get_total_amount_incl_vat : outcome Decimal;
  get_total_vat : outcome Decimal;
  hint_exact_invoice_number : outcome pyval
}.

(** The getters of [ExactInvoice] as they stand, without a subclass. *)
Definition ExactInvoice : methods := {|
  get_customer := Raise (NotImplementedError "");
  get_created_date := Ok AnExceptionObject;
  get_exact_journal := Raise (NotImplementedError "");
  get_ledger_lines := Raise (NotImplementedError "");
  get_invoice_number := Raise (NotImplementedError "");
  get_total_amount_incl_vat := Raise (NotImplementedError "");
  get_total_vat := Raise (NotImplementedError "");
  hint_exact_invoice_number := Raise (NotImplementedError "")
|}.

(** [created_date.strftime(fmt)] *)
Definition strftime_of (created_date : created) (fmt : string) : outcome string :=
  match created_date with
  | ADate d => strftime d fmt
  | AnExceptionObject => Raise (AttributeError "strftime")
  end.

(** [created_date.month] and [created_date.year] *)
Definition attribute_of (created_date : created) (name : string) (get : date → Z)
  : outcome Z :=
  match created_date with
  | ADate d => Ok (get d)
  | AnExceptionObject => Raise (AttributeError name)
  end.

Section Methods.

Context {W : Type} (api : Api W) (self : methods).

(** [ExactInvoice.get_guid]: the invoice number is asked for first. *)
Definition get_guid : M W pyval :=
  invoice_number ← lift (get_invoice_number self);
  exact_invoice ← call (EvInvoicesGet invoice_number) (invoices_get api invoice_number);
  match exact_invoice !! "EntryID" with
  | Some guid => mret guid
  | None => raise (KeyError "EntryID")
  end.

(** [ExactInvoice.assemble], with each getter called where the source calls
    it: five of them before anything else, the journal and the hint while
    the dictionary is compiled, and the ledger lines twice, before the lookup
    and for the loop. *)
Definition assemble : M W payload :=
  invoice_number ← lift (get_invoice_number self);
  customer ← lift (get_customer self);
  total_amount_incl_vat ← lift (get_total_amount_incl_vat self);
  total_vat ← lift (get_total_vat self);
  created_date ← lift (get_created_date self);
  name ← call (EvCustomerGetName customer) (customer_get_name api customer);
  month_year ← lift (strftime_of created_date "%m-%Y");
  let description := invoice_number +:+ " - " +:+ name +:+ ", " +:+ month_year in
  customer_guid ← customer_guid_of api customer;
  entry_date ← lift (strftime_of created_date "%Y-%m-%dT%H:%M:%SZ");
  journal ← lift (get_exact_journal self);
  reporting_period ← lift (attribute_of created_date "month" month);
  reporting_year ← lift (attribute_of created_date "year" year);
  hint ← lift (hint_exact_invoice_number self);
  let data : payload :=
    <["AmountDC" := Scalar (PyStr (str total_amount_incl_vat))]>
   (<["AmountFC" := Scalar (PyStr (str total_amount_incl_vat))]>
   (<["EntryDate" := Scalar (PyStr entry_date)]>
   (<["Customer" := Scalar customer_guid]>
   (<["Description" := Scalar (PyStr description)]>
   (<["Journal" := Scalar (PyStr journal)]>
   (<["ReportingPeriod" := Scalar (PyInt reporting_period)]>
   (<["ReportingYear" := Scalar (PyInt reporting_year)]>
   (<["SalesEntryLines" := Lines []]>
   (<["VATAmountDC" := Scalar (PyStr (str total_vat))]>
   (<["VATAmountFC" := Scalar (PyStr (str total_vat))]>
   (<["YourRef" := Scalar (PyStr invoice_number)]>
   (<["InvoiceNumber" := Scalar hint]> ∅)))))))))))) in
  ledger_lines ← lift (get_ledger_lines self);
  ledger_ids ← fetch_ledger_ids api ledger_lines;
  ledger_lines' ← lift (get_ledger_lines self);
  lift (assemble_lines ledger_ids ledger_lines' data).

(** [ExactInvoice.commit] *)
Definition commit : M W (option record) :=
  exact_guid ← try_except get_guid ObjectDoesNotExist (mret PyNone);
  data ← assemble;
  if truthy exact_guid then
    popped ← lift (pop_lines data);
    let data' := popped.2 in
    ret_ ← call (EvInvoicesUpdate exact_guid data') (invoices_update api exact_guid data');
    warn "PUT of SalesEntry SalesEntryLines is not supported yet!";;
    mret ret_
  else
    ret_ ← call (EvInvoicesCreate data) (invoices_create api data);
    mret (Some ret_).

End Methods.

End Class.

(** A subclass that overrides every getter, with the values of [inv]. *)
Definition subclass (inv : Invoice) : Class.methods := {|
  Class.get_customer := Ok (get_customer inv);
  Class.get_created_date := Ok (Class.ADate (get_created_date inv));
  Class.get_exact_journal := Ok (get_exact_journal inv);
  Class.get_ledger_lines := Ok (get_ledger_lines inv);
  Class.get_invoice_number := Ok (get_invoice_number inv);
  Class.get_total_amount_incl_vat := Ok (get_total_amount_incl_vat inv);
  Class.get_total_vat := Ok (get_total_vat inv);
  Class.hint_exact_invoice_number := Ok (hint_exact_invoice_number inv)
|}.

(** ** A remote that fails, and subclasses that leave a getter out *)

Module Outage.

(** The one thing that is out of order: a call that fails, a creation of
    the customer that reports success and stores nothing, or a ledger lookup
    whose rows carry no [ID]. *)
Inductive fault :=
  | InvoicesGet
  | InvoicesCreate
  | InvoicesUpdate
  | LedgerFilter
  | CustomerGetName
  | CustomerGetGuid
  | CustomerCommit
  | CommitLost
  | RowsWithoutID.

Definition unavailable : exn := RemoteError "503 Service Unavailable".

(** Modelled from the spec: the API client and the customer element are not
    part of [invoice.py].  This is [Remote.api] with one thing out of order,
    to run the code against a collaborator that fails; the theorems hold for
    every [Api]. *)
Definition client (f : fault) : Api Remote.remote := {|
  invoices_get := fun n w =>
    match f with
    | InvoicesGet => (Raise unavailable, w)
    | _ => invoices_get Remote.api n w
    end;
  invoices_create := fun data w =>
    match f with
    | InvoicesCreate => (Raise unavailable, w)
    | _ => invoices_create Remote.api data w
    end;
  invoices_update := fun guid data w =>
    match f with
    | InvoicesUpdate => (Raise unavailable, w)
    | _ => invoices_update Remote.api guid data w
    end;
  ledgeraccounts_filter := fun codes w =>
    match f with
    | LedgerFilter => (Raise unavailable, w)
    | RowsWithoutID => (Ok ((fun c => <["Code" := PyStr c]> ∅) <$> elements codes), w)
    | _ => ledgeraccounts_filter Remote.api codes w
    end;
  customer_get_name := fun c w =>
    match f with
    | CustomerGetName => (Raise unavailable, w)
    | _ => customer_get_name Remote.api c w
    end;
  customer_get_guid := fun c w =>
    match f with
    | CustomerGetGuid => (Raise unavailable, w)
    | _ => customer_get_guid Remote.api c w
    end;
  customer_commit := fun c w =>
    match f with
    | CustomerCommit => (Raise unavailable, w)
    | CommitLost => (Ok tt, w)
    | _ => customer_commit Remote.api c w
    end
|}.

(** A remote whose record of INV-001 has no [EntryID] at all. *)
Definition untagged : Remote.remote := {|
  Remote.customers := <["ACME" := PyStr "cust-ACME"]> ∅;
  Remote.invoices := <["INV-001" := ∅]> ∅;
  Remote.ledgeraccounts := <["1234" := PyStr "ledger-1234"]> ∅
|}.

(** Rows of a ledger lookup in which the code 1234 comes twice. *)
Definition twice : list record :=
  [ Remote.row "1234" (PyStr "ledger-old");
    Remote.row "5678" (PyStr "ledger-5678");
    Remote.row "1234" (PyStr "ledger-new") ].

(** INV-001 as a subclass that overrides every getter but one, which stays
    as [ExactInvoice] has it. *)
Definition without_total_vat : Class.methods := {|
  Class.get_customer := Ok "ACME";
  Class.get_created_date := Ok (Class.ADate {| year := 2024; month := 3; day := 15 |});
  Class.get_exact_journal := Ok "70";
  Class.get_ledger_lines := Ok [Remote.goods];
  Class.get_invoice_number := Ok "INV-001";
  Class.get_total_amount_incl_vat := Ok {| dsign := false; dcoeff := 12100; dexp := -2 |};
  Class.get_total_vat := Class.get_total_vat Class.ExactInvoice;
  Class.hint_exact_invoice_number := Ok PyNone
|}.

Definition without_created_date : Class.methods := {|
  Class.get_customer := Ok "ACME";
  Class.get_created_date := Class.get_created_date Class.ExactInvoice;
  Class.get_exact_journal := Ok "70";
  Class.get_ledger_lines := Ok [Remote.goods];
  Class.get_invoice_number := Ok "INV-001";
  Class.get_total_amount_incl_vat := Ok {| dsign := false; dcoeff := 12100; dexp := -2 |};
  Class.get_total_vat := Ok {| dsign := false; dcoeff := 2100; dexp := -2 |};
  Class.hint_exact_invoice_number := Ok PyNone
|}.

Definition without_journal : Class.methods := {|
  Class.get_customer := Ok "ACME";
  Class.get_created_date := Ok (Class.ADate {| year := 2024; month := 3; day := 15 |});
  Class.get_exact_journal := Class.get_exact_journal Class.ExactInvoice;
  Class.get_ledger_lines := Ok [Remote.goods];
  Class.get_invoice_number := Ok "INV-001";
  Class.get_total_amount_incl_vat := Ok {| dsign := false; dcoeff := 12100; dexp := -2 |};
  Class.get_total_vat := Ok {| dsign := false; dcoeff := 2100; dexp := -2 |};
  Class.hint_exact_invoice_number := Ok PyNone
|}.

End Outage.

(** ** Amounts without an exponent *)

(** [s] writes [d] in plain notation: the sign, the digits of the integer
    part and, unless the exponent of [d] is 0, a point and as many digits as
    [d] has decimals. *)
Definition plain_notation (d : Decimal) (s : string) : Prop :=
  ∃ intpart fracpart,
    s = (if dsign d then "-" else "") +:+ intpart +:+
        (if dexp d =? 0 then "" else "." +:+ fracpart) ∧
    intpart ≠ "" ∧ all_digits intpart = true ∧ all_digits fracpart = true ∧
    String.length fracpart = Z.to_nat (- dexp d).

(** * Properties *)

(** An equation between closed terms, settled by evaluating both sides. *)
Ltac by_evaluation :=
  lazymatch goal with
  | |- ?lhs = ?rhs => vm_cast_no_check (@eq_refl _ rhs)
  end.

(** ** Strings of digits *)

Section Strings.

Implicit Types (a b c s : string) (k : nat).

Lemma string_app_cons ch a b : String ch a +:+ b = String ch (a +:+ b).
Proof. reflexivity. Qed.

Lemma string_app_nil_l s : "" +:+ s = s.
Proof. reflexivity. Qed.

Lemma string_app_nil_r s : s +:+ "" = s.
Proof. induction s as [|ch s IH]; [done|]. by rewrite string_app_cons, IH. Qed.

Lemma string_app_assoc a b c : (a +:+ b) +:+ c = a +:+ b +:+ c.
Proof. induction a as [|ch a IH]; [done|]. by rewrite !string_app_cons, IH. Qed.

Lemma string_length_app a b :
  String.length (a +:+ b) = (String.length a + String.length b)%nat.
Proof. induction a as [|ch a IH]; [done|]. rewrite string_app_cons. simpl. by rewrite IH. Qed.

Lemma length_zeros k : String.length (zeros k) = k.
Proof. induction k as [|k IH]; simpl; [done|]. by rewrite IH. Qed.

Lemma string_take_drop k s : string_take k s +:+ string_drop k s = s.
Proof.
  revert s. induction k as [|k IH]; intros [|ch s]; simpl; try done.
  by rewrite string_app_cons, IH.
Qed.

Lemma length_string_drop k s :
  String.length (string_drop k s) = (String.length s - k)%nat.
Proof. revert s. induction k as [|k IH]; intros [|ch s]; simpl; auto. Qed.

Lemma string_forall_app p a b :
  string_forall p (a +:+ b) = string_forall p a && string_forall p b.
Proof.
  induction a as [|ch a IH]; [done|]. rewrite string_app_cons. simpl.
  by rewrite IH, andb_assoc.
Qed.

Lemma string_forall_impl (p q : ascii → bool) s :
  (∀ ch, p ch = true → q ch = true) →
  string_forall p s = true → string_forall q s = true.
Proof.
  intros Hpq. induction s as [|ch s IH]; simpl; [done|].
  intros [Hp Hs]%andb_true_iff. rewrite (Hpq _ Hp). simpl. auto.
Qed.

Lemma all_digits_zeros k : all_digits (zeros k) = true.
Proof. induction k as [|k IH]; simpl; [done|]. exact IH. Qed.

Lemma all_digits_take_drop k s :
  all_digits s = true →
  all_digits (string_take k s) = true ∧ all_digits (string_drop k s) = true.
Proof.
  intros Hs. rewrite <-(string_take_drop k s) in Hs.
  unfold all_digits in *. rewrite string_forall_app in Hs.
  by apply andb_true_iff in Hs.
Qed.

(** A separator that is not a digit splits after the digits. *)
Lemma split_at_here sep a b :
  string_forall (λ ch, negb (Ascii.eqb ch sep)) a = true →
  split_at sep (a +:+ String sep b) = (a, Some b).
Proof.
  induction a as [|ch a IH]; simpl.
  - intros _. change ("" +:+ String sep b) with (String sep b). simpl.
    by rewrite Ascii.eqb_refl.
  - intros [Hch Ha]%andb_true_iff. apply negb_true_iff in Hch.
    rewrite ?string_app_cons. simpl. rewrite Hch. by rewrite IH.
Qed.

Lemma split_at_absent sep a :
  string_forall (λ ch, negb (Ascii.eqb ch sep)) a = true →
  split_at sep a = (a, None).
Proof.
  induction a as [|ch a IH]; simpl; [done|].
  intros [Hch Ha]%andb_true_iff. apply negb_true_iff in Hch. rewrite Hch.
  by rewrite IH.
Qed.

Lemma digits_free_of sep s :
  is_digit sep = false → all_digits s = true →
  string_forall (λ ch, negb (Ascii.eqb ch sep)) s = true.
Proof.
  intros Hsep. apply string_forall_impl. intros ch Hch.
  apply negb_true_iff. destruct (Ascii.eqb_spec ch sep) as [->|]; [congruence|done].
Qed.

Lemma digits_go_app a b acc :
  digits_go (a +:+ b) acc = digits_go a acc ≫= digits_go b.
Proof.
  revert acc. induction a as [|ch a IH]; intros acc; [done|].
  rewrite string_app_cons. simpl.
  destruct (Ascii.is_nat ch); [apply IH|done].
Qed.

Lemma digits_go_zeros k acc : acc = 0%N → digits_go (zeros k) acc = Some 0%N.
Proof. intros ->. induction k as [|k IH]; simpl; [done|]. exact IH. Qed.

End Strings.

(** ** The digits of a number *)

Section Digits.

Lemma is_nat_pretty_N_char x :
  (x < 10)%N → Ascii.is_nat (pretty_N_char x) = Some (N.to_nat x).
Proof.
  intros Hx.
  assert (x = 0 ∨ x = 1 ∨ x = 2 ∨ x = 3 ∨ x = 4 ∨ x = 5 ∨ x = 6 ∨ x = 7 ∨ x = 8
          ∨ x = 9)%N as Hcases by lia.
  repeat (destruct Hcases as [-> | Hcases]; [done|]). by subst.
Qed.

(** The digits are put in front of what is there already. *)
Lemma pretty_N_go_app x : ∀ s, pretty_N_go x s = pretty_N_go x "" +:+ s.
Proof.
  induction (N.lt_wf_0 x) as [x _ IH]; intros s.
  assert (x = 0 ∨ 0 < x)%N as [->|Hx] by lia; [done|].
  assert (Hlt : (x `div` 10 < x)%N) by (by apply N.div_lt).
  rewrite !(pretty_N_go_step x) by done.
  rewrite (IH _ Hlt (String _ s)), (IH _ Hlt (String _ "")).
  by rewrite string_app_assoc.
Qed.

Lemma all_digits_pretty_N_go x : all_digits (pretty_N_go x "") = true.
Proof.
  induction (N.lt_wf_0 x) as [x _ IH].
  assert (x = 0 ∨ 0 < x)%N as [->|Hx] by lia; [done|].
  rewrite pretty_N_go_step, pretty_N_go_app by done.
  unfold all_digits. rewrite string_forall_app. fold all_digits.
  rewrite IH by (by apply N.div_lt). unfold all_digits. simpl. unfold is_digit.
  rewrite is_nat_pretty_N_char; [done|]. by apply N.mod_lt.
Qed.

Lemma digits_go_pretty_N_go x : ∀ acc,
  digits_go (pretty_N_go x "") acc =
    Some (acc * 10 ^ N.of_nat (String.length (pretty_N_go x "")) + x)%N.
Proof.
  induction (N.lt_wf_0 x) as [x _ IH]; intros acc.
  assert (x = 0 ∨ 0 < x)%N as [->|Hx] by lia.
  { simpl. f_equal. lia. }
  rewrite pretty_N_go_step, pretty_N_go_app by done.
  rewrite digits_go_app, IH by (by apply N.div_lt). simpl.
  rewrite is_nat_pretty_N_char by (by apply N.mod_lt). f_equal.
  rewrite string_length_app. simpl.
  rewrite Nat2N.inj_add, N.pow_add_r, N2Nat.id. simpl.
  change (10 ^ N.of_nat 1)%N with 10%N.
  assert (Hdm := N.div_mod x 10). lia.
Qed.

Lemma all_digits_pretty (n : N) : all_digits (pretty n) = true.
Proof.
  unfold pretty, pretty_N. case_decide; [done|]. apply all_digits_pretty_N_go.
Qed.

Lemma digits_go_pretty (n : N) : digits_go (pretty n) 0 = Some n.
Proof.
  unfold pretty, pretty_N. case_decide as Hn; [by subst|].
  rewrite digits_go_pretty_N_go. f_equal; lia.
Qed.

(** A number has at least one digit. *)
Lemma pretty_N_nonempty (n : N) :
  ∃ ch r, pretty n = String ch r ∧ is_digit ch = true.
Proof.
  assert (Hd := all_digits_pretty n).
  destruct (pretty n) as [|ch r] eqn:Hp.
  - exfalso. unfold pretty, pretty_N in Hp. case_decide as Hn; [done|].
    rewrite pretty_N_go_step in Hp by lia.
    rewrite pretty_N_go_app in Hp. by destruct (pretty_N_go (n `div` 10) "").
  - exists ch, r. split; [done|]. by apply andb_true_iff in Hd as [? _].
Qed.

Lemma N_of_digits_pretty (n : N) : N_of_digits (pretty n) = Some n.
Proof.
  destruct (pretty_N_nonempty n) as (ch & r & Hp & _).
  unfold N_of_digits. rewrite <-(digits_go_pretty n). by rewrite Hp.
Qed.

Lemma Z_of_signed_plus r :
  Z_of_signed (String "+" r) = Z.of_N <$> N_of_digits r.
Proof. reflexivity. Qed.

Lemma Z_of_signed_minus r :
  Z_of_signed (String "-" r) = (λ n, - Z.of_N n) <$> N_of_digits r.
Proof. reflexivity. Qed.

Lemma Z_of_signed_signed z : Z_of_signed (signed z) = Some z.
Proof.
  destruct z as [|p|p]; [done|..].
  - change (signed (Z.pos p)) with (String "+" (pretty (N.pos p))).
    by rewrite Z_of_signed_plus, N_of_digits_pretty.
  - change (signed (Z.neg p)) with (String "-" (pretty (N.pos p))).
    by rewrite Z_of_signed_minus, N_of_digits_pretty.
Qed.

End Digits.

(** ** Reading back what [str] wrote *)

Section Roundtrip.

Lemma mantissa_free_of_E ip fd :
  all_digits ip = true →
  all_digits (fraction fd) = true →
  string_forall (λ ch, negb (Ascii.eqb ch "E")) (ip +:+ dot_fraction fd) = true.
Proof.
  intros Hip Hfd. rewrite string_forall_app.
  rewrite (digits_free_of "E" ip) by done.
  destruct fd as [f|]; [|done]. simpl. by apply (digits_free_of "E").
Qed.

(** A body made of an integer part, a fraction and an exponent is read back
    part by part. *)
Lemma Decimal_of_body_parts sign ip fd ex :
  all_digits ip = true →
  all_digits (fraction fd) = true →
  Decimal_of_body sign (ip +:+ dot_fraction fd +:+ e_exponent ex) =
    coeff ← N_of_digits (ip +:+ fraction fd);
    Some {| dsign := sign; dcoeff := coeff;
            dexp := exponent_of ex - Z.of_nat (String.length (fraction fd)) |}.
Proof.
  intros Hip Hfd. unfold Decimal_of_body.
  assert (HE := mantissa_free_of_E ip fd Hip Hfd).
  assert (Hsplit : split_at "E" (ip +:+ dot_fraction fd +:+ e_exponent ex)
                   = (ip +:+ dot_fraction fd, signed <$> ex)).
  { rewrite <-string_app_assoc. destruct ex as [z|]; simpl.
    - by apply split_at_here.
    - rewrite string_app_nil_r. by apply split_at_absent. }
  rewrite Hsplit.
  assert (Hdot : split_at "." (ip +:+ dot_fraction fd) = (ip, fd)).
  { destruct fd as [f|]; simpl.
    - apply split_at_here. by apply (digits_free_of ".").
    - rewrite string_app_nil_r. apply split_at_absent. by apply (digits_free_of "."). }
  rewrite Hdot. change (default "" fd) with (fraction fd).
  destruct (N_of_digits (ip +:+ fraction fd)) as [coeff|]; [|done]. simpl.
  destruct ex as [z|]; simpl; [|done]. by rewrite Z_of_signed_signed.
Qed.

(** The sign is read first; the body starts with a digit. *)
Lemma Decimal_of_str_sign (sign : bool) body ch r :
  body = String ch r → is_digit ch = true →
  Decimal_of_str ((if sign then "-" else "") +:+ body) = Decimal_of_body sign body.
Proof.
  intros -> Hch. destruct sign; [done|].
  change ("" +:+ String ch r) with (String ch r). unfold Decimal_of_str.
  destruct (Ascii.eqb_spec ch "-") as [->|]; [done|done].
Qed.

Lemma N_of_digits_zeros k s (n : N) :
  N_of_digits s = Some n → N_of_digits ("0" +:+ zeros k +:+ s) = Some n.
Proof.
  intros Hs. change ("0" +:+ zeros k +:+ s) with (zeros (S k) +:+ s).
  unfold N_of_digits in *. destruct s as [|ch r]; [done|].
  change (digits_go (zeros (S k) +:+ String ch r) 0%N = Some n).
  by rewrite digits_go_app, (digits_go_zeros (S k) 0%N).
Qed.

Lemma string_drop_all_digits k s :
  all_digits s = true → all_digits (string_drop k s) = true.
Proof. intros Hs. by apply all_digits_take_drop. Qed.

Lemma string_take_all_digits k s :
  all_digits s = true → all_digits (string_take k s) = true.
Proof. intros Hs. by apply all_digits_take_drop. Qed.

Lemma string_take_cons k ch r :
  (0 < k)%nat → ∃ r', string_take k (String ch r) = String ch r'.
Proof. destruct k; [lia|]. simpl. eauto. Qed.

(** [str] loses nothing: reading the string back gives the decimal, with
    its sign, its coefficient and its exponent. *)
Lemma Decimal_of_str_str d : Decimal_of_str (str d) = Some d.
Proof.
  destruct d as [sign n e]. unfold str. cbn [dsign dcoeff dexp].
  destruct (pretty_N_nonempty n) as (ch & r & Hp & Hch).
  assert (Hd := all_digits_pretty n).
  assert (Hn := N_of_digits_pretty n).
  set (digits := pretty n) in *.
  assert (Hlen : (1 ≤ String.length digits)%nat) by (rewrite Hp; simpl; lia).
  set (len := Z.of_nat (String.length digits)).
  assert (Hlen' : 1 ≤ len) by lia.
  assert (Hzeros : ∀ z, z = 0 → digits +:+ zeros (Z.to_nat z) = digits).
  { intros z ->. apply string_app_nil_r. }
  assert (Htake : ∀ z, 0 < z → ∃ r', string_take (Z.to_nat z) digits = String ch r').
  { intros z Hz. rewrite Hp. apply string_take_cons. lia. }
  destruct (Z.leb_spec e 0) as [He|He];
    [destruct (Z.ltb_spec (-6) (e + len)) as [Hl|Hl]|]; cbn [andb].
  1:{ (* plain notation *)
    rewrite Z.eqb_refl.
    destruct (Z.leb_spec (e + len) 0) as [Hdp|Hdp];
      [|destruct (Z.leb_spec len (e + len)) as [Hfull|Hfull]].
    + etrans; [by eapply (Decimal_of_str_sign sign _ "0")|].
      etrans; [apply (Decimal_of_body_parts sign "0"
                        (Some (zeros (Z.to_nat (- (e + len))) +:+ digits)) None)|].
      { done. }
      { simpl. unfold all_digits. rewrite string_forall_app.
        fold all_digits. by rewrite all_digits_zeros, Hd. }
      cbn [fraction exponent_of]. rewrite (N_of_digits_zeros _ _ _ Hn). simpl.
      do 2 f_equal. rewrite string_length_app, length_zeros. lia.
    + rewrite Hzeros by lia.
      etrans; [eapply (Decimal_of_str_sign sign _ ch); [by rewrite Hp|done]|].
      etrans; [by apply (Decimal_of_body_parts sign digits None None)|].
      cbn [fraction exponent_of]. rewrite string_app_nil_r, Hn. simpl. do 2 f_equal. lia.
    + destruct (Htake (e + len)) as [r' Hr']; [lia|].
      etrans; [eapply (Decimal_of_str_sign sign _ ch); [by rewrite Hr'|done]|].
      etrans; [apply (Decimal_of_body_parts sign
                        (string_take (Z.to_nat (e + len)) digits)
                        (Some (string_drop (Z.to_nat (e + len)) digits)) None)|].
      { by apply string_take_all_digits. }
      { by apply string_drop_all_digits. }
      cbn [fraction exponent_of]. rewrite string_take_drop, Hn. simpl.
      do 2 f_equal. rewrite length_string_drop. lia. }
  (* scientific notation, for a small number and for a positive exponent:
     one digit before the point, and the exponent is written *)
  all: change (1 <=? 0) with false; cbn match.
  all: destruct (Z.eqb_spec (e + len) 1) as [Heq|_]; [lia|].
  all: destruct (Z.leb_spec len 1) as [Hone|Hmore].
  1,3: rewrite Hzeros by lia.
  1,2: etrans; [eapply (Decimal_of_str_sign sign _ ch); [by rewrite Hp|done]|].
  1,2: etrans; [by apply (Decimal_of_body_parts sign digits None (Some (e + len - 1)))|].
  1,2: cbn [fraction exponent_of]; rewrite string_app_nil_r, Hn; simpl.
  1,2: do 2 f_equal; lia.
  all: destruct (Htake 1) as [r' Hr']; [lia|].
  all: etrans; [eapply (Decimal_of_str_sign sign _ ch); [by rewrite Hr'|done]|].
  all: etrans; [apply (Decimal_of_body_parts sign
                         (string_take (Z.to_nat 1) digits)
                         (Some (string_drop (Z.to_nat 1) digits))
                         (Some (e + len - 1)));
                [by apply string_take_all_digits|by apply string_drop_all_digits]|].
  all: cbn [fraction exponent_of]; rewrite string_take_drop, Hn, length_string_drop.
  all: simpl; do 2 f_equal; lia.
Qed.

End Roundtrip.

(** ** The shape of the entry date *)

Section Dates.

Lemma length_pretty_N_go (k : nat) : ∀ (x : N) (s : string),
  (10 ^ N.of_nat k ≤ x < 10 ^ N.of_nat (S k))%N →
  String.length (pretty_N_go x s) = (S k + String.length s)%nat.
Proof.
  induction k as [|k IH]; intros x s [Hlo Hhi].
  - change (10 ^ N.of_nat 0)%N with 1%N in Hlo.
    change (10 ^ N.of_nat 1)%N with 10%N in Hhi.
    rewrite pretty_N_go_step by lia.
    by rewrite (N.div_small x 10), pretty_N_go_0 by lia.
  - rewrite !Nat2N.inj_succ, !N.pow_succ_r' in *.
    rewrite pretty_N_go_step by lia.
    rewrite IH; [simpl; lia|]. split.
    + apply N.div_le_lower_bound; lia.
    + apply N.Div0.div_lt_upper_bound; lia.
Qed.

Lemma length_pretty_Z (k : nat) (z : Z) :
  10 ^ Z.of_nat k ≤ z < 10 ^ Z.of_nat (S k) →
  String.length (pretty z) = S k.
Proof.
  intros [Hlo Hhi].
  assert (0 < z) by (pose proof (Z.pow_pos_nonneg 10 (Z.of_nat k)); lia).
  destruct z as [|p|p]; [lia| |lia].
  change (pretty (Z.pos p)) with (pretty (N.pos p)).
  unfold pretty, pretty_N. case_decide; [done|].
  rewrite (length_pretty_N_go k); [simpl; lia|].
  split; [apply N2Z.inj_le|apply N2Z.inj_lt];
    rewrite N2Z.inj_pow, nat_N_Z; exact Hlo || exact Hhi.
Qed.

Lemma all_digits_pretty_Z (z : Z) : 0 ≤ z → all_digits (pretty z) = true.
Proof.
  destruct z as [|p|p]; [done| |lia]. intros _.
  change (pretty (Z.pos p)) with (pretty (N.pos p)). apply all_digits_pretty.
Qed.

Lemma all_digits_zfill w (z : Z) : 0 ≤ z → all_digits (zfill w z) = true.
Proof.
  intros Hz. unfold zfill, all_digits. rewrite string_forall_app.
  fold all_digits. by rewrite all_digits_zeros, all_digits_pretty_Z.
Qed.

(** Two digits for a number below 100. *)
Lemma length_zfill_2 (z : Z) : 1 ≤ z < 100 → String.length (zfill 2 z) = 2%nat.
Proof.
  intros Hz. unfold zfill. rewrite string_length_app, length_zeros.
  destruct (decide (z < 10)).
  - rewrite (length_pretty_Z 0); [done|]. simpl. lia.
  - rewrite (length_pretty_Z 1); [done|]. simpl. lia.
Qed.

(** Four digits for a year from 1000 to 9999. *)
Lemma length_zfill_4 (z : Z) : 1000 ≤ z < 10000 → String.length (zfill 4 z) = 4%nat.
Proof.
  intros Hz. unfold zfill. rewrite string_length_app, length_zeros.
  rewrite (length_pretty_Z 3); [done|]. simpl. lia.
Qed.

Lemma days_in_month_le y m : days_in_month y m ≤ 31.
Proof. unfold days_in_month. repeat case_match; lia. Qed.

(** For a date that [strftime] accepts, the entry date has the twenty
    characters of [YYYY-MM-DDT00:00:00Z]. *)
Lemma iso_midnight_z_shape d :
  valid_date d → 1900 ≤ year d →
  ∃ yyyy mm dd,
    iso_midnight_z d = yyyy +:+ "-" +:+ mm +:+ "-" +:+ dd +:+ "T00:00:00Z" ∧
    String.length yyyy = 4%nat ∧ String.length mm = 2%nat ∧ String.length dd = 2%nat ∧
    all_digits yyyy = true ∧ all_digits mm = true ∧ all_digits dd = true ∧
    String.length (iso_midnight_z d) = 20%nat.
Proof.
  intros (Hy & Hm & Hd) Hy'.
  assert (Hdim := days_in_month_le (year d) (month d)).
  assert (H4 := length_zfill_4 (year d)).
  assert (H2m := length_zfill_2 (month d)).
  assert (H2d := length_zfill_2 (day d)).
  exists (zfill 4 (year d)), (zfill 2 (month d)), (zfill 2 (day d)).
  split; [done|]. rewrite H4, H2m, H2d by lia.
  rewrite !all_digits_zfill by lia. repeat split.
  unfold iso_midnight_z. rewrite !string_length_app, H4, H2m, H2d by lia. done.
Qed.

End Dates.

(** ** Running computations *)

Section Running.

Context {W : Type}.

Lemma run_bind {A B} (m : M W A) (k : A → M W B) w :
  (m ≫= k) w =
  match m w with
  | (Ok a, w1, t1) => match k a w1 with (r, w2, t2) => (r, w2, t1 ++ t2) end
  | (Raise e, w1, t1) => (Raise e, w1, t1)
  end.
Proof. reflexivity. Qed.

Lemma run_bind_ok {A B} (m : M W A) (k : A → M W B) w a w1 t1 :
  m w = (Ok a, w1, t1) →
  (m ≫= k) w = match k a w1 with (r, w2, t2) => (r, w2, t1 ++ t2) end.
Proof. intros Hm. rewrite run_bind, Hm. reflexivity. Qed.

Lemma run_bind_raise {A B} (m : M W A) (k : A → M W B) w e w1 t1 :
  m w = (Raise e, w1, t1) → (m ≫= k) w = (Raise e, w1, t1).
Proof. intros Hm. rewrite run_bind, Hm. reflexivity. Qed.

(** A bind that returns went through both halves. *)
Lemma run_bind_inv_ok {A B} (m : M W A) (k : A → M W B) w b w2 t :
  (m ≫= k) w = (Ok b, w2, t) →
  ∃ a w1 t1 t2, m w = (Ok a, w1, t1) ∧ k a w1 = (Ok b, w2, t2) ∧ t = t1 ++ t2.
Proof.
  rewrite run_bind. destruct (m w) as [[[a|e] w1] t1]; [|discriminate].
  destruct (k a w1) as [[r w2'] t2] eqn:Hk. intros [= -> -> <-].
  exists a, w1, t1, t2. auto.
Qed.

(** A bind that raises failed in the first half, or in the second. *)
Lemma run_bind_inv_raise {A B} (m : M W A) (k : A → M W B) w e w2 t :
  (m ≫= k) w = (Raise e, w2, t) →
  m w = (Raise e, w2, t) ∨
  ∃ a w1 t1 t2, m w = (Ok a, w1, t1) ∧ k a w1 = (Raise e, w2, t2) ∧ t = t1 ++ t2.
Proof.
  rewrite run_bind. destruct (m w) as [[[a|e'] w1] t1].
  - destruct (k a w1) as [[r w2'] t2] eqn:Hk. intros [= -> -> <-].
    right. exists a, w1, t1, t2. auto.
  - intros [= -> -> ->]. by left.
Qed.

Lemma run_lift {A} (o : outcome A) (w : W) : lift o w = (o, w, []).
Proof. reflexivity. Qed.

Lemma run_call {A} ev (f : W → outcome A * W) w :
  call ev f w = ((f w).1, (f w).2, [ev]).
Proof. unfold call. by destruct (f w). Qed.

End Running.

(** ** The loop over the ledger lines *)

Section Loop.

Implicit Types (ids : option record) (lines : list LedgerLine)
  (data : payload) (entries : list record).

Lemma append_line_ok line data l0 :
  data !! "SalesEntryLines" = Some (Lines l0) →
  append_line line data = Ok (<["SalesEntryLines" := Lines (l0 ++ [line])]> data).
Proof. intros H. unfold append_line. by rewrite H. Qed.

(** A loop that completes has built one entry per line, in order, and
    appended them to the entries already there. *)
Lemma assemble_lines_inv_ok ids lines : ∀ data l0 data',
  data !! "SalesEntryLines" = Some (Lines l0) →
  assemble_lines ids lines data = Ok data' →
  ∃ entries,
    Forall2 (λ line entry, assemble_line ids line = Ok entry) lines entries ∧
    data' = <["SalesEntryLines" := Lines (l0 ++ entries)]> data.
Proof.
  induction lines as [|line rest IH]; intros data l0 data' Hl0; simpl.
  - intros [= <-]. exists []. split; [constructor|].
    rewrite app_nil_r. by rewrite insert_id.
  - destruct (assemble_line ids line) as [entry|e] eqn:Hline; [|discriminate].
    rewrite (append_line_ok _ _ _ Hl0). intros Hrest.
    apply (IH _ (l0 ++ [entry])) in Hrest as (entries & HF & ->);
      [|by rewrite lookup_insert_eq].
    exists (entry :: entries). split; [by constructor|].
    rewrite insert_insert_eq. by rewrite <-app_assoc.
Qed.

(** Conversely, when every line yields an entry the loop completes. *)
Lemma assemble_lines_ok ids lines : ∀ entries data l0,
  data !! "SalesEntryLines" = Some (Lines l0) →
  Forall2 (λ line entry, assemble_line ids line = Ok entry) lines entries →
  assemble_lines ids lines data = Ok (<["SalesEntryLines" := Lines (l0 ++ entries)]> data).
Proof.
  induction lines as [|line rest IH]; intros entries data l0 Hl0 HF;
    inversion HF as [|? entry ? entries' Hline HF']; subst; simpl.
  - rewrite app_nil_r. by rewrite insert_id.
  - rewrite Hline, (append_line_ok _ _ _ Hl0).
    rewrite (IH entries' _ (l0 ++ [entry])); [|by rewrite lookup_insert_eq|done].
    rewrite insert_insert_eq. by rewrite <-app_assoc.
Qed.

(** The loop stops at the first line that fails, with that line's
    exception: the lines after it are not looked at. *)
Lemma assemble_lines_first_raise ids pre : ∀ line post data l0 e,
  data !! "SalesEntryLines" = Some (Lines l0) →
  Forall (λ l, ∃ entry, assemble_line ids l = Ok entry) pre →
  assemble_line ids line = Raise e →
  assemble_lines ids (pre ++ line :: post) data = Raise e.
Proof.
  induction pre as [|l pre IH]; intros line post data l0 e Hl0 Hpre Hline; simpl.
  - by rewrite Hline.
  - inversion Hpre as [|? ? [entry Hl] Hpre']; subst.
    rewrite Hl, (append_line_ok _ _ _ Hl0).
    apply (IH _ _ _ (l0 ++ [entry])); [by rewrite lookup_insert_eq|done..].
Qed.

(** A loop that fails stopped at some line, the first one that fails. *)
Lemma assemble_lines_inv_raise ids lines : ∀ data l0 e,
  data !! "SalesEntryLines" = Some (Lines l0) →
  assemble_lines ids lines data = Raise e →
  ∃ pre line post,
    lines = pre ++ line :: post ∧
    Forall (λ l, ∃ entry, assemble_line ids l = Ok entry) pre ∧
    assemble_line ids line = Raise e.
Proof.
  induction lines as [|line rest IH]; intros data l0 e Hl0; simpl; [discriminate|].
  destruct (assemble_line ids line) as [entry|e'] eqn:Hline.
  - rewrite (append_line_ok _ _ _ Hl0). intros Hrest.
    apply (IH _ (l0 ++ [entry])) in Hrest as (pre & l & post & -> & Hpre & Hl);
      [|by rewrite lookup_insert_eq].
    exists (line :: pre), l, post. split; [done|]. split; [|done].
    constructor; eauto.
  - intros [= ->]. exists [], line, rest. split; [done|]. split; [constructor|done].
Qed.

(** What a line's entry holds. *)
Lemma assemble_line_inv_ok ids line entry :
  assemble_line ids line = Ok entry →
  ∃ ledger_ids ledger_id vatcode,
    ids = Some ledger_ids ∧
    ledger_ids !! code line = Some ledger_id ∧
    vatcode_of (vat_percentage line) = Ok vatcode ∧
    entry = <["AmountDC" := PyStr (str (total_amount_excl_vat line))]>
           (<["AmountFC" := PyStr (str (total_amount_excl_vat line))]>
           (<["Description" := PyStr (description line)]>
           (<["GLAccount" := ledger_id]>
           (<["VATCode" := PyStr vatcode]> ∅)))).
Proof.
  unfold assemble_line. destruct ids as [ledger_ids|]; [|discriminate].
  destruct (ledger_ids !! code line) as [ledger_id|] eqn:Hid; [|discriminate].
  destruct (vatcode_of (vat_percentage line)) as [vatcode|] eqn:Hvat; [|discriminate].
  intros [= <-]. by exists ledger_ids, ledger_id, vatcode.
Qed.

Lemma vatcode_of_inv_ok vat vatcode :
  vatcode_of vat = Ok vatcode →
  (vat = 0 ∧ vatcode = "0  ") ∨ (vat = 21 ∧ vatcode = "2  ").
Proof.
  unfold vatcode_of.
  destruct (Z.eqb_spec vat 0); [intros [= <-]; auto|].
  destruct (Z.eqb_spec vat 21); [intros [= <-]; auto|discriminate].
Qed.

Lemma vatcode_of_unsupported vat :
  vat ≠ 0 → vat ≠ 21 →
  vatcode_of vat = Raise (NotImplementedError ("Unknown VAT: " +:+ pretty vat)).
Proof.
  intros H0 H21. unfold vatcode_of.
  destruct (Z.eqb_spec vat 0); [done|]. by destruct (Z.eqb_spec vat 21).
Qed.

End Loop.

(** ** The shape of a run of [assemble] *)

Lemma count_app p (t1 t2 : list event) :
  count p (t1 ++ t2) = (count p t1 + count p t2)%nat.
Proof. induction t1 as [|ev t1 IH]; simpl; [done|]. rewrite IH. lia. Qed.

Section Assemble.

Context {W : Type} (api : Api W).

(** The customer's identifier takes one lookup, or a lookup, a creation and
    a second lookup. *)
Lemma customer_guid_of_run c w :
  customer_guid_of api c w =
  match customer_get_guid api c w with
  | (Ok guid, w1) => (Ok guid, w1, [EvCustomerGetGuid c])
  | (Raise e, w1) =>
      if decide (e = ObjectDoesNotExist) then
        match customer_commit api c w1 with
        | (Ok _, w2) =>
            match customer_get_guid api c w2 with
            | (r, w3) =>
                (r, w3, [EvCustomerGetGuid c; EvCustomerCommit c; EvCustomerGetGuid c])
            end
        | (Raise e', w2) => (Raise e', w2, [EvCustomerGetGuid c; EvCustomerCommit c])
        end
      else (Raise e, w1, [EvCustomerGetGuid c])
  end.
Proof.
  unfold customer_guid_of, try_except. rewrite run_call.
  destruct (customer_get_guid api c w) as [[guid|e] w1]; simpl; [done|].
  destruct (decide (e = ObjectDoesNotExist)); [|done].
  rewrite run_bind, run_call.
  destruct (customer_commit api c w1) as [[u|e'] w2]; simpl; [|done].
  rewrite run_call. by destruct (customer_get_guid api c w2).
Qed.

Lemma assemble_header_run self w :
  assemble_header api self w =
  let c := get_customer self in
  match customer_get_name api c w with
  | (Ok name, w1) =>
      match strftime (get_created_date self) "%m-%Y" with
      | Ok _ =>
          match customer_guid_of api c w1 with
          | (Ok guid, w2, t) =>
              (Ok (compile_data self (description_of self name) guid
                     (strftime_go (get_created_date self) "%Y-%m-%dT%H:%M:%SZ")),
               w2, EvCustomerGetName c :: t)
          | (Raise e, w2, t) => (Raise e, w2, EvCustomerGetName c :: t)
          end
      | Raise e => (Raise e, w1, [EvCustomerGetName c])
      end
  | (Raise e, w1) => (Raise e, w1, [EvCustomerGetName c])
  end.
Proof.
  unfold assemble_header. rewrite run_bind, run_call.
  destruct (customer_get_name api (get_customer self) w) as [[name|e] w1]; simpl; [|done].
  rewrite run_bind, run_lift. unfold strftime.
  destruct (year (get_created_date self) <? 1900); simpl; [done|].
  rewrite run_bind.
  destruct (customer_guid_of api (get_customer self) w1) as [[[guid|e] w2] t]; simpl; [|done].
  by rewrite app_nil_r.
Qed.

(** The header only talks to the customer element. *)
Lemma assemble_header_trace self w r w' t :
  assemble_header api self w = (r, w', t) →
  let c := get_customer self in
  t = [EvCustomerGetName c] ∨
  t = [EvCustomerGetName c; EvCustomerGetGuid c] ∨
  t = [EvCustomerGetName c; EvCustomerGetGuid c; EvCustomerCommit c] ∨
  t = [EvCustomerGetName c; EvCustomerGetGuid c; EvCustomerCommit c; EvCustomerGetGuid c].
Proof.
  rewrite assemble_header_run. cbv zeta.
  destruct (customer_get_name api (get_customer self) w) as [[name|e] w1];
    [|intros [= <- <- <-]; auto].
  destruct (strftime (get_created_date self) "%m-%Y"); [|intros [= <- <- <-]; auto].
  rewrite customer_guid_of_run. intros H.
  repeat case_match; simplify_eq; auto.
Qed.

(** A header that returns has set the line items to the empty list. *)
Lemma compile_data_lines self d g e :
  compile_data self d g e !! "SalesEntryLines" = Some (Lines []).
Proof. reflexivity. Qed.

Lemma assemble_header_inv_ok self w data w' t :
  assemble_header api self w = (Ok data, w', t) →
  ∃ name guid,
    1900 ≤ year (get_created_date self) ∧
    data = compile_data self (description_of self name) guid
             (strftime_go (get_created_date self) "%Y-%m-%dT%H:%M:%SZ").
Proof.
  rewrite assemble_header_run. simpl. unfold strftime. intros H.
  destruct (Z.ltb_spec (year (get_created_date self)) 1900);
    repeat case_match; simplify_eq; eauto.
Qed.

(** The lookup of the ledger codes. *)
Lemma fetch_ledger_ids_run lines w :
  fetch_ledger_ids api lines w =
  match lines with
  | [] => (Ok None, w, [])
  | _ :: _ =>
      let codes : gset string := list_to_set (code <$> lines) in
      match ledgeraccounts_filter api codes w with
      | (Ok rows, w1) =>
          match ledger_dict rows ∅ with
          | Ok ids => (Ok (Some ids), w1, [EvLedgerFilter codes])
          | Raise e => (Raise e, w1, [EvLedgerFilter codes])
          end
      | (Raise e, w1) => (Raise e, w1, [EvLedgerFilter codes])
      end
  end.
Proof.
  destruct lines as [|l lines]; [done|]. unfold fetch_ledger_ids.
  rewrite run_bind, run_call.
  destruct (ledgeraccounts_filter api _ w) as [[rows|e] w1]; simpl; [|done].
  rewrite run_bind, run_lift. by destruct (ledger_dict rows ∅).
Qed.

(** [assemble] after its header. *)
Lemma assemble_run self w :
  assemble api self w =
  match assemble_header api self w with
  | (Ok data, w1, t1) =>
      match fetch_ledger_ids api (get_ledger_lines self) w1 with
      | (Ok ids, w2, t2) =>
          (assemble_lines ids (get_ledger_lines self) data, w2, t1 ++ t2)
      | (Raise e, w2, t2) => (Raise e, w2, t1 ++ t2)
      end
  | (Raise e, w1, t1) => (Raise e, w1, t1)
  end.
Proof.
  unfold assemble. rewrite run_bind.
  destruct (assemble_header api self w) as [[[data|e] w1] t1]; [|done].
  rewrite run_bind.
  destruct (fetch_ledger_ids api (get_ledger_lines self) w1) as [[[ids|e] w2] t2]; [|done].
  rewrite run_lift. by rewrite app_nil_r.
Qed.

End Assemble.

(** ** The payload of an assembly that succeeds *)

Section Payload.

Context {W : Type} (api : Api W).

(** The payload is the compiled header with one entry per ledger line. *)
Lemma assemble_inv_ok self w data w' t :
  assemble api self w = (Ok data, w', t) →
  ∃ name guid ids entries,
    1900 ≤ year (get_created_date self) ∧
    Forall2 (λ line entry, assemble_line ids line = Ok entry)
      (get_ledger_lines self) entries ∧
    data = <["SalesEntryLines" := Lines entries]>
             (compile_data self (description_of self name) guid
                (strftime_go (get_created_date self) "%Y-%m-%dT%H:%M:%SZ")).
Proof.
  rewrite assemble_run.
  destruct (assemble_header api self w) as [[[data0|e] w1] t1] eqn:Hh; [|discriminate].
  destruct (fetch_ledger_ids api (get_ledger_lines self) w1) as [[[ids|e] w2] t2];
    [|discriminate].
  intros [= Hloop <- <-].
  apply assemble_header_inv_ok in Hh as (name & guid & Hy & ->).
  eapply assemble_lines_inv_ok in Hloop as (entries & HF & ->);
    [|apply compile_data_lines].
  by exists name, guid, ids, entries.
Qed.

(** The entries follow the ledger lines position by position. *)
Lemma entries_lookup ids (lines : list LedgerLine) (entries : list record) i line :
  Forall2 (λ line entry, assemble_line ids line = Ok entry) lines entries →
  lines !! i = Some line →
  ∃ entry, entries !! i = Some entry ∧ assemble_line ids line = Ok entry.
Proof.
  intros HF Hi. destruct (Forall2_lookup_l _ _ _ _ _ HF Hi) as (entry & ? & ?). eauto.
Qed.

(** C10: when [assemble] succeeds, [SalesEntryLines] has one entry per ledger
    line, in the order of the ledger lines; the amounts of an entry are the
    decimal string of the line's amount excluding VAT, and the amounts of the
    invoice itself are the decimal string of the total including VAT. *)
Theorem assemble_entries_follow_lines self w data w' t :
  assemble api self w = (Ok data, w', t) →
  ∃ entries : list record,
    data !! "SalesEntryLines" = Some (Lines entries) ∧
    length entries = length (get_ledger_lines self) ∧
    (∀ i line, get_ledger_lines self !! i = Some line →
       ∃ entry, entries !! i = Some entry ∧
         entry !! "AmountDC" = Some (PyStr (str (total_amount_excl_vat line))) ∧
         entry !! "AmountFC" = Some (PyStr (str (total_amount_excl_vat line))) ∧
         entry !! "Description" = Some (PyStr (description line))) ∧
    data !! "AmountDC" = Some (Scalar (PyStr (str (get_total_amount_incl_vat self)))) ∧
    data !! "AmountFC" = Some (Scalar (PyStr (str (get_total_amount_incl_vat self)))).
Proof.
  intros (name & guid & ids & entries & _ & HF & ->)%assemble_inv_ok.
  exists entries. split; [by rewrite lookup_insert_eq|].
  split; [symmetry; by eapply Forall2_length|].
  split; [|by split].
  intros i line Hi.
  destruct (entries_lookup _ _ _ _ _ HF Hi) as (entry & Hentry & Hline).
  exists entry. split; [done|].
  apply assemble_line_inv_ok in Hline as (? & ? & ? & _ & _ & _ & ->). by repeat split.
Qed.

Lemma strftime_go_entry_date d :
  strftime_go d "%Y-%m-%dT%H:%M:%SZ" = iso_midnight_z d.
Proof. reflexivity. Qed.

(** C6: the entry date of the payload is the created date at midnight in
    ISO 8601 form with the letter Z, whatever the time zone: the date, then
    [T00:00:00Z], twenty characters for a calendar date.  The reporting
    period is the month and the reporting year the year of that date. *)
Theorem assemble_entry_date self w data w' t :
  assemble api self w = (Ok data, w', t) →
  let d := get_created_date self in
  data !! "EntryDate" = Some (Scalar (PyStr (iso_midnight_z d))) ∧
  data !! "ReportingPeriod" = Some (Scalar (PyInt (month d))) ∧
  data !! "ReportingYear" = Some (Scalar (PyInt (year d))) ∧
  (valid_date d →
   ∃ yyyy mm dd,
     iso_midnight_z d = yyyy +:+ "-" +:+ mm +:+ "-" +:+ dd +:+ "T00:00:00Z" ∧
     String.length yyyy = 4%nat ∧ String.length mm = 2%nat ∧ String.length dd = 2%nat ∧
     all_digits yyyy = true ∧ all_digits mm = true ∧ all_digits dd = true ∧
     String.length (iso_midnight_z d) = 20%nat).
Proof.
  intros (name & guid & ids & entries & Hy & _ & ->)%assemble_inv_ok d.
  split; [done|]. split; [done|]. split; [done|].
  intros Hd. by apply iso_midnight_z_shape.
Qed.

(** [str] is exact: two decimals with the same string are the same. *)
Lemma str_inj d1 d2 : str d1 = str d2 → d1 = d2.
Proof.
  intros Heq. assert (H1 := Decimal_of_str_str d1). rewrite Heq in H1.
  rewrite Decimal_of_str_str in H1. by injection H1.
Qed.

(** C5: every amount of the payload (the four amounts of the invoice and the
    two of each line) is a string, the one [str] gives for the decimal it
    comes from.  The conversion goes from the digits of the decimal to
    characters, with no floating-point number in between, and it is exact:
    reading the string back gives the decimal with the same sign,
    coefficient and exponent. *)
Theorem assemble_amounts_exact self w data w' t :
  assemble api self w = (Ok data, w', t) →
  let amount (d : Decimal) : pyval := PyStr (str d) in
  data !! "AmountDC" = Some (Scalar (amount (get_total_amount_incl_vat self))) ∧
  data !! "AmountFC" = Some (Scalar (amount (get_total_amount_incl_vat self))) ∧
  data !! "VATAmountDC" = Some (Scalar (amount (get_total_vat self))) ∧
  data !! "VATAmountFC" = Some (Scalar (amount (get_total_vat self))) ∧
  (∃ entries : list record,
     data !! "SalesEntryLines" = Some (Lines entries) ∧
     ∀ i line, get_ledger_lines self !! i = Some line →
       ∃ entry, entries !! i = Some entry ∧
         entry !! "AmountDC" = Some (amount (total_amount_excl_vat line)) ∧
         entry !! "AmountFC" = Some (amount (total_amount_excl_vat line))) ∧
  (∀ d, Decimal_of_str (str d) = Some d) ∧
  (∀ d1 d2, str d1 = str d2 → d1 = d2).
Proof.
  intros (name & guid & ids & entries & _ & HF & ->)%assemble_inv_ok amount.
  split; [done|]. split; [done|]. split; [done|]. split; [done|].
  split; [|split; [apply Decimal_of_str_str|apply str_inj]].
  exists entries. split; [by rewrite lookup_insert_eq|].
  intros i line Hi.
  destruct (entries_lookup _ _ _ _ _ HF Hi) as (entry & Hentry & Hline).
  exists entry. split; [done|].
  apply assemble_line_inv_ok in Hline as (? & ? & ? & _ & _ & _ & ->). by split.
Qed.

End Payload.

(** ** The VAT code and the ledger account of a line *)

Section Lines.

Context {W : Type} (api : Api W).

(** [assemble], once the header and the lookup of the ledger codes are done. *)
Lemma assemble_after_lookup self w data0 w1 t1 ids w2 t2 :
  assemble_header api self w = (Ok data0, w1, t1) →
  fetch_ledger_ids api (get_ledger_lines self) w1 = (Ok ids, w2, t2) →
  assemble api self w = (assemble_lines ids (get_ledger_lines self) data0, w2, t1 ++ t2).
Proof. intros Hh Hf. by rewrite assemble_run, Hh, Hf. Qed.

Lemma assemble_header_lines self w data0 w1 t1 :
  assemble_header api self w = (Ok data0, w1, t1) →
  data0 !! "SalesEntryLines" = Some (Lines []).
Proof. by intros (name & guid & _ & ->)%assemble_header_inv_ok. Qed.

(** C2, as the code has it: the ledger code of a line is looked up before its
    percentage is looked at.  A payload that [assemble] returns has, for
    every line, a percentage of 0 or 21 and that line's code, "0  " or
    "2  ", three characters each; no other percentage ever gets a code.  A
    line that the loop reaches with its ledger code in the lookup gets "0  "
    for 0 percent and "2  " for 21 percent, and any other percentage makes
    [assemble] fail there and then with [NotImplementedError], whatever lines
    follow.  A line that the loop reaches with its ledger code not in the
    lookup gets no code, whatever its percentage: [assemble] fails there and
    then with the [ExactOnlineError] of that ledger code. *)
Theorem assemble_vatcode self w :
  (∀ data w' t, assemble api self w = (Ok data, w', t) →
     ∃ entries : list record,
       data !! "SalesEntryLines" = Some (Lines entries) ∧
       ∀ i line, get_ledger_lines self !! i = Some line →
         ∃ entry vatcode,
           entries !! i = Some entry ∧
           entry !! "VATCode" = Some (PyStr vatcode) ∧
           String.length vatcode = 3%nat ∧
           ((vat_percentage line = 0 ∧ vatcode = "0  ") ∨
            (vat_percentage line = 21 ∧ vatcode = "2  "))) ∧
  (∀ data0 w1 t1 ids w2 t2 pre line post ledger_id,
     assemble_header api self w = (Ok data0, w1, t1) →
     fetch_ledger_ids api (get_ledger_lines self) w1 = (Ok (Some ids), w2, t2) →
     get_ledger_lines self = pre ++ line :: post →
     Forall (λ l, ∃ entry, assemble_line (Some ids) l = Ok entry) pre →
     ids !! code line = Some ledger_id →
     let vat := vat_percentage line in
     let yields (vatcode : string) :=
       ∃ entry, assemble_line (Some ids) line = Ok entry ∧
                entry !! "VATCode" = Some (PyStr vatcode) in
     (vat = 0 → yields "0  ") ∧
     (vat = 21 → yields "2  ") ∧
     (vat ≠ 0 → vat ≠ 21 →
      assemble api self w =
        (Raise (NotImplementedError ("Unknown VAT: " +:+ pretty vat)), w2, t1 ++ t2))) ∧
  (∀ data0 w1 t1 ids w2 t2 pre line post,
     assemble_header api self w = (Ok data0, w1, t1) →
     fetch_ledger_ids api (get_ledger_lines self) w1 = (Ok (Some ids), w2, t2) →
     get_ledger_lines self = pre ++ line :: post →
     Forall (λ l, ∃ entry, assemble_line (Some ids) l = Ok entry) pre →
     ids !! code line = None →
     (∀ entry, assemble_line (Some ids) line ≠ Ok entry) ∧
     assemble api self w =
       (Raise (ExactOnlineError
                 ("Cannot submit invoice with ledger code " +:+ code line)),
        w2, t1 ++ t2)).
Proof.
  split; [|split].
  - intros data w' t (name & guid & ids & entries & _ & HF & ->)%assemble_inv_ok.
    exists entries. split; [by rewrite lookup_insert_eq|].
    intros i line Hi.
    destruct (entries_lookup _ _ _ _ _ HF Hi) as (entry & Hentry & Hline).
    apply assemble_line_inv_ok in Hline as (? & ? & vatcode & _ & _ & Hvat & ->).
    eexists _, vatcode. split; [exact Hentry|]. split; [done|].
    apply vatcode_of_inv_ok in Hvat as [[? ->]|[? ->]]; auto.
  - intros data0 w1 t1 ids w2 t2 pre line post ledger_id Hh Hf Hlines Hpre Hid vat yields.
    assert (Hrun := assemble_after_lookup _ _ _ _ _ _ _ _ Hh Hf).
    assert (Hl0 := assemble_header_lines _ _ _ _ _ Hh).
    assert (Hyields : ∀ vatcode, vatcode_of vat = Ok vatcode → yields vatcode).
    { intros vatcode Hvat. eexists. unfold assemble_line. rewrite Hid. fold vat.
      rewrite Hvat. split; [reflexivity|done]. }
    split; [|split].
    + intros Hvat. apply Hyields. by rewrite Hvat.
    + intros Hvat. apply Hyields. by rewrite Hvat.
    + intros H0 H21. rewrite Hrun, Hlines. f_equal. f_equal.
      eapply assemble_lines_first_raise; [done..|].
      unfold assemble_line. rewrite Hid. fold vat.
      by rewrite vatcode_of_unsupported.
  - intros data0 w1 t1 ids w2 t2 pre line post Hh Hf Hlines Hpre Hid.
    assert (Hrun := assemble_after_lookup _ _ _ _ _ _ _ _ Hh Hf).
    assert (Hl0 := assemble_header_lines _ _ _ _ _ Hh).
    assert (Hline : assemble_line (Some ids) line =
              Raise (ExactOnlineError
                       ("Cannot submit invoice with ledger code " +:+ code line)))
      by (unfold assemble_line; by rewrite Hid).
    split; [intros entry; by rewrite Hline|].
    rewrite Hrun, Hlines. f_equal. f_equal.
    by eapply assemble_lines_first_raise.
Qed.

(** The first line whose ledger code the lookup did not return stops the
    loop, when the lines before it are well. *)
Lemma assemble_line_absent_code ids line :
  ids !! code line = None →
  assemble_line (Some ids) line =
    Raise (ExactOnlineError ("Cannot submit invoice with ledger code " +:+ code line)).
Proof. intros Hid. unfold assemble_line. by rewrite Hid. Qed.

(** A line fails in one of two ways only. *)
Lemma assemble_line_inv_raise ids line e :
  assemble_line (Some ids) line = Raise e →
  (ids !! code line = None ∧
   e = ExactOnlineError ("Cannot submit invoice with ledger code " +:+ code line)) ∨
  (is_Some (ids !! code line) ∧ vat_percentage line ≠ 0 ∧ vat_percentage line ≠ 21 ∧
   e = NotImplementedError ("Unknown VAT: " +:+ pretty (vat_percentage line))).
Proof.
  unfold assemble_line. destruct (ids !! code line) as [ledger_id|] eqn:Hid.
  - unfold vatcode_of.
    destruct (Z.eqb_spec (vat_percentage line) 0); [discriminate|].
    destruct (Z.eqb_spec (vat_percentage line) 21); [discriminate|].
    intros [= <-]. right. eauto.
  - intros [= <-]. by left.
Qed.

(** C3, as the code has it: when the code of some ledger line is absent from
    the result of the lookup, [assemble] fails and gives no payload.  The
    failure is the [ExactOnlineError] of that line when every line before it
    has a ledger account and a supported VAT percentage (0 or 21); in any
    case it is an [ExactOnlineError] or the [NotImplementedError] of a line
    before it. *)
Theorem assemble_absent_ledger_code self w data0 w1 t1 ids w2 t2 pre line post :
  assemble_header api self w = (Ok data0, w1, t1) →
  fetch_ledger_ids api (get_ledger_lines self) w1 = (Ok (Some ids), w2, t2) →
  get_ledger_lines self = pre ++ line :: post →
  ids !! code line = None →
  (∃ e, assemble api self w = (Raise e, w2, t1 ++ t2) ∧
        ((∃ msg, e = ExactOnlineError msg) ∨ (∃ msg, e = NotImplementedError msg))) ∧
  (Forall (λ l, is_Some (ids !! code l) ∧
                (vat_percentage l = 0 ∨ vat_percentage l = 21)) pre →
   assemble api self w =
     (Raise (ExactOnlineError ("Cannot submit invoice with ledger code " +:+ code line)),
      w2, t1 ++ t2)).
Proof.
  intros Hh Hf Hlines Hid.
  assert (Hrun := assemble_after_lookup _ _ _ _ _ _ _ _ Hh Hf).
  assert (Hl0 := assemble_header_lines _ _ _ _ _ Hh).
  split.
  - destruct (assemble_lines (Some ids) (get_ledger_lines self) data0) as [data|e] eqn:Hloop.
    + exfalso.
      eapply assemble_lines_inv_ok in Hloop as (entries & HF & _); [|done].
      rewrite Hlines in HF.
      assert (Hi : (pre ++ line :: post) !! length pre = Some line)
        by (by rewrite list_lookup_middle).
      destruct (entries_lookup _ _ _ _ _ HF Hi) as (entry & _ & Hline).
      by rewrite assemble_line_absent_code in Hline.
    + exists e. split; [by rewrite Hrun|].
      eapply assemble_lines_inv_raise in Hloop as (pre' & l & post' & _ & _ & Hl); [|done].
      apply assemble_line_inv_raise in Hl as [[_ ->]|(_ & _ & _ & ->)]; eauto.
  - intros Hpre. rewrite Hrun, Hlines. f_equal. f_equal.
    eapply assemble_lines_first_raise; [done| |by apply assemble_line_absent_code].
    rewrite Forall_forall in Hpre. apply Forall_forall. intros l Hl.
    destruct (Hpre l Hl) as [[ledger_id Hlid] Hvat]. unfold assemble_line. rewrite Hlid.
    unfold vatcode_of. destruct Hvat as [-> | ->]; simpl; eauto.
Qed.

(** C7: the invoice INV-001 of 2024-03-15, 121.00 including 21.00 VAT, with
    the single ledger line 1234 of 100.00 at 21% described as Goods: when the
    code 1234 is resolved by the lookup, [assemble] returns a payload with
    the entry date 2024-03-15T00:00:00Z, the reporting period 3, the
    reporting year 2024, and one sales entry line, whose VAT code is "2  ". *)
Theorem assemble_example self w data0 w1 t1 ids w2 t2 ledger_id :
  get_invoice_number self = "INV-001" →
  get_created_date self = {| year := 2024; month := 3; day := 15 |} →
  get_total_amount_incl_vat self = {| dsign := false; dcoeff := 12100; dexp := -2 |} →
  get_total_vat self = {| dsign := false; dcoeff := 2100; dexp := -2 |} →
  get_ledger_lines self =
    [ {| code := "1234"; vat_percentage := 21;
         total_amount_excl_vat := {| dsign := false; dcoeff := 10000; dexp := -2 |};
         description := "Goods" |} ] →
  assemble_header api self w = (Ok data0, w1, t1) →
  fetch_ledger_ids api (get_ledger_lines self) w1 = (Ok (Some ids), w2, t2) →
  ids !! "1234" = Some ledger_id →
  ∃ data entry,
    assemble api self w = (Ok data, w2, t1 ++ t2) ∧
    data !! "EntryDate" = Some (Scalar (PyStr "2024-03-15T00:00:00Z")) ∧
    data !! "ReportingPeriod" = Some (Scalar (PyInt 3)) ∧
    data !! "ReportingYear" = Some (Scalar (PyInt 2024)) ∧
    data !! "SalesEntryLines" = Some (Lines [entry]) ∧
    entry !! "VATCode" = Some (PyStr "2  ") ∧
    entry !! "GLAccount" = Some ledger_id ∧
    entry !! "AmountDC" = Some (PyStr "100.00") ∧
    entry !! "Description" = Some (PyStr "Goods") ∧
    data !! "AmountDC" = Some (Scalar (PyStr "121.00")) ∧
    data !! "VATAmountDC" = Some (Scalar (PyStr "21.00")) ∧
    data !! "YourRef" = Some (Scalar (PyStr "INV-001")).
Proof.
  intros Hnumber Hdate Htotal Hvat Hlines Hh Hf Hid.
  rewrite (assemble_after_lookup _ _ _ _ _ _ _ _ Hh Hf).
  apply assemble_header_inv_ok in Hh as (name & guid & _ & ->).
  rewrite Hlines. simpl. unfold assemble_line. simpl. rewrite Hid. simpl.
  eexists _, _. split; [reflexivity|].
  rewrite lookup_insert_eq. unfold compile_data.
  rewrite Hnumber, Hdate, Htotal, Hvat.
  repeat split; vm_compute; reflexivity.
Qed.

End Lines.

(** C3 does not hold as worded: on an invoice whose first line has 5% VAT and
    whose second line has a ledger code unknown to the remote, the first
    line's [NotImplementedError] comes out, not an [ExactOnlineError]. *)
Lemma absent_code_after_unsupported_vat :
  ¬ absent_code_raises_ExactOnlineError Remote.api Remote.mixed Remote.fresh.
Proof.
  intros H.
  pose (header := assemble_header Remote.api Remote.mixed Remote.fresh).
  pose (lookup := fetch_ledger_ids Remote.api (get_ledger_lines Remote.mixed)
                    (final header)).
  destruct (H (returned header ∅) (final header) (calls header)
              (default ∅ (returned lookup None)) (final lookup) (calls lookup)
              {| code := "9999"; vat_percentage := 0;
                 total_amount_excl_vat := {| dsign := false; dcoeff := 500; dexp := -2 |};
                 description := "Postage" |}) as [msg Hmsg].
  - by_evaluation.
  - by_evaluation.
  - apply (list_elem_of_lookup_2 _ 1%nat). reflexivity.
  - by_evaluation.
  - vm_compute in Hmsg. discriminate.
Qed.

(** C2 does not hold as worded either: the ledger code is looked up before
    the percentage is looked at.  The second line of INV-003 is processed
    and has 0%, and gets no code; the line of INV-005 is processed and has
    5%, and the failure is an [ExactOnlineError], not the
    [NotImplementedError] of an unsupported percentage. *)
Lemma vatcode_without_ledger_account :
  ¬ processed_line_gets_vatcode Remote.api Remote.unresolved Remote.fresh ∧
  ¬ processed_line_gets_vatcode Remote.api Remote.unlisted Remote.fresh.
Proof.
  split; intros H.
  - pose (header := assemble_header Remote.api Remote.unresolved Remote.fresh).
    pose (lookup := fetch_ledger_ids Remote.api (get_ledger_lines Remote.unresolved)
                      (final header)).
    destruct (H (returned header ∅) (final header) (calls header)
                (default ∅ (returned lookup None)) (final lookup) (calls lookup)
                [Remote.goods]
                {| code := "9999"; vat_percentage := 0;
                   total_amount_excl_vat := {| dsign := false; dcoeff := 500; dexp := -2 |};
                   description := "Postage" |}
                []) as (Hzero & _ & _).
    + by_evaluation.
    + by_evaluation.
    + reflexivity.
    + constructor; [|constructor].
      exists (match assemble_line (Some (default ∅ (returned lookup None)))
                      Remote.goods with
              | Ok entry => entry
              | Raise _ => ∅
              end).
      by_evaluation.
    + destruct (Hzero eq_refl) as (entry & Hentry & _).
      vm_compute in Hentry. discriminate Hentry.
  - pose (header := assemble_header Remote.api Remote.unlisted Remote.fresh).
    pose (lookup := fetch_ledger_ids Remote.api (get_ledger_lines Remote.unlisted)
                      (final header)).
    destruct (H (returned header ∅) (final header) (calls header)
                (default ∅ (returned lookup None)) (final lookup) (calls lookup)
                []
                {| code := "9999"; vat_percentage := 5;
                   total_amount_excl_vat := {| dsign := false; dcoeff := 10000; dexp := -2 |};
                   description := "Books" |}
                []) as (_ & _ & Hother).
    + by_evaluation.
    + by_evaluation.
    + reflexivity.
    + constructor.
    + destruct Hother as [msg Hmsg]; [done|done|].
      vm_compute in Hmsg. discriminate Hmsg.
Qed.

(** ** The calls that [assemble] makes *)

Section Calls.

Context {W : Type} (api : Api W).

(** The header makes no ledger lookup. *)
Lemma assemble_header_no_filter self w r w' t :
  assemble_header api self w = (r, w', t) → count is_ledger_filter t = 0%nat.
Proof.
  intros H. apply assemble_header_trace in H. simpl in H.
  by destruct H as [-> | [-> | [-> | ->]]].
Qed.

(** The lookup of the ledger codes makes at most one call. *)
Lemma fetch_ledger_ids_trace lines w r w' t :
  fetch_ledger_ids api lines w = (r, w', t) →
  match lines with
  | [] => t = [] ∧ r = Ok None
  | _ :: _ => t = [EvLedgerFilter (list_to_set (code <$> lines))]
  end.
Proof.
  rewrite fetch_ledger_ids_run. destruct lines as [|l lines].
  - by intros [= <- <- <-].
  - cbv zeta. intros H. by repeat case_match; simplify_eq.
Qed.

(** The argument of the lookup holds each code of the lines once. *)
Lemma ledger_codes_distinct (lines : list LedgerLine) (c : string) :
  c ∈ (list_to_set (code <$> lines) : gset string) ↔
  ∃ line, line ∈ lines ∧ code line = c.
Proof.
  rewrite elem_of_list_to_set, list_elem_of_fmap. split.
  - intros (line & -> & Hline). eauto.
  - intros (line & Hline & <-). eauto.
Qed.

Lemma size_list_to_set_le (cs : list string) :
  (size (list_to_set cs : gset string) ≤ length cs)%nat.
Proof.
  induction cs as [|c cs IH]; simpl; [done|].
  destruct (decide (c ∈ (list_to_set cs : gset string))).
  - rewrite subseteq_union_1_L by (by apply singleton_subseteq_l). lia.
  - rewrite size_union by (by apply disjoint_singleton_l). rewrite size_singleton. lia.
Qed.

(** C8: for a non-empty sequence of ledger lines, [assemble] (once the
    customer is resolved, and so whenever it returns a payload) makes exactly
    one call to [ledgeraccounts.filter], with the set of the distinct codes
    of the lines; for an empty sequence it makes no such call and
    [SalesEntryLines] is empty.  No run makes more than one such call. *)
Theorem assemble_ledger_lookup self w r w' t :
  assemble api self w = (r, w', t) →
  let codes : gset string := list_to_set (code <$> get_ledger_lines self) in
  (get_ledger_lines self ≠ [] →
   ∀ data0 w1 t1, assemble_header api self w = (Ok data0, w1, t1) →
     t = t1 ++ [EvLedgerFilter codes] ∧
     count is_ledger_filter t = 1%nat ∧
     (∀ c, c ∈ codes ↔ ∃ line, line ∈ get_ledger_lines self ∧ code line = c) ∧
     (size codes ≤ length (get_ledger_lines self))%nat) ∧
  (get_ledger_lines self ≠ [] →
   ∀ data, r = Ok data → count is_ledger_filter t = 1%nat) ∧
  (get_ledger_lines self = [] →
   count is_ledger_filter t = 0%nat ∧
   ∀ data, r = Ok data → data !! "SalesEntryLines" = Some (Lines [])) ∧
  (count is_ledger_filter t ≤ 1)%nat.
Proof.
  rewrite assemble_run. intros Hrun codes.
  assert (Hsize : (size codes ≤ length (get_ledger_lines self))%nat).
  { subst codes. rewrite <-(length_fmap code (get_ledger_lines self)).
    apply size_list_to_set_le. }
  destruct (assemble_header api self w) as [[[data0|e] w1] t1] eqn:Hh.
  2:{ injection Hrun as <- <- <-.
      rewrite (assemble_header_no_filter _ _ _ _ _ Hh).
      split; [intros _ ???; discriminate|]. split; [intros _ ?; discriminate|].
      split; [|lia]. by intros _. }
  assert (Hc1 := assemble_header_no_filter _ _ _ _ _ Hh).
  assert (Hl0 := assemble_header_lines _ _ _ _ _ _ Hh).
  destruct (fetch_ledger_ids api (get_ledger_lines self) w1) as [[rf w2] t2] eqn:Hf.
  assert (Ht2 := fetch_ledger_ids_trace _ _ _ _ _ Hf).
  assert (t = t1 ++ t2) as -> by (destruct rf; by simplify_eq).
  rewrite count_app, Hc1.
  destruct (get_ledger_lines self) as [|l lines] eqn:Hlines.
  - destruct Ht2 as [-> ->]. simpl. split; [done|]. split; [done|]. split; [|lia].
    intros _. split; [done|]. intros data ->. simpl in Hrun. by simplify_eq.
  - subst t2. simpl. split; [|split; [done|split; [done|lia]]].
    intros _ data0' w1' t1' [= <- <- <-]. split; [done|]. split; [done|].
    split; [|done]. apply ledger_codes_distinct.
Qed.

(** C4: when the customer lookup of [assemble] fails with
    [ObjectDoesNotExist], the customer is created exactly once and looked up
    again, and the identifier of that second lookup goes into the payload;
    when the first lookup succeeds no customer is created and its identifier
    goes into the payload. *)
Theorem assemble_creates_customer_once self w name w1 r w' t :
  let c := get_customer self in
  customer_get_name api c w = (Ok name, w1) →
  1900 ≤ year (get_created_date self) →
  assemble api self w = (r, w', t) →
  (∀ w2, customer_get_guid api c w1 = (Raise ObjectDoesNotExist, w2) →
     count is_customer_commit t = 1%nat ∧
     (∃ t', t = [EvCustomerGetName c; EvCustomerGetGuid c; EvCustomerCommit c] ++ t') ∧
     ∀ u w3 guid w4,
       customer_commit api c w2 = (Ok u, w3) →
       customer_get_guid api c w3 = (Ok guid, w4) →
       (∃ t', t = [EvCustomerGetName c; EvCustomerGetGuid c; EvCustomerCommit c;
                   EvCustomerGetGuid c] ++ t') ∧
       count is_customer_get_guid t = 2%nat ∧
       ∀ data, r = Ok data → data !! "Customer" = Some (Scalar guid)) ∧
  (∀ guid w2, customer_get_guid api c w1 = (Ok guid, w2) →
     count is_customer_commit t = 0%nat ∧
     count is_customer_get_guid t = 1%nat ∧
     ∀ data, r = Ok data → data !! "Customer" = Some (Scalar guid)).
Proof.
  intros c Hname Hyear Hrun.
  assert (Hfmt : ∀ fmt, strftime (get_created_date self) fmt
                        = Ok (strftime_go (get_created_date self) fmt)).
  { intros fmt. unfold strftime. by destruct (Z.ltb_spec (year (get_created_date self)) 1900); [lia|]. }
  rewrite assemble_run, assemble_header_run in Hrun. cbv zeta in Hrun.
  fold c in Hrun. rewrite Hname, Hfmt, customer_guid_of_run in Hrun.
  (* the rest of the run: the lookup of the ledger codes and the loop *)
  assert (Hrest : ∀ data0 w2 th,
    match fetch_ledger_ids api (get_ledger_lines self) w2 with
    | (Ok ids, w3, t2) => (assemble_lines ids (get_ledger_lines self) data0, w3, th ++ t2)
    | (Raise e, w3, t2) => (Raise e, w3, th ++ t2)
    end = (r, w', t) →
    data0 !! "SalesEntryLines" = Some (Lines []) →
    ∃ t2, t = th ++ t2 ∧ count is_customer_commit t2 = 0%nat ∧
          count is_customer_get_guid t2 = 0%nat ∧
          ∀ data, r = Ok data → data !! "Customer" = data0 !! "Customer").
  { intros data0 w2 th Hr Hl0.
    destruct (fetch_ledger_ids api (get_ledger_lines self) w2) as [[rf w3] t2] eqn:Hf.
    assert (Ht2 := fetch_ledger_ids_trace _ _ _ _ _ Hf).
    exists t2.
    assert (count is_customer_commit t2 = 0%nat ∧ count is_customer_get_guid t2 = 0%nat)
      as [-> ->] by (destruct (get_ledger_lines self); [by destruct Ht2 as [-> _]|by subst t2]).
    destruct rf as [ids|e]; injection Hr as <- <- <-; (split; [done|]);
      (split; [done|]); (split; [done|]); [|done].
    intros data Hloop.
    eapply assemble_lines_inv_ok in Hloop as (entries & _ & ->); [|done].
    by rewrite lookup_insert_ne. }
  split.
  - intros w2 Hg1. rewrite Hg1 in Hrun. simpl in Hrun.
    destruct (customer_commit api c w2) as [[u|e] w3] eqn:Hcommit.
    + destruct (customer_get_guid api c w3) as [[guid|e] w4] eqn:Hg2.
      * apply Hrest in Hrun as (t2 & -> & Hc & Hg & Hcust); [|done].
        simpl. rewrite Hc, Hg. split; [done|]. split; [by eexists|].
        intros u' w3' guid' w4' [= <- <-]. rewrite Hg2. intros [= <- <-].
        split; [by eexists|]. split; [done|]. intros data Hdata.
        by rewrite (Hcust data Hdata).
      * injection Hrun as <- <- <-. split; [done|]. split; [by eexists|].
        intros u' w3' guid' w4' [= <- <-]. by rewrite Hg2.
    + injection Hrun as <- <- <-. split; [done|]. split; [by eexists|].
      intros u' w3' guid' w4'. discriminate.
  - intros guid w2 Hg1. rewrite Hg1 in Hrun.
    apply Hrest in Hrun as (t2 & -> & Hc & Hg & Hcust); [|done].
    simpl. rewrite Hc, Hg. split; [done|]. split; [done|]. intros data Hdata.
    by rewrite (Hcust data Hdata).
Qed.

End Calls.

(** ** [commit]: create or update *)

Section Commit.

Context {W : Type} (api : Api W).

Lemma get_guid_run self w :
  get_guid api self w =
  let n := get_invoice_number self in
  match invoices_get api n w with
  | (Ok exact_invoice, w1) =>
      match exact_invoice !! "EntryID" with
      | Some guid => (Ok guid, w1, [EvInvoicesGet n])
      | None => (Raise (KeyError "EntryID"), w1, [EvInvoicesGet n])
      end
  | (Raise e, w1) => (Raise e, w1, [EvInvoicesGet n])
  end.
Proof.
  unfold get_guid. rewrite run_bind, run_call. cbv zeta.
  destruct (invoices_get api (get_invoice_number self) w) as [[exact_invoice|e] w1];
    simpl; [|done].
  by destruct (exact_invoice !! "EntryID").
Qed.

(** The first step of [commit]: the identifier, or [None] when the invoice
    is not found. *)
Lemma resolve_run self w :
  try_except (get_guid api self) ObjectDoesNotExist (mret PyNone) w =
  let n := get_invoice_number self in
  match invoices_get api n w with
  | (Ok exact_invoice, w1) =>
      match exact_invoice !! "EntryID" with
      | Some guid => (Ok guid, w1, [EvInvoicesGet n])
      | None => (Raise (KeyError "EntryID"), w1, [EvInvoicesGet n])
      end
  | (Raise e, w1) =>
      if decide (e = ObjectDoesNotExist) then (Ok PyNone, w1, [EvInvoicesGet n])
      else (Raise e, w1, [EvInvoicesGet n])
  end.
Proof.
  unfold try_except. rewrite get_guid_run. cbv zeta.
  destruct (invoices_get api (get_invoice_number self) w) as [[exact_invoice|e] w1].
  - by destruct (exact_invoice !! "EntryID").
  - by destruct (decide (e = ObjectDoesNotExist)).
Qed.

(** [commit] after the identifier is known. *)
Lemma commit_run self w :
  commit api self w =
  match try_except (get_guid api self) ObjectDoesNotExist (mret PyNone) w with
  | (Ok exact_guid, w1, t0) =>
      match assemble api self w1 with
      | (Ok data, w2, ta) =>
          if truthy exact_guid then
            match pop_lines data with
            | Ok popped =>
                match invoices_update api exact_guid popped.2 w2 with
                | (Ok ret, w3) =>
                    (Ok ret, w3,
                     t0 ++ ta ++
                     [EvInvoicesUpdate exact_guid popped.2;
                      EvWarn "PUT of SalesEntry SalesEntryLines is not supported yet!"])
                | (Raise e, w3) =>
                    (Raise e, w3, t0 ++ ta ++ [EvInvoicesUpdate exact_guid popped.2])
                end
            | Raise e => (Raise e, w2, t0 ++ ta)
            end
          else
            match invoices_create api data w2 with
            | (Ok ret, w3) => (Ok (Some ret), w3, t0 ++ ta ++ [EvInvoicesCreate data])
            | (Raise e, w3) => (Raise e, w3, t0 ++ ta ++ [EvInvoicesCreate data])
            end
      | (Raise e, w2, ta) => (Raise e, w2, t0 ++ ta)
      end
  | (Raise e, w1, t0) => (Raise e, w1, t0)
  end.
Proof.
  unfold commit. rewrite run_bind.
  destruct (try_except _ _ _ w) as [[[exact_guid|e] w1] t0]; [|done].
  rewrite run_bind. destruct (assemble api self w1) as [[[data|e] w2] ta]; [|done].
  destruct (truthy exact_guid).
  - rewrite run_bind, run_lift. destruct (pop_lines data) as [popped|e]; simpl;
      [|by rewrite app_nil_r].
    rewrite run_bind, run_call.
    destruct (invoices_update api exact_guid popped.2 w2) as [[ret|e] w3]; simpl; [|done].
    reflexivity.
  - rewrite run_bind, run_call.
    destruct (invoices_create api data w2) as [[ret|e] w3]; simpl; [|done].
    reflexivity.
Qed.

(** [assemble] talks to the customer element and to the ledger accounts
    only: it does not get, create or update invoices, and does not warn. *)
Lemma assemble_trace_kinds self w r w' t :
  assemble api self w = (r, w', t) →
  count is_invoices_get t = 0%nat ∧ count is_invoices_create t = 0%nat ∧
  count is_invoices_update t = 0%nat ∧ count is_warn t = 0%nat.
Proof.
  rewrite assemble_run.
  destruct (assemble_header api self w) as [[rh w1] t1] eqn:Hh.
  assert (Ht1 := assemble_header_trace _ _ _ _ _ _ Hh). simpl in Ht1.
  assert (count is_invoices_get t1 = 0%nat ∧ count is_invoices_create t1 = 0%nat ∧
          count is_invoices_update t1 = 0%nat ∧ count is_warn t1 = 0%nat)
    as (Hg & Hc & Hu & Hw) by (by destruct Ht1 as [-> | [-> | [-> | ->]]]).
  destruct rh as [data0|e]; [|by intros [= <- <- <-]].
  destruct (fetch_ledger_ids api (get_ledger_lines self) w1) as [[rf w2] t2] eqn:Hf.
  assert (Ht2 := fetch_ledger_ids_trace _ _ _ _ _ _ Hf).
  assert (count is_invoices_get t2 = 0%nat ∧ count is_invoices_create t2 = 0%nat ∧
          count is_invoices_update t2 = 0%nat ∧ count is_warn t2 = 0%nat)
    as (Hg2 & Hc2 & Hu2 & Hw2)
    by (destruct (get_ledger_lines self); [by destruct Ht2 as [-> _]|by subst t2]).
  intros Hrun. assert (t = t1 ++ t2) as -> by (destruct rf; by simplify_eq).
  rewrite !count_app. lia.
Qed.

(** A payload that [assemble] returns has its line items, one per ledger
    line, so that [pop] finds them. *)
Lemma assemble_lines_present self w data w' t :
  assemble api self w = (Ok data, w', t) →
  ∃ entries : list record,
    data !! "SalesEntryLines" = Some (Lines entries) ∧
    length entries = length (get_ledger_lines self).
Proof.
  intros (name & guid & ids & entries & _ & HF & ->)%assemble_inv_ok.
  exists entries. split; [by rewrite lookup_insert_eq|].
  symmetry. by eapply Forall2_length.
Qed.

End Commit.

Section CreateOrUpdate.

Context {W : Type} (api : Api W).

(** C1: [commit] first looks the invoice up by its invoice number and then
    runs [assemble], on either path.  When the lookup fails with
    [ObjectDoesNotExist], it makes exactly one [invoices.create] with the
    whole payload, line items included, and returns the created record.
    When the lookup gives an identifier, it removes [SalesEntryLines] from
    the payload, makes exactly one [invoices.update] with the rest, warns
    without failing, and returns what the update returned. *)
Theorem commit_creates_or_updates self w r w' t :
  commit api self w = (r, w', t) →
  let n := get_invoice_number self in
  (∃ t', t = EvInvoicesGet n :: t') ∧
  (∀ w1 ra w2 ta,
     (invoices_get api n w = (Raise ObjectDoesNotExist, w1) ∨
      ∃ exact_invoice guid,
        invoices_get api n w = (Ok exact_invoice, w1) ∧
        exact_invoice !! "EntryID" = Some guid) →
     assemble api self w1 = (ra, w2, ta) →
     (∃ t', t = [EvInvoicesGet n] ++ ta ++ t') ∧
     (∀ e, ra = Raise e → r = Raise e ∧ w' = w2 ∧ t = [EvInvoicesGet n] ++ ta)) ∧
  (∀ w1 data w2 ta ret w3,
     invoices_get api n w = (Raise ObjectDoesNotExist, w1) →
     assemble api self w1 = (Ok data, w2, ta) →
     invoices_create api data w2 = (Ok ret, w3) →
     r = Ok (Some ret) ∧ w' = w3 ∧
     t = [EvInvoicesGet n] ++ ta ++ [EvInvoicesCreate data] ∧
     count is_invoices_create t = 1%nat ∧
     count is_invoices_update t = 0%nat ∧
     count is_warn t = 0%nat ∧
     ∃ entries : list record,
       data !! "SalesEntryLines" = Some (Lines entries) ∧
       length entries = length (get_ledger_lines self)) ∧
  (∀ exact_invoice guid w1 data w2 ta ret w3,
     invoices_get api n w = (Ok exact_invoice, w1) →
     exact_invoice !! "EntryID" = Some guid →
     truthy guid = true →
     assemble api self w1 = (Ok data, w2, ta) →
     let rest := delete "SalesEntryLines" data in
     invoices_update api guid rest w2 = (Ok ret, w3) →
     r = Ok ret ∧ w' = w3 ∧
     t = [EvInvoicesGet n] ++ ta ++ [EvInvoicesUpdate guid rest; EvWarn put_warning] ∧
     rest !! "SalesEntryLines" = None ∧
     (∀ k, k ≠ "SalesEntryLines" → rest !! k = data !! k) ∧
     count is_invoices_update t = 1%nat ∧
     count is_invoices_create t = 0%nat ∧
     count is_warn t = 1%nat).
Proof.
  intros Hrun n. rewrite commit_run, resolve_run in Hrun. cbv zeta in Hrun.
  fold n in Hrun. split.
  { repeat case_match; simplify_eq; eauto. }
  split; [|split].
  - intros w1 ra w2 ta Hget Ha.
    destruct Hget as [Hget | (exact_invoice & guid & Hget & Hid)];
      rewrite Hget in Hrun; [|rewrite Hid in Hrun]; simpl in Hrun;
      rewrite Ha in Hrun; (split; [|by intros e ->; simplify_eq]);
      repeat case_match; simplify_eq;
      first [by eexists | by exists []; rewrite app_nil_r].
  - intros w1 data w2 ta ret w3 Hget Ha Hcreate.
    rewrite Hget in Hrun. simpl in Hrun. rewrite Ha, Hcreate in Hrun.
    injection Hrun as <- <- <-.
    destruct (assemble_trace_kinds _ _ _ _ _ _ Ha) as (_ & Hc & Hu & Hw).
    split; [done|]. split; [done|]. split; [done|].
    simpl. rewrite !count_app, Hc, Hu, Hw. simpl.
    split; [done|]. split; [done|]. split; [done|].
    by eapply assemble_lines_present.
  - intros exact_invoice guid w1 data w2 ta ret w3 Hget Hid Htruthy Ha rest Hupdate.
    rewrite Hget, Hid, Ha, Htruthy in Hrun.
    destruct (assemble_lines_present _ _ _ _ _ _ Ha) as (entries & Hlines & _).
    unfold pop_lines in Hrun. rewrite Hlines in Hrun. simpl in Hrun.
    fold rest in Hrun. rewrite Hupdate in Hrun. injection Hrun as <- <- <-.
    destruct (assemble_trace_kinds _ _ _ _ _ _ Ha) as (_ & Hc & Hu & Hw).
    split; [done|]. split; [done|]. split; [done|].
    split; [apply lookup_delete_eq|].
    split; [by intros k Hk; apply lookup_delete_ne|].
    simpl. rewrite !count_app, Hc, Hu, Hw. by simpl.
Qed.

(** C9: the choice between update and create is made on the truth value of
    the identifier.  When the lookup succeeds with an identifier that is
    false ([None], the empty string, zero), [commit] creates: it sends the
    whole payload with its line items to [invoices.create], and its result is
    the one [commit] has when the lookup fails with [ObjectDoesNotExist] and
    leaves the remote in the same state. *)
Theorem commit_falsy_guid_creates self w exact_invoice guid w1 :
  let n := get_invoice_number self in
  invoices_get api n w = (Ok exact_invoice, w1) →
  exact_invoice !! "EntryID" = Some guid →
  truthy guid = false →
  (∀ data w2 ta,
     assemble api self w1 = (Ok data, w2, ta) →
     (∃ entries : list record,
        data !! "SalesEntryLines" = Some (Lines entries) ∧
        length entries = length (get_ledger_lines self)) ∧
     ∃ r w3,
       commit api self w = (r, w3, [EvInvoicesGet n] ++ ta ++ [EvInvoicesCreate data]) ∧
       match invoices_create api data w2 with
       | (Ok ret, w3') => r = Ok (Some ret) ∧ w3 = w3'
       | (Raise e, w3') => r = Raise e ∧ w3 = w3'
       end ∧
       count is_invoices_create ([EvInvoicesGet n] ++ ta ++ [EvInvoicesCreate data]) = 1%nat ∧
       count is_invoices_update ([EvInvoicesGet n] ++ ta ++ [EvInvoicesCreate data]) = 0%nat) ∧
  (∀ w0, invoices_get api n w0 = (Raise ObjectDoesNotExist, w1) →
         commit api self w0 = commit api self w).
Proof.
  intros n Hget Hid Hfalsy.
  assert (Hrun : commit api self w =
    match assemble api self w1 with
    | (Ok data, w2, ta) =>
        match invoices_create api data w2 with
        | (Ok ret, w3) => (Ok (Some ret), w3, [EvInvoicesGet n] ++ ta ++ [EvInvoicesCreate data])
        | (Raise e, w3) => (Raise e, w3, [EvInvoicesGet n] ++ ta ++ [EvInvoicesCreate data])
        end
    | (Raise e, w2, ta) => (Raise e, w2, [EvInvoicesGet n] ++ ta)
    end).
  { rewrite commit_run, resolve_run. cbv zeta. fold n. rewrite Hget, Hid.
    destruct (assemble api self w1) as [[[data|e] w2] ta]; [|done].
    by rewrite Hfalsy. }
  split.
  - intros data w2 ta Ha. split; [by eapply assemble_lines_present|].
    rewrite Hrun, Ha.
    destruct (assemble_trace_kinds _ _ _ _ _ _ Ha) as (_ & Hc & Hu & _).
    destruct (invoices_create api data w2) as [[ret|e] w3]; eexists _, _;
      (split; [reflexivity|]); (split; [done|]);
      simpl; rewrite !count_app, Hc, Hu; by simpl.
  - intros w0 Hget0. rewrite Hrun, commit_run, resolve_run. cbv zeta. fold n.
    rewrite Hget0. simpl.
    by destruct (assemble api self w1) as [[[data|e] w2] ta].
Qed.

End CreateOrUpdate.

(** ** The properties at work on concrete invoices *)

Lemma run_eta {W A} (run : outcome A * W * list event) :
  run = (run.1.1, final run, calls run).
Proof. by destruct run as [[r w] t]. Qed.

(** INV-001 is created on a remote that does not have it, and updated, with
    the warning, on a remote that has it. *)
Lemma commit_creates_or_updates_witness :
  let created := commit Remote.api Remote.inv001 Remote.fresh in
  let updated := commit Remote.api Remote.inv001 Remote.known in
  (created.1.1 = Ok (Some (<["EntryID" := PyStr "guid-INV-001"]> ∅)) ∧
   count is_invoices_create (calls created) = 1%nat ∧
   count is_invoices_update (calls created) = 0%nat) ∧
  (updated.1.1 = Ok None ∧
   count is_invoices_update (calls updated) = 1%nat ∧
   count is_warn (calls updated) = 1%nat).
Proof.
  intros created updated. split.
  - destruct (commit_creates_or_updates Remote.api Remote.inv001 Remote.fresh
                _ _ _ (run_eta created)) as (_ & _ & Hcreate & _).
    pose (assembled := assemble Remote.api Remote.inv001 Remote.fresh).
    destruct (Hcreate Remote.fresh (returned assembled ∅) (final assembled)
                (calls assembled) (<["EntryID" := PyStr "guid-INV-001"]> ∅)
                (invoices_create Remote.api (returned assembled ∅) (final assembled)).2)
      as (Hr & _ & _ & Hone & Hnone & _); [by_evaluation..|].
    by repeat split.
  - destruct (commit_creates_or_updates Remote.api Remote.inv001 Remote.known
                _ _ _ (run_eta updated)) as (_ & _ & _ & Hupdate).
    pose (assembled := assemble Remote.api Remote.inv001 Remote.known).
    destruct (Hupdate (<["EntryID" := PyStr "guid-INV-001"]> ∅) (PyStr "guid-INV-001")
                Remote.known (returned assembled ∅) (final assembled)
                (calls assembled) None Remote.known)
      as (Hr & _ & _ & _ & _ & Hone & _ & Hwarn); [by_evaluation..|].
    by repeat split.
Defined.

(** The line of INV-001 gets the code of 21%; the 5% of INV-002 is refused;
    the line of INV-005, whose ledger code is unknown, is refused for that
    code. *)
Lemma assemble_vatcode_witness :
  let header := assemble_header Remote.api Remote.inv001 Remote.fresh in
  let lookup := fetch_ledger_ids Remote.api [Remote.goods] (final header) in
  let ids := default ∅ (returned lookup None) in
  (∃ entry,
     assemble_line (Some ids) Remote.goods = Ok entry ∧
     entry !! "VATCode" = Some (PyStr "2  ")) ∧
  (assemble Remote.api Remote.mixed Remote.fresh).1.1 =
    Raise (NotImplementedError "Unknown VAT: 5") ∧
  (assemble Remote.api Remote.unlisted Remote.fresh).1.1 =
    Raise (ExactOnlineError "Cannot submit invoice with ledger code 9999").
Proof.
  intros header lookup ids. split; [|split].
  - destruct (assemble_vatcode Remote.api Remote.inv001 Remote.fresh)
      as (_ & Hline & _).
    destruct (Hline (returned header ∅) (final header) (calls header)
                ids (final lookup) (calls lookup)
                [] Remote.goods [] (PyStr "ledger-1234"))
      as (_ & H21 & _); [by_evaluation|by_evaluation|done|constructor|by_evaluation|].
    exact (H21 eq_refl).
  - pose (header' := assemble_header Remote.api Remote.mixed Remote.fresh).
    pose (lookup' := fetch_ledger_ids Remote.api (get_ledger_lines Remote.mixed)
                       (final header')).
    destruct (assemble_vatcode Remote.api Remote.mixed Remote.fresh)
      as (_ & Hline & _).
    destruct (Hline (returned header' ∅) (final header') (calls header')
                (default ∅ (returned lookup' None)) (final lookup') (calls lookup')
                [] {| code := "1234"; vat_percentage := 5;
                      total_amount_excl_vat :=
                        {| dsign := false; dcoeff := 10000; dexp := -2 |};
                      description := "Books" |}
                [ {| code := "9999"; vat_percentage := 0;
                     total_amount_excl_vat :=
                       {| dsign := false; dcoeff := 500; dexp := -2 |};
                     description := "Postage" |} ]
                (PyStr "ledger-1234"))
      as (_ & _ & Hother); [by_evaluation|by_evaluation|done|constructor|by_evaluation|].
    rewrite Hother by done. reflexivity.
  - pose (header' := assemble_header Remote.api Remote.unlisted Remote.fresh).
    pose (lookup' := fetch_ledger_ids Remote.api (get_ledger_lines Remote.unlisted)
                       (final header')).
    destruct (assemble_vatcode Remote.api Remote.unlisted Remote.fresh)
      as (_ & _ & Habsent).
    destruct (Habsent (returned header' ∅) (final header') (calls header')
                (default ∅ (returned lookup' None)) (final lookup') (calls lookup')
                [] {| code := "9999"; vat_percentage := 5;
                      total_amount_excl_vat :=
                        {| dsign := false; dcoeff := 10000; dexp := -2 |};
                      description := "Books" |}
                [])
      as [_ Hrun]; [by_evaluation|by_evaluation|done|constructor|by_evaluation|].
    rewrite Hrun. reflexivity.
Defined.

(** INV-003 fails on its second line, whose ledger code 9999 is unknown. *)
Lemma assemble_absent_ledger_code_witness :
  (assemble Remote.api Remote.unresolved Remote.fresh).1.1 =
    Raise (ExactOnlineError "Cannot submit invoice with ledger code 9999").
Proof.
  pose (header := assemble_header Remote.api Remote.unresolved Remote.fresh).
  pose (lookup := fetch_ledger_ids Remote.api (get_ledger_lines Remote.unresolved)
                    (final header)).
  destruct (assemble_absent_ledger_code Remote.api Remote.unresolved Remote.fresh
              (returned header ∅) (final header) (calls header)
              (default ∅ (returned lookup None)) (final lookup) (calls lookup)
              [Remote.goods]
              {| code := "9999"; vat_percentage := 0;
                 total_amount_excl_vat := {| dsign := false; dcoeff := 500; dexp := -2 |};
                 description := "Postage" |}
              [])
    as [_ Hfirst]; [by_evaluation|by_evaluation|done|by_evaluation|].
  rewrite Hfirst; [reflexivity|].
  constructor; [|constructor]. split; [|by right].
  exists (PyStr "ledger-1234"). by_evaluation.
Defined.

(** The customer ACME is created once where it is missing, and not at all
    where it exists. *)
Lemma assemble_creates_customer_once_witness :
  let created := assemble Remote.api Remote.inv001 Remote.fresh in
  let found := assemble Remote.api Remote.inv001 Remote.known in
  (count is_customer_commit (calls created) = 1%nat ∧
   count is_customer_get_guid (calls created) = 2%nat ∧
   returned created ∅ !! "Customer" = Some (Scalar (PyStr "cust-ACME"))) ∧
  (count is_customer_commit (calls found) = 0%nat ∧
   returned found ∅ !! "Customer" = Some (Scalar (PyStr "cust-ACME"))).
Proof.
  intros created found. split.
  - destruct (assemble_creates_customer_once Remote.api Remote.inv001 Remote.fresh
                "Relation ACME" Remote.fresh _ _ _ eq_refl ltac:(simpl; lia)
                (run_eta created)) as [Habsent _].
    destruct (Habsent Remote.fresh eq_refl) as (Hone & _ & Hagain).
    destruct (Hagain tt (customer_commit Remote.api "ACME" Remote.fresh).2
                (PyStr "cust-ACME") (customer_commit Remote.api "ACME" Remote.fresh).2)
      as (_ & Htwo & Hguid); [by_evaluation..|].
    split; [exact Hone|]. split; [exact Htwo|]. apply Hguid. by_evaluation.
  - destruct (assemble_creates_customer_once Remote.api Remote.inv001 Remote.known
                "Relation ACME" Remote.known _ _ _ eq_refl ltac:(simpl; lia)
                (run_eta found)) as [_ Hfound].
    destruct (Hfound (PyStr "cust-ACME") Remote.known) as (Hnone & _ & Hguid);
      [by_evaluation|].
    split; [exact Hnone|]. apply Hguid. by_evaluation.
Defined.

(** The amounts of INV-001, and 121.00 read back. *)
Lemma assemble_amounts_exact_witness :
  let run := assemble Remote.api Remote.inv001 Remote.fresh in
  returned run ∅ !! "AmountDC" = Some (Scalar (PyStr "121.00")) ∧
  returned run ∅ !! "VATAmountFC" = Some (Scalar (PyStr "21.00")) ∧
  Decimal_of_str "121.00" = Some {| dsign := false; dcoeff := 12100; dexp := -2 |}.
Proof.
  intros run.
  destruct (assemble_amounts_exact Remote.api Remote.inv001 Remote.fresh
              (returned run ∅) (final run) (calls run))
    as (Hdc & _ & _ & Hvat & _ & Hexact & _); [by_evaluation|].
  split; [exact Hdc|]. split; [exact Hvat|].
  exact (Hexact {| dsign := false; dcoeff := 12100; dexp := -2 |}).
Defined.

(** The entry date and the reporting period of INV-001. *)
Lemma assemble_entry_date_witness :
  let run := assemble Remote.api Remote.inv001 Remote.fresh in
  returned run ∅ !! "EntryDate" = Some (Scalar (PyStr "2024-03-15T00:00:00Z")) ∧
  returned run ∅ !! "ReportingPeriod" = Some (Scalar (PyInt 3)) ∧
  returned run ∅ !! "ReportingYear" = Some (Scalar (PyInt 2024)).
Proof.
  intros run.
  destruct (assemble_entry_date Remote.api Remote.inv001 Remote.fresh
              (returned run ∅) (final run) (calls run))
    as (Hdate & Hperiod & Hyear & _); [by_evaluation|].
  split; [exact Hdate|]. split; [exact Hperiod|exact Hyear].
Defined.

(** The single entry of INV-001 carries 100.00, the invoice 121.00. *)
Lemma assemble_entries_follow_lines_witness :
  let run := assemble Remote.api Remote.inv001 Remote.fresh in
  ∃ entries entry : record,
    returned run ∅ !! "SalesEntryLines" = Some (Lines [entry]) ∧
    entry !! "AmountDC" = Some (PyStr "100.00") ∧
    returned run ∅ !! "AmountDC" = Some (Scalar (PyStr "121.00")).
Proof.
  intros run.
  destruct (assemble_entries_follow_lines Remote.api Remote.inv001 Remote.fresh
              (returned run ∅) (final run) (calls run))
    as (entries & Hlines & Hlen & Hentries & Hdc & _); [by_evaluation|].
  destruct (Hentries 0%nat Remote.goods eq_refl) as (entry & Hentry & Hamount & _).
  destruct entries as [|entry' [|? ?]]; [discriminate Hlen| |discriminate Hlen].
  injection Hentry as ->.
  exists entry, entry. split; [exact Hlines|]. split; [exact Hamount|exact Hdc].
Defined.

(** The example on the small remote. *)
Lemma assemble_example_witness :
  ∃ data entry,
    (assemble Remote.api Remote.inv001 Remote.fresh).1.1 = Ok data ∧
    data !! "EntryDate" = Some (Scalar (PyStr "2024-03-15T00:00:00Z")) ∧
    data !! "ReportingPeriod" = Some (Scalar (PyInt 3)) ∧
    data !! "ReportingYear" = Some (Scalar (PyInt 2024)) ∧
    data !! "SalesEntryLines" = Some (Lines [entry]) ∧
    entry !! "VATCode" = Some (PyStr "2  ").
Proof.
  pose (header := assemble_header Remote.api Remote.inv001 Remote.fresh).
  pose (lookup := fetch_ledger_ids Remote.api (get_ledger_lines Remote.inv001)
                    (final header)).
  destruct (assemble_example Remote.api Remote.inv001 Remote.fresh
              (returned header ∅) (final header) (calls header)
              (default ∅ (returned lookup None)) (final lookup) (calls lookup)
              (PyStr "ledger-1234") eq_refl eq_refl eq_refl eq_refl eq_refl)
    as (data & entry & Hrun & Hdate & Hperiod & Hyear & Hlines & Hvat & _);
    [by_evaluation..|].
  exists data, entry. rewrite Hrun. by repeat split.
Defined.

(** One lookup for INV-001, none for the invoice without lines. *)
Lemma assemble_ledger_lookup_witness :
  let run := assemble Remote.api Remote.inv001 Remote.fresh in
  let empty := assemble Remote.api Remote.no_lines Remote.fresh in
  count is_ledger_filter (calls run) = 1%nat ∧
  count is_ledger_filter (calls empty) = 0%nat ∧
  returned empty ∅ !! "SalesEntryLines" = Some (Lines []).
Proof.
  intros run empty.
  pose (header := assemble_header Remote.api Remote.inv001 Remote.fresh).
  destruct (assemble_ledger_lookup Remote.api Remote.inv001 Remote.fresh
              _ _ _ (run_eta run)) as (Hsome & _ & _ & _).
  destruct (Hsome ltac:(discriminate) (returned header ∅) (final header) (calls header))
    as (_ & Hone & _); [by_evaluation|].
  destruct (assemble_ledger_lookup Remote.api Remote.no_lines Remote.fresh
              _ _ _ (run_eta empty)) as (_ & _ & Hnone & _).
  destruct (Hnone eq_refl) as [Hzero Hlines].
  split; [exact Hone|]. split; [exact Hzero|]. apply Hlines. by_evaluation.
Defined.

(** A record of INV-001 whose [EntryID] is [None] leads to a creation. *)
Lemma commit_falsy_guid_creates_witness :
  let run := commit Remote.api Remote.inv001 Remote.blank in
  count is_invoices_create (calls run) = 1%nat ∧
  count is_invoices_update (calls run) = 0%nat ∧
  run.1.1 = Ok (Some (<["EntryID" := PyStr "guid-INV-001"]> ∅)).
Proof.
  intros run.
  pose (assembled := assemble Remote.api Remote.inv001 Remote.blank).
  destruct (commit_falsy_guid_creates Remote.api Remote.inv001 Remote.blank
              (<["EntryID" := PyNone]> ∅) PyNone Remote.blank)
    as [Hcreate _]; [by_evaluation|by_evaluation|reflexivity|].
  destruct (Hcreate (returned assembled ∅) (final assembled) (calls assembled))
    as (_ & r & w3 & Hrun & _ & Hone & Hnone); [by_evaluation|].
  split; [|split].
  - unfold run. rewrite Hrun. exact Hone.
  - unfold run. rewrite Hrun. exact Hnone.
  - by_evaluation.
Defined.

(** * More of [invoice.py] *)

(** ** What [commit] does when the lookup or the submission fails *)

Section CommitFailures.

Context {W : Type} (api : Api W).

(** X1: [commit] only takes [ObjectDoesNotExist] for a missing invoice.  Any
    other failure of the lookup, and a record without [EntryID], ends
    [commit] with that failure right after the lookup: the invoice is not
    assembled and nothing is submitted. *)
Theorem commit_lookup_failure_aborts self w :
  let n := get_invoice_number self in
  (∀ e w1, invoices_get api n w = (Raise e, w1) → e ≠ ObjectDoesNotExist →
     commit api self w = (Raise e, w1, [EvInvoicesGet n])) ∧
  (∀ exact_invoice w1,
     invoices_get api n w = (Ok exact_invoice, w1) →
     exact_invoice !! "EntryID" = None →
     commit api self w = (Raise (KeyError "EntryID"), w1, [EvInvoicesGet n])).
Proof.
  intros n. split.
  - intros e w1 Hget He. rewrite commit_run, resolve_run. cbv zeta. fold n.
    rewrite Hget. by destruct (decide (e = ObjectDoesNotExist)).
  - intros exact_invoice w1 Hget Hid. rewrite commit_run, resolve_run. cbv zeta.
    fold n. by rewrite Hget, Hid.
Qed.

(** X2: a failure of the submission is the failure of [commit].  When
    [invoices.update] raises, no warning is given; when [invoices.create]
    raises, nothing follows it either.  The request was made once in both
    cases. *)
Theorem commit_submission_failure self w w1 data w2 ta e w3 :
  let n := get_invoice_number self in
  assemble api self w1 = (Ok data, w2, ta) →
  (∀ exact_invoice guid,
     invoices_get api n w = (Ok exact_invoice, w1) →
     exact_invoice !! "EntryID" = Some guid →
     truthy guid = true →
     invoices_update api guid (delete "SalesEntryLines" data) w2 = (Raise e, w3) →
     commit api self w =
       (Raise e, w3,
        [EvInvoicesGet n] ++ ta ++
        [EvInvoicesUpdate guid (delete "SalesEntryLines" data)]) ∧
     count is_warn (calls (commit api self w)) = 0%nat) ∧
  (invoices_get api n w = (Raise ObjectDoesNotExist, w1) →
   invoices_create api data w2 = (Raise e, w3) →
   commit api self w =
     (Raise e, w3, [EvInvoicesGet n] ++ ta ++ [EvInvoicesCreate data])).
Proof.
  intros n Ha.
  destruct (assemble_lines_present _ _ _ _ _ _ Ha) as (entries & Hlines & _).
  destruct (assemble_trace_kinds _ _ _ _ _ _ Ha) as (_ & _ & _ & Hw).
  split.
  - intros exact_invoice guid Hget Hid Htruthy Hupdate.
    assert (Hrun : commit api self w =
      (Raise e, w3,
       [EvInvoicesGet n] ++ ta ++
       [EvInvoicesUpdate guid (delete "SalesEntryLines" data)])).
    { rewrite commit_run, resolve_run. cbv zeta. fold n.
      rewrite Hget, Hid, Ha, Htruthy. unfold pop_lines. rewrite Hlines.
      simpl. by rewrite Hupdate. }
    split; [done|]. rewrite Hrun. unfold calls. simpl.
    rewrite count_app, Hw. done.
  - intros Hget Hcreate. rewrite commit_run, resolve_run. cbv zeta. fold n.
    rewrite Hget. simpl. rewrite Ha. simpl. by rewrite Hcreate.
Qed.

End CommitFailures.

(** ** The calls of [assemble], and what a failure of one of them does *)

(** A list that is one of those written out. *)
Ltac one_of_these :=
  rewrite !elem_of_cons; by repeat (first [left; reflexivity | right]).

Section AssembleCalls.

Context {W : Type} (api : Api W).

(** A header that completes has looked the customer up once, or looked it
    up, created it and looked it up again. *)
Lemma assemble_header_ok_trace self w data0 w1 t1 :
  assemble_header api self w = (Ok data0, w1, t1) →
  let c := get_customer self in
  t1 = [EvCustomerGetName c; EvCustomerGetGuid c] ∨
  t1 = [EvCustomerGetName c; EvCustomerGetGuid c; EvCustomerCommit c;
        EvCustomerGetGuid c].
Proof.
  rewrite assemble_header_run. cbv zeta.
  destruct (customer_get_name api (get_customer self) w) as [[name|e] w0];
    [|discriminate].
  destruct (strftime (get_created_date self) "%m-%Y"); [|discriminate].
  rewrite customer_guid_of_run. intros H.
  repeat case_match; simplify_eq; auto.
Qed.

(** X3: whatever the collaborators do, a run of [assemble] leaves one of six
    traces: it asks the customer's name, then its identifier, creates the
    customer and asks again only after the first lookup, and looks the
    ledger codes up last, once.  It never reads, creates or updates an
    invoice and never warns, and makes at most five calls. *)
Theorem assemble_calls_in_order self w :
  let run := assemble api self w in
  let codes : gset string := list_to_set (code <$> get_ledger_lines self) in
  calls run ∈ assemble_traces (get_customer self) codes ∧
  (length (calls run) ≤ 5)%nat ∧
  count is_invoices_get (calls run) = 0%nat ∧
  count is_invoices_create (calls run) = 0%nat ∧
  count is_invoices_update (calls run) = 0%nat ∧
  count is_warn (calls run) = 0%nat.
Proof.
  intros run codes.
  assert (Hshape : calls run ∈ assemble_traces (get_customer self) codes).
  { subst run. rewrite assemble_run.
    destruct (assemble_header api self w) as [[rh w1] t1] eqn:Hh.
    assert (Ht1 := assemble_header_trace _ _ _ _ _ _ Hh). cbv zeta in Ht1.
    destruct rh as [data0|e].
    - destruct (fetch_ledger_ids api (get_ledger_lines self) w1) as [[rf w2] t2] eqn:Hf.
      assert (Ht2 := fetch_ledger_ids_trace _ _ _ _ _ _ Hf).
      assert (calls (match rf with
                     | Ok ids => (assemble_lines ids (get_ledger_lines self) data0, w2, t1 ++ t2)
                     | Raise e => (Raise e, w2, t1 ++ t2)
                     end) = t1 ++ t2) as -> by (by destruct rf).
      assert (t1 = [EvCustomerGetName (get_customer self);
                    EvCustomerGetGuid (get_customer self)] ∨
              t1 = [EvCustomerGetName (get_customer self);
                    EvCustomerGetGuid (get_customer self);
                    EvCustomerCommit (get_customer self);
                    EvCustomerGetGuid (get_customer self)]) as Hok.
      { by apply (assemble_header_ok_trace _ _ _ _ _ Hh). }
      unfold assemble_traces. fold codes in Ht2.
      destruct (get_ledger_lines self) as [|l ls].
      + destruct Ht2 as [-> _]. rewrite app_nil_r.
        destruct Hok as [-> | ->]; one_of_these.
      + subst t2. destruct Hok as [-> | ->]; one_of_these.
    - unfold calls, assemble_traces. simpl.
      destruct Ht1 as [-> | [-> | [-> | ->]]]; one_of_these. }
  split; [done|].
  unfold assemble_traces in Hshape.
  repeat (apply elem_of_cons in Hshape as [-> | Hshape]; [by repeat split; simpl; lia|]).
  by apply elem_of_nil in Hshape.
Qed.

End AssembleCalls.

Section AssembleFailures.

Context {W : Type} (api : Api W).

(** X4: [assemble] handles one failure only, [ObjectDoesNotExist] on the
    first lookup of the customer.  Every other failure of a collaborator is
    the failure of [assemble], left as it is, and no call follows it: a
    failing [get_name], a first lookup failing otherwise, a failing creation,
    a second lookup failing in any way (the customer is not created twice),
    and a failing lookup of the ledger codes. *)
Theorem assemble_collaborator_failure self w e :
  let c := get_customer self in
  let codes : gset string := list_to_set (code <$> get_ledger_lines self) in
  (∀ w1, customer_get_name api c w = (Raise e, w1) →
     assemble api self w = (Raise e, w1, [EvCustomerGetName c])) ∧
  (∀ name w1, customer_get_name api c w = (Ok name, w1) →
     1900 ≤ year (get_created_date self) →
     (∀ w2, customer_get_guid api c w1 = (Raise e, w2) → e ≠ ObjectDoesNotExist →
        assemble api self w =
          (Raise e, w2, [EvCustomerGetName c; EvCustomerGetGuid c])) ∧
     (∀ w2 w3, customer_get_guid api c w1 = (Raise ObjectDoesNotExist, w2) →
        customer_commit api c w2 = (Raise e, w3) →
        assemble api self w =
          (Raise e, w3,
           [EvCustomerGetName c; EvCustomerGetGuid c; EvCustomerCommit c])) ∧
     (∀ w2 u w3 w4, customer_get_guid api c w1 = (Raise ObjectDoesNotExist, w2) →
        customer_commit api c w2 = (Ok u, w3) →
        customer_get_guid api c w3 = (Raise e, w4) →
        assemble api self w =
          (Raise e, w4,
           [EvCustomerGetName c; EvCustomerGetGuid c; EvCustomerCommit c;
            EvCustomerGetGuid c]))) ∧
  (∀ data0 w1 t1 w2, assemble_header api self w = (Ok data0, w1, t1) →
     get_ledger_lines self ≠ [] →
     ledgeraccounts_filter api codes w1 = (Raise e, w2) →
     assemble api self w = (Raise e, w2, t1 ++ [EvLedgerFilter codes])).
Proof.
  intros c codes. split; [|split].
  - intros w1 Hname. rewrite assemble_run, assemble_header_run. cbv zeta.
    fold c. by rewrite Hname.
  - intros name w1 Hname Hyear.
    assert (Hfmt : ∀ fmt, strftime (get_created_date self) fmt
                          = Ok (strftime_go (get_created_date self) fmt)).
    { intros fmt. unfold strftime.
      by destruct (Z.ltb_spec (year (get_created_date self)) 1900); [lia|]. }
    assert (Hrun : assemble api self w =
      match customer_guid_of api c w1 with
      | (Ok guid, w2, t) =>
          match fetch_ledger_ids api (get_ledger_lines self) w2 with
          | (Ok ids, w3, t2) =>
              (assemble_lines ids (get_ledger_lines self)
                 (compile_data self (description_of self name) guid
                    (strftime_go (get_created_date self) "%Y-%m-%dT%H:%M:%SZ")),
               w3, (EvCustomerGetName c :: t) ++ t2)
          | (Raise e', w3, t2) => (Raise e', w3, (EvCustomerGetName c :: t) ++ t2)
          end
      | (Raise e', w2, t) => (Raise e', w2, EvCustomerGetName c :: t)
      end).
    { rewrite assemble_run, assemble_header_run. cbv zeta. fold c.
      rewrite Hname, Hfmt. by destruct (customer_guid_of api c w1) as [[[?|?] ?] ?]. }
    rewrite Hrun, customer_guid_of_run. split; [|split].
    + intros w2 Hg He. rewrite Hg. by destruct (decide (e = ObjectDoesNotExist)).
    + intros w2 w3 Hg Hc. rewrite Hg. simpl. by rewrite Hc.
    + intros w2 u w3 w4 Hg Hc Hg2. rewrite Hg. simpl. by rewrite Hc, Hg2.
  - intros data0 w1 t1 w2 Hh Hne Hfilter.
    rewrite assemble_run, Hh, fetch_ledger_ids_run.
    destruct (get_ledger_lines self) as [|l ls] eqn:Hlines; [done|].
    cbv zeta. fold codes. rewrite <-Hlines. fold codes. by rewrite Hfilter.
Qed.

(** Lines that are all resolved and supported all give an entry. *)
Lemma assemble_line_all_ok ids (lines : list LedgerLine) :
  Forall (λ line, ∃ ledger_ids,
            ids = Some ledger_ids ∧ is_Some (ledger_ids !! code line) ∧
            (vat_percentage line = 0 ∨ vat_percentage line = 21)) lines →
  ∃ entries, Forall2 (λ line entry, assemble_line ids line = Ok entry) lines entries.
Proof.
  induction 1 as [|line lines (ledger_ids & Hids & [id Hid] & Hvat) _ [entries IH]].
  - exists []. constructor.
  - destruct Hvat as [Hvat|Hvat]; eexists (_ :: entries);
      (constructor; [|exact IH]); unfold assemble_line;
      rewrite Hids, Hid, Hvat; reflexivity.
Qed.

(** X5: once the customer is resolved and the ledger codes are looked up,
    [assemble] returns a payload exactly when every ledger line has a code
    that the lookup returned and a VAT percentage of 0 or 21. *)
Theorem assemble_succeeds_iff self w data0 w1 t1 ids w2 t2 :
  assemble_header api self w = (Ok data0, w1, t1) →
  fetch_ledger_ids api (get_ledger_lines self) w1 = (Ok ids, w2, t2) →
  (∃ data, assemble api self w = (Ok data, w2, t1 ++ t2)) ↔
  Forall (λ line, ∃ ledger_ids,
            ids = Some ledger_ids ∧ is_Some (ledger_ids !! code line) ∧
            (vat_percentage line = 0 ∨ vat_percentage line = 21))
         (get_ledger_lines self).
Proof.
  intros Hh Hf. rewrite (assemble_after_lookup _ _ _ _ _ _ _ _ _ Hh Hf).
  assert (Hl0 := assemble_header_lines _ _ _ _ _ _ Hh).
  split.
  - intros [data [= Hloop]].
    eapply assemble_lines_inv_ok in Hloop as (entries & HF & _); [|done].
    apply Forall_forall. intros line Hline.
    apply list_elem_of_lookup in Hline as [i Hi].
    destruct (entries_lookup _ _ _ _ _ HF Hi) as (entry & _ & Hentry).
    apply assemble_line_inv_ok in Hentry as (ledger_ids & id & vc & -> & Hid & Hvat & _).
    exists ledger_ids. split; [done|]. split; [by eexists|].
    apply vatcode_of_inv_ok in Hvat as [[? _]|[? _]]; auto.
  - intros Hall.
    destruct (assemble_line_all_ok _ _ Hall) as [entries HF].
    eexists. by rewrite (assemble_lines_ok _ _ _ _ _ Hl0 HF).
Qed.

End AssembleFailures.

(** ** The dictionary of ledger identifiers *)

Section LedgerDict.

Implicit Types (rows : list record) (acc ids : record) (c : string).



(** What the dictionary holds for a code: the identifier of the last row
    with that code, or what was there before when no row has it. *)
Lemma ledger_dict_lookup rows : ∀ acc ids c id,
  ledger_dict rows acc = Ok ids →
  ids !! c = Some id ↔
  (∃ pre i post,
     rows = pre ++ i :: post ∧ row_has_code c i ∧ i !! "ID" = Some id ∧
     Forall (λ j, ¬ row_has_code c j) post) ∨
  (Forall (λ j, ¬ row_has_code c j) rows ∧ acc !! c = Some id).
Proof.
  induction rows as [|i rest IH]; intros acc ids c id; simpl.
  - intros [= <-]. split.
    + intros Hacc. right. split; [constructor|done].
    + intros [(pre & i & post & Hnil & _)|[_ Hacc]]; [|done].
      by destruct pre.
  - destruct (i !! "Code") as [cv|] eqn:Hc; [|discriminate].
    destruct (i !! "ID") as [idv|] eqn:Hi; [|discriminate].
    intros Hrest. rewrite (IH _ _ c id Hrest). clear IH Hrest.
    assert (Hhas : row_has_code c i ↔ unicode cv = c).
    { unfold row_has_code. rewrite Hc. simpl. split; [by intros [= ->]|by intros ->]. }
    split.
    + intros [(pre & j & post & -> & Hj & Hid & Hpost)|[Hnone Hacc]].
      * left. exists (i :: pre), j, post. auto.
      * destruct (decide (unicode cv = c)) as [Heq|Hne].
        -- rewrite Heq, lookup_insert_eq in Hacc. injection Hacc as ->.
           left. exists [], i, rest. split; [done|]. split; [by apply Hhas|]. auto.
        -- rewrite lookup_insert_ne in Hacc by done. right. split; [|done].
           constructor; [by rewrite Hhas|done].
    + intros [(pre & j & post & Heq & Hj & Hid & Hpost)|[Hnone Hacc]].
      * destruct pre as [|i' pre]; simpl in Heq; injection Heq as -> ->.
        -- right. split; [done|]. apply Hhas in Hj. rewrite Hj, lookup_insert_eq.
           congruence.
        -- left. exists pre, j, post. auto.
      * inversion Hnone as [|? ? Hi' Hrest']; subst. right. split; [done|].
        rewrite lookup_insert_ne; [done|]. by rewrite <-Hhas.
Qed.

Lemma ledger_dict_lookup_none rows : ∀ acc ids c,
  ledger_dict rows acc = Ok ids →
  ids !! c = None ↔ Forall (λ j, ¬ row_has_code c j) rows ∧ acc !! c = None.
Proof.
  induction rows as [|i rest IH]; intros acc ids c; simpl.
  - intros [= <-]. split; [by split; [constructor|]|by intros [_ ?]].
  - destruct (i !! "Code") as [cv|] eqn:Hc; [|discriminate].
    destruct (i !! "ID") as [idv|] eqn:Hi; [|discriminate].
    intros Hrest. rewrite (IH _ _ c Hrest). clear IH Hrest.
    assert (Hhas : row_has_code c i ↔ unicode cv = c).
    { unfold row_has_code. rewrite Hc. simpl. split; [by intros [= ->]|by intros ->]. }
    rewrite Forall_cons, Hhas, lookup_insert_None. tauto.
Qed.

(** X6: in the dictionary that [assemble] builds from the rows of the ledger
    lookup, a code has the identifier of the last row whose [Code] reads as
    that code ([unicode] of it), and a code that no row has is absent.  Rows
    for other codes do not matter. *)
Theorem ledger_dict_last_row_wins rows ids c :
  ledger_dict rows ∅ = Ok ids →
  (∀ id, ids !! c = Some id ↔
     ∃ pre i post,
       rows = pre ++ i :: post ∧ row_has_code c i ∧ i !! "ID" = Some id ∧
       Forall (λ j, ¬ row_has_code c j) post) ∧
  (ids !! c = None ↔ Forall (λ j, ¬ row_has_code c j) rows).
Proof.
  intros Hdict.
  assert (Hsome : ∀ id, ids !! c = Some id ↔
     ∃ pre i post,
       rows = pre ++ i :: post ∧ row_has_code c i ∧ i !! "ID" = Some id ∧
       Forall (λ j, ¬ row_has_code c j) post).
  { intros id. rewrite (ledger_dict_lookup _ _ _ c id Hdict). split; [|by left].
    intros [H|[_ Hempty]]; [done|]. by rewrite lookup_empty in Hempty. }
  split; [done|].
  rewrite (ledger_dict_lookup_none _ _ _ c Hdict). rewrite lookup_empty.
  split; [by intros [? _]|by intros ?].
Qed.

End LedgerDict.

Section LedgerRows.

Context {W : Type} (api : Api W).

(** With ledger lines, the lookup is made. *)
Lemma fetch_ledger_ids_lines (lines : list LedgerLine) w :
  lines ≠ [] →
  fetch_ledger_ids api lines w =
  let codes : gset string := list_to_set (code <$> lines) in
  match ledgeraccounts_filter api codes w with
  | (Ok rows, w1) =>
      match ledger_dict rows ∅ with
      | Ok ids => (Ok (Some ids), w1, [EvLedgerFilter codes])
      | Raise e => (Raise e, w1, [EvLedgerFilter codes])
      end
  | (Raise e, w1) => (Raise e, w1, [EvLedgerFilter codes])
  end.
Proof. intros Hne. rewrite fetch_ledger_ids_run. by destruct lines. Qed.

(** A payload for an invoice with ledger lines was built from the rows of
    one lookup. *)
Lemma assemble_inv_ok_rows self w data0 w1 t1 data w' t :
  assemble_header api self w = (Ok data0, w1, t1) →
  get_ledger_lines self ≠ [] →
  assemble api self w = (Ok data, w', t) →
  let codes : gset string := list_to_set (code <$> get_ledger_lines self) in
  ∃ rows ids entries,
    ledgeraccounts_filter api codes w1 = (Ok rows, w') ∧
    ledger_dict rows ∅ = Ok ids ∧
    Forall2 (λ line entry, assemble_line (Some ids) line = Ok entry)
      (get_ledger_lines self) entries ∧
    data = <["SalesEntryLines" := Lines entries]> data0.
Proof.
  intros Hh Hne. rewrite assemble_run, Hh, fetch_ledger_ids_lines by done.
  assert (Hl0 := assemble_header_lines _ _ _ _ _ _ Hh).
  cbv zeta.
  destruct (ledgeraccounts_filter api _ w1) as [[rows|e] w2]; [|discriminate].
  destruct (ledger_dict rows ∅) as [ids|e] eqn:Hdict; [|discriminate].
  intros [= Hloop <- <-].
  eapply assemble_lines_inv_ok in Hloop as (entries & HF & ->); [|done].
  by exists rows, ids, entries.
Qed.

(** X7: the [GLAccount] of an entry is the [ID] of the last row of the lookup
    whose [Code] reads as the line's code. *)
Theorem assemble_gl_account self w data0 w1 t1 data w' t :
  assemble_header api self w = (Ok data0, w1, t1) →
  get_ledger_lines self ≠ [] →
  assemble api self w = (Ok data, w', t) →
  let codes : gset string := list_to_set (code <$> get_ledger_lines self) in
  ∃ rows (entries : list record),
    ledgeraccounts_filter api codes w1 = (Ok rows, w') ∧
    data !! "SalesEntryLines" = Some (Lines entries) ∧
    ∀ i line, get_ledger_lines self !! i = Some line →
      ∃ entry pre r post,
        entries !! i = Some entry ∧
        rows = pre ++ r :: post ∧
        row_has_code (code line) r ∧
        Forall (λ j, ¬ row_has_code (code line) j) post ∧
        entry !! "GLAccount" = r !! "ID".
Proof.
  intros Hh Hne Ha codes.
  destruct (assemble_inv_ok_rows _ _ _ _ _ _ _ _ Hh Hne Ha)
    as (rows & ids & entries & Hfilter & Hdict & HF & ->).
  exists rows, entries. split; [done|]. split; [by rewrite lookup_insert_eq|].
  intros i line Hi.
  destruct (entries_lookup _ _ _ _ _ HF Hi) as (entry & Hentry & Hline).
  apply assemble_line_inv_ok in Hline as (ids' & id & vc & [= <-] & Hid & _ & ->).
  apply (ledger_dict_lookup _ _ _ _ _ Hdict) in Hid
    as [(pre & r & post & -> & Hr & Hrid & Hpost)|[_ Hempty]];
    [|by rewrite lookup_empty in Hempty].
  eexists _, pre, r, post. split; [exact Hentry|]. split; [done|]. split; [done|].
  split; [done|]. by rewrite Hrid.
Qed.


End LedgerRows.

(** ** The keys and the references of the payload *)

Section Keys.

Context {W : Type} (api : Api W).

Lemma dom_compile_data self d g e : dom (compile_data self d g e) = payload_keys.
Proof. unfold compile_data. by rewrite !dom_insert_L, dom_empty_L. Qed.

(** The keys of a payload that [assemble] returns, and its line items. *)
Lemma assemble_dom self w data w' t :
  assemble api self w = (Ok data, w', t) →
  dom data = payload_keys ∧
  ∃ entries : list record, data !! "SalesEntryLines" = Some (Lines entries).
Proof.
  intros (name & guid & ids & entries & _ & _ & ->)%assemble_inv_ok.
  split.
  - rewrite dom_insert_lookup_L by (by rewrite compile_data_lines).
    apply dom_compile_data.
  - exists entries. by rewrite lookup_insert_eq.
Qed.

(** X9: a payload that [assemble] returns has exactly the thirteen keys of
    the request, whatever the invoice, and each entry of [SalesEntryLines]
    has exactly the five keys of a line. *)
Theorem assemble_payload_keys self w data w' t :
  assemble api self w = (Ok data, w', t) →
  dom data = payload_keys ∧
  ∃ entries : list record,
    data !! "SalesEntryLines" = Some (Lines entries) ∧
    Forall (λ entry, dom entry = entry_keys) entries.
Proof.
  intros (name & guid & ids & entries & _ & HF & ->)%assemble_inv_ok.
  split.
  - rewrite dom_insert_lookup_L by (by rewrite compile_data_lines).
    apply dom_compile_data.
  - exists entries. split; [by rewrite lookup_insert_eq|].
    apply Forall_forall. intros entry Hentry.
    apply list_elem_of_lookup in Hentry as [i Hi].
    destruct (Forall2_lookup_r _ _ _ _ _ HF Hi) as (line & _ & Hline).
    apply assemble_line_inv_ok in Hline as (? & ? & ? & _ & _ & _ & ->).
    by rewrite !dom_insert_L, dom_empty_L.
Qed.

(** A header that returns has asked the customer's name and resolved its
    identifier. *)
Lemma assemble_header_inv_ok_name self w data0 w1 t1 :
  assemble_header api self w = (Ok data0, w1, t1) →
  let c := get_customer self in
  ∃ name w0 guid tg,
    customer_get_name api c w = (Ok name, w0) ∧
    customer_guid_of api c w0 = (Ok guid, w1, tg) ∧
    t1 = EvCustomerGetName c :: tg ∧
    data0 = compile_data self (description_of self name) guid
              (strftime_go (get_created_date self) "%Y-%m-%dT%H:%M:%SZ").
Proof.
  rewrite assemble_header_run. cbv zeta.
  destruct (customer_get_name api (get_customer self) w) as [[name|e] w0] eqn:Hname;
    [|discriminate].
  destruct (strftime (get_created_date self) "%m-%Y"); [|discriminate].
  destruct (customer_guid_of api (get_customer self) w0) as [[[guid|e] w2] tg] eqn:Hguid;
    [|discriminate].
  intros [= <- <- <-]. by exists name, w0, guid, tg.
Qed.

Lemma strftime_go_month_year d :
  strftime_go d "%m-%Y" = zfill 2 (month d) +:+ "-" +:+ zfill 4 (year d).
Proof.
  change (strftime_go d "%m-%Y")
    with (zfill 2 (month d) +:+ "-" +:+ zfill 4 (year d) +:+ "").
  by rewrite string_app_nil_r.
Qed.

(** X10: the references of the payload.  The description is the invoice
    number, a dash, the name that the customer element gave, a comma, and
    the month and year of the created date as [MM-YYYY]; [YourRef] is the
    invoice number, [Journal] the journal, and [InvoiceNumber] the hint, as
    the application gave them. *)
Theorem assemble_references self w data w' t :
  assemble api self w = (Ok data, w', t) →
  ∃ name w0,
    customer_get_name api (get_customer self) w = (Ok name, w0) ∧
    data !! "Description" =
      Some (Scalar (PyStr (get_invoice_number self +:+ " - " +:+ name +:+ ", " +:+
                           zfill 2 (month (get_created_date self)) +:+ "-" +:+
                           zfill 4 (year (get_created_date self))))) ∧
    data !! "YourRef" = Some (Scalar (PyStr (get_invoice_number self))) ∧
    data !! "Journal" = Some (Scalar (PyStr (get_exact_journal self))) ∧
    data !! "InvoiceNumber" = Some (Scalar (hint_exact_invoice_number self)).
Proof.
  rewrite assemble_run.
  destruct (assemble_header api self w) as [[[data0|e] w1] t1] eqn:Hh; [|discriminate].
  destruct (fetch_ledger_ids api (get_ledger_lines self) w1) as [[[ids|e] w2] t2];
    [|discriminate].
  intros [= Hloop <- <-].
  apply assemble_header_inv_ok_name in Hh as (name & w0 & guid & tg & Hname & _ & _ & ->).
  eapply assemble_lines_inv_ok in Hloop as (entries & _ & ->);
    [|apply compile_data_lines].
  exists name, w0. split; [done|]. rewrite <-strftime_go_month_year. by repeat split.
Qed.

End Keys.

(** ** What [commit] sends *)

Section Sent.

Context {W : Type} (api : Api W).

(** A trace without requests is well formed. *)
Lemma no_request_well_formed (t : list event) :
  count is_invoices_create t = 0%nat → count is_invoices_update t = 0%nat →
  Forall well_formed_request t.
Proof.
  induction t as [|ev t IH]; simpl; [constructor|].
  intros Hc Hu. constructor; [by destruct ev|]. apply IH; lia.
Qed.

(** The lookup, the calls of [assemble], and then at most one well-formed
    request, warned about if it is an update. *)
Lemma submits_once_after n (ta tail : list event) :
  count is_invoices_get ta = 0%nat → count is_invoices_create ta = 0%nat →
  count is_invoices_update ta = 0%nat → count is_warn ta = 0%nat →
  submits_once (EvInvoicesGet n :: tail) →
  submits_once ([EvInvoicesGet n] ++ ta ++ tail).
Proof.
  intros Hg Hc Hu Hw (H1 & H2 & H3 & H4). unfold submits_once in *. simpl in *.
  rewrite !count_app, Hg, Hc, Hu, Hw. simpl.
  split; [lia|]. split; [lia|]. split; [lia|].
  inversion H4; subst. constructor; [done|].
  apply Forall_app. split; [by apply no_request_well_formed|done].
Qed.

(** X11: whatever the collaborators do, [commit] looks the invoice up once
    and submits at most once, never both creating and updating.  A body sent
    to [invoices.create] has the thirteen keys, line items included; a body
    sent to [invoices.update] goes with an identifier that is true and has
    the twelve keys other than [SalesEntryLines]; and there is no warning
    without an update. *)
Theorem commit_submits_once self w :
  let t := calls (commit api self w) in
  (count is_invoices_create t + count is_invoices_update t ≤ 1)%nat ∧
  (count is_warn t ≤ count is_invoices_update t)%nat ∧
  count is_invoices_get t = 1%nat ∧
  (∀ data, EvInvoicesCreate data ∈ t → dom data = payload_keys) ∧
  (∀ guid data, EvInvoicesUpdate guid data ∈ t →
     truthy guid = true ∧ dom data = payload_keys ∖ {["SalesEntryLines"]}).
Proof.
  intros t.
  enough (submits_once t) as (H1 & H2 & H3 & H4).
  { rewrite Forall_forall in H4. split; [done|]. split; [done|]. split; [done|]. split.
    - intros data Hin. exact (H4 _ Hin).
    - intros guid data Hin. exact (H4 _ Hin). }
  subst t. rewrite commit_run, resolve_run. cbv zeta.
  set (n := get_invoice_number self).
  assert (Hfail : ∀ (e : exn) (w1 : W),
    submits_once (calls (Raise e : outcome (option record), w1, [EvInvoicesGet n]))).
  { intros e w1. unfold calls, submits_once. simpl.
    repeat split; try lia. by repeat constructor. }
  assert (Hgo : ∀ (exact_guid : pyval) (w1 : W),
    submits_once (calls
      (match assemble api self w1 with
       | (Ok data, w2, ta) =>
           if truthy exact_guid then
             match pop_lines data with
             | Ok popped =>
                 match invoices_update api exact_guid popped.2 w2 with
                 | (Ok ret, w3) =>
                     (Ok ret, w3,
                      [EvInvoicesGet n] ++ ta ++
                      [EvInvoicesUpdate exact_guid popped.2;
                       EvWarn "PUT of SalesEntry SalesEntryLines is not supported yet!"])
                 | (Raise e, w3) =>
                     (Raise e, w3, [EvInvoicesGet n] ++ ta ++
                                   [EvInvoicesUpdate exact_guid popped.2])
                 end
             | Raise e => (Raise e, w2, [EvInvoicesGet n] ++ ta)
             end
           else
             match invoices_create api data w2 with
             | (Ok ret, w3) =>
                 (Ok (Some ret), w3, [EvInvoicesGet n] ++ ta ++ [EvInvoicesCreate data])
             | (Raise e, w3) =>
                 (Raise e, w3, [EvInvoicesGet n] ++ ta ++ [EvInvoicesCreate data])
             end
       | (Raise e, w2, ta) => (Raise e, w2, [EvInvoicesGet n] ++ ta)
       end))).
  { intros exact_guid w1.
    destruct (assemble api self w1) as [[ra w2] ta] eqn:Ha.
    destruct (assemble_trace_kinds _ _ _ _ _ _ Ha) as (Hg & Hc & Hu & Hw).
    assert (Hnone : submits_once ([EvInvoicesGet n] ++ ta)).
    { rewrite <-(app_nil_r ta). apply submits_once_after; try done.
      unfold submits_once. simpl. repeat split; try lia. by repeat constructor. }
    destruct ra as [data|e]; [|exact Hnone].
    destruct (assemble_dom _ _ _ _ _ _ Ha) as (Hdom & entries & Hlines).
    destruct (truthy exact_guid) eqn:Htruthy.
    - unfold pop_lines. rewrite Hlines. simpl.
      assert (Hrest : dom (delete "SalesEntryLines" data)
                      = payload_keys ∖ {["SalesEntryLines"]})
        by (by rewrite dom_delete_L, Hdom).
      destruct (invoices_update api exact_guid _ w2) as [[ret|e] w3];
        unfold calls; simpl; apply (submits_once_after n ta); try done;
        unfold submits_once; simpl; (repeat split; try lia);
        by repeat constructor.
    - destruct (invoices_create api data w2) as [[ret|e] w3];
        unfold calls; simpl; apply (submits_once_after n ta); try done;
        unfold submits_once; simpl; (repeat split; try lia);
        by repeat constructor. }
  destruct (invoices_get api n w) as [[exact_invoice|e] w1].
  - destruct (exact_invoice !! "EntryID") as [guid|]; [apply Hgo|apply Hfail].
  - destruct (decide (e = ObjectDoesNotExist)); [apply Hgo|apply Hfail].
Qed.

End Sent.

(** ** The getters *)

Section Laws.

Context {W : Type}.

Lemma run_lift_bind {A B} (a : A) (k : A → M W B) w :
  (lift (Ok a) ≫= k) w = k a w.
Proof. rewrite run_bind, run_lift. by destruct (k a w) as [[r w2] t2]. Qed.

Lemma run_lift_raise_bind {A B} (e : exn) (k : A → M W B) w :
  (lift (Raise e) ≫= k) w = (Raise e, w, []).
Proof. reflexivity. Qed.

Lemma run_ret_bind {A B} (a : A) (k : A → M W B) w :
  (mret a ≫= k) w = k a w.
Proof. apply run_lift_bind. Qed.

Lemma run_bind_assoc {A B C} (m : M W A) (f : A → M W B) (g : B → M W C) w :
  ((m ≫= f) ≫= g) w = (m ≫= (λ a, f a ≫= g)) w.
Proof.
  rewrite !run_bind. destruct (m w) as [[[a|e] w1] t1]; [|done].
  rewrite run_bind. destruct (f a w1) as [[[b|e] w2] t2]; [|done].
  destruct (g b w2) as [[r w3] t3]. by rewrite app_assoc.
Qed.

Lemma run_bind_ext {A B} (m : M W A) (f g : A → M W B) w :
  (∀ a w1, f a w1 = g a w1) → (m ≫= f) w = (m ≫= g) w.
Proof.
  intros Hfg. rewrite !run_bind. destruct (m w) as [[[a|e] w1] t1]; [|done].
  by rewrite Hfg.
Qed.

End Laws.

Section Getters.

Context {W : Type} (api : Api W).

(** With every getter overridden, the class does what [assemble] and
    [commit] do on the values of the getters. *)
Lemma subclass_assemble inv w :
  Class.assemble api (subclass inv) w = assemble api inv w.
Proof.
  unfold Class.assemble, assemble, assemble_header. simpl.
  rewrite !run_lift_bind, run_bind_assoc.
  apply run_bind_ext. intros name w0. rewrite run_bind_assoc.
  apply run_bind_ext. intros month_year w0'. rewrite run_bind_assoc.
  apply run_bind_ext. intros guid w1. rewrite run_bind_assoc.
  apply run_bind_ext. intros entry_date w1'.
  cbn [Class.attribute_of]. rewrite !run_lift_bind, run_ret_bind.
  apply run_bind_ext. intros ids w2. by rewrite run_lift_bind.
Qed.

Lemma subclass_get_guid inv w :
  Class.get_guid api (subclass inv) w = get_guid api inv w.
Proof. unfold Class.get_guid, get_guid. simpl. by rewrite run_lift_bind. Qed.

Lemma subclass_commit inv w :
  Class.commit api (subclass inv) w = commit api inv w.
Proof.
  unfold Class.commit, commit. rewrite !run_bind.
  assert (try_except (Class.get_guid api (subclass inv)) ObjectDoesNotExist
            (mret PyNone) w
          = try_except (get_guid api inv) ObjectDoesNotExist (mret PyNone) w) as ->.
  { unfold try_except. by rewrite subclass_get_guid. }
  destruct (try_except _ _ _ w) as [[[guid|e] w1] t1]; [|done].
  by rewrite !run_bind, subclass_assemble.
Qed.

(** X12: a getter that raises at the start ends [get_guid], [assemble] and
    [commit] before any call to the remote.  [get_guid] and [commit] ask the
    invoice number first; [assemble] asks the invoice number, the customer,
    the two totals and the created date before it calls anything.  So
    [ExactInvoice] without a subclass raises [NotImplementedError] at once. *)
Theorem getter_failure_makes_no_call (self : Class.methods) w :
  (∀ e, Class.get_invoice_number self = Raise e →
     Class.get_guid api self w = (Raise e, w, []) ∧
     Class.assemble api self w = (Raise e, w, []) ∧
     (e ≠ ObjectDoesNotExist → Class.commit api self w = (Raise e, w, []))) ∧
  ((∃ e, Class.get_invoice_number self = Raise e) ∨
   (∃ e, Class.get_customer self = Raise e) ∨
   (∃ e, Class.get_total_amount_incl_vat self = Raise e) ∨
   (∃ e, Class.get_total_vat self = Raise e) ∨
   (∃ e, Class.get_created_date self = Raise e) →
   ∃ e, Class.assemble api self w = (Raise e, w, [])) ∧
  Class.assemble api Class.ExactInvoice w = (Raise (NotImplementedError ""), w, []) ∧
  Class.commit api Class.ExactInvoice w = (Raise (NotImplementedError ""), w, []).
Proof.
  split; [|split; [|by split]].
  - intros e He.
    assert (Hguid : Class.get_guid api self w = (Raise e, w, []))
      by (unfold Class.get_guid; by rewrite He).
    split; [done|]. split; [unfold Class.assemble; by rewrite He|].
    intros Hne. unfold Class.commit, try_except. rewrite run_bind, Hguid.
    by destruct (decide (e = ObjectDoesNotExist)).
  - unfold Class.assemble.
    destruct (Class.get_invoice_number self) as [n|e]; [|by eexists].
    rewrite run_lift_bind.
    destruct (Class.get_customer self) as [c|e]; [|by eexists].
    rewrite run_lift_bind.
    destruct (Class.get_total_amount_incl_vat self) as [total|e]; [|by eexists].
    rewrite run_lift_bind.
    destruct (Class.get_total_vat self) as [vat|e]; [|by eexists].
    rewrite run_lift_bind.
    destruct (Class.get_created_date self) as [created_date|e]; [|by eexists].
    intros [[e [=]] | [[e [=]] | [[e [=]] | [[e [=]] | [e [=]]]]]].
Qed.

Lemma run_call_bind {A B} ev (f : W → outcome A * W) (k : A → M W B) w :
  (call ev f ≫= k) w =
  match f w with
  | (Ok a, w1) => match k a w1 with (r, w2, t2) => (r, w2, ev :: t2) end
  | (Raise e, w1) => (Raise e, w1, [ev])
  end.
Proof. rewrite run_bind, run_call. by destruct (f w) as [[a|e] w1]. Qed.

(** X13: [ExactInvoice.get_created_date] returns its [NotImplementedError]
    where the other getters raise theirs.  A subclass that overrides the
    other getters but not this one therefore gets no [NotImplementedError]:
    [assemble] asks the customer's name first and then fails with
    [AttributeError] on [strftime]. *)
Theorem created_date_not_overridden (self : Class.methods) w n c total vat :
  Class.get_created_date Class.ExactInvoice = Ok Class.AnExceptionObject ∧
  (Class.get_invoice_number self = Ok n →
   Class.get_customer self = Ok c →
   Class.get_total_amount_incl_vat self = Ok total →
   Class.get_total_vat self = Ok vat →
   Class.get_created_date self = Class.get_created_date Class.ExactInvoice →
   Class.assemble api self w =
     match customer_get_name api c w with
     | (Ok name, w1) => (Raise (AttributeError "strftime"), w1, [EvCustomerGetName c])
     | (Raise e, w1) => (Raise e, w1, [EvCustomerGetName c])
     end).
Proof.
  split; [done|]. intros Hn Hc Htotal Hvat Hcreated.
  unfold Class.assemble. rewrite Hn, Hc, Htotal, Hvat, Hcreated. simpl.
  rewrite !run_lift_bind, run_call_bind.
  by destruct (customer_get_name api c w) as [[name|e] w1].
Qed.

(** [assemble] from the point where the customer is resolved: what is left
    is the journal, the hint, the ledger lines, the lookup and the loop. *)
Lemma class_assemble_resolved (self : Class.methods) w n c total vat d name w1 guid w2 tg :
  Class.get_invoice_number self = Ok n →
  Class.get_customer self = Ok c →
  Class.get_total_amount_incl_vat self = Ok total →
  Class.get_total_vat self = Ok vat →
  Class.get_created_date self = Ok (Class.ADate d) →
  1900 ≤ year d →
  customer_get_name api c w = (Ok name, w1) →
  customer_guid_of api c w1 = (Ok guid, w2, tg) →
  Class.assemble api self w =
  match
    (journal ← lift (Class.get_exact_journal self);
     hint ← lift (Class.hint_exact_invoice_number self);
     ledger_lines ← lift (Class.get_ledger_lines self);
     ledger_ids ← fetch_ledger_ids api ledger_lines;
     ledger_lines' ← lift (Class.get_ledger_lines self);
     lift (assemble_lines ledger_ids ledger_lines'
             (compile_data
                {| get_customer := c; get_created_date := d;
                   get_exact_journal := journal; get_ledger_lines := ledger_lines;
                   get_invoice_number := n; get_total_amount_incl_vat := total;
                   get_total_vat := vat; hint_exact_invoice_number := hint |}
                (n +:+ " - " +:+ name +:+ ", " +:+ strftime_go d "%m-%Y") guid
                (strftime_go d "%Y-%m-%dT%H:%M:%SZ")))) w2
  with
  | (r, w3, t3) => (r, w3, (EvCustomerGetName c :: tg) ++ t3)
  end.
Proof.
  intros Hn Hc Htotal Hvat Hcreated Hyear Hname Hguid.
  assert (Hfmt : ∀ fmt, Class.strftime_of (Class.ADate d) fmt = Ok (strftime_go d fmt)).
  { intros fmt. simpl. unfold strftime.
    by destruct (Z.ltb_spec (year d) 1900); [lia|]. }
  unfold Class.assemble. rewrite Hn, Hc, Htotal, Hvat, Hcreated.
  rewrite !run_lift_bind, run_call_bind, Hname, !Hfmt, run_lift_bind.
  rewrite (run_bind_ok _ _ _ _ _ _ Hguid), run_lift_bind.
  match goal with
  | |- context [mbind ?k ?m w2] =>
      assert (mbind k m w2 =
        (journal ← lift (Class.get_exact_journal self);
         hint ← lift (Class.hint_exact_invoice_number self);
         ledger_lines ← lift (Class.get_ledger_lines self);
         ledger_ids ← fetch_ledger_ids api ledger_lines;
         ledger_lines' ← lift (Class.get_ledger_lines self);
         lift (assemble_lines ledger_ids ledger_lines'
                 (compile_data
                    {| get_customer := c; get_created_date := d;
                       get_exact_journal := journal; get_ledger_lines := ledger_lines;
                       get_invoice_number := n; get_total_amount_incl_vat := total;
                       get_total_vat := vat; hint_exact_invoice_number := hint |}
                    (n +:+ " - " +:+ name +:+ ", " +:+ strftime_go d "%m-%Y") guid
                    (strftime_go d "%Y-%m-%dT%H:%M:%SZ")))) w2) as ->
  end.
  { apply run_bind_ext. intros journal w3. cbn [Class.attribute_of].
    by rewrite !run_lift_bind. }
  match goal with |- context [mbind ?k ?m w2] => destruct (mbind k m w2) as [[r w3] t3] end.
  reflexivity.
Qed.

(** X14: the journal, the hint and the ledger lines are asked for after the
    customer is resolved.  When one of these getters raises, [assemble] fails
    with its exception after the calls to the customer element, a creation
    of the customer included, and before any lookup of ledger codes. *)
Theorem late_getter_failure (self : Class.methods) w n c total vat d name w1 guid w2 tg e :
  Class.get_invoice_number self = Ok n →
  Class.get_customer self = Ok c →
  Class.get_total_amount_incl_vat self = Ok total →
  Class.get_total_vat self = Ok vat →
  Class.get_created_date self = Ok (Class.ADate d) →
  1900 ≤ year d →
  customer_get_name api c w = (Ok name, w1) →
  customer_guid_of api c w1 = (Ok guid, w2, tg) →
  let failed := (Raise e : outcome payload, w2, EvCustomerGetName c :: tg) in
  (Class.get_exact_journal self = Raise e → Class.assemble api self w = failed) ∧
  (∀ journal, Class.get_exact_journal self = Ok journal →
     Class.hint_exact_invoice_number self = Raise e →
     Class.assemble api self w = failed) ∧
  (∀ journal hint, Class.get_exact_journal self = Ok journal →
     Class.hint_exact_invoice_number self = Ok hint →
     Class.get_ledger_lines self = Raise e →
     Class.assemble api self w = failed) ∧
  count is_ledger_filter (EvCustomerGetName c :: tg) = 0%nat.
Proof.
  intros Hn Hc Htotal Hvat Hcreated Hyear Hname Hguid failed.
  rewrite (class_assemble_resolved _ _ _ _ _ _ _ _ _ _ _ _
             Hn Hc Htotal Hvat Hcreated Hyear Hname Hguid).
  unfold failed. split; [|split; [|split]].
  - intros ->. simpl. by rewrite app_nil_r.
  - intros journal -> ->. rewrite run_lift_bind. simpl. by rewrite app_nil_r.
  - intros journal hint -> -> ->. rewrite !run_lift_bind. simpl. by rewrite app_nil_r.
  - rewrite customer_guid_of_run in Hguid. simpl.
    repeat case_match; simplify_eq; done.
Qed.

End Getters.

(** ** Amounts in plain notation *)

Section Plain.

Context {W : Type} (api : Api W).

(** A decimal with an exponent from -6 to 0 is written without an exponent,
    trailing zeros kept. *)
Lemma str_plain d : -6 ≤ dexp d ≤ 0 → plain_notation d (str d).
Proof.
  unfold plain_notation. intros [Hlo Hhi]. destruct d as [sign n e].
  cbn [dsign dcoeff dexp] in *.
  unfold str. cbn [dsign dcoeff dexp].
  destruct (pretty_N_nonempty n) as (ch & r & Hp & Hch).
  assert (Hd := all_digits_pretty n).
  set (digits := pretty n) in *.
  assert (Hlen : (1 ≤ String.length digits)%nat) by (rewrite Hp; simpl; lia).
  set (len := Z.of_nat (String.length digits)).
  assert (Hlen' : 1 ≤ len) by lia.
  destruct (Z.leb_spec e 0) as [_|?]; [|lia].
  destruct (Z.ltb_spec (-6) (e + len)) as [_|?]; [|lia]. cbn [andb].
  rewrite Z.eqb_refl.
  destruct (Z.leb_spec (e + len) 0) as [Hdp|Hdp];
    [|destruct (Z.leb_spec len (e + len)) as [Hfull|Hfull]].
  - exists "0", (zeros (Z.to_nat (- (e + len))) +:+ digits).
    destruct (Z.eqb_spec e 0) as [->|_]; [lia|].
    rewrite string_app_nil_r. split; [done|]. split; [done|]. split; [done|].
    split.
    + unfold all_digits. rewrite string_forall_app. fold all_digits.
      by rewrite all_digits_zeros, Hd.
    + rewrite string_length_app, length_zeros. lia.
  - assert (e = 0) as -> by lia. exists digits, "".
    replace (0 + len - len) with 0 by lia.
    change (zeros (Z.to_nat 0)) with "". rewrite !string_app_nil_r.
    split; [done|]. split; [by rewrite Hp|]. by split.
  - exists (string_take (Z.to_nat (e + len)) digits),
           (string_drop (Z.to_nat (e + len)) digits).
    destruct (Z.eqb_spec e 0) as [->|_]; [lia|].
    rewrite string_app_nil_r. split; [done|].
    split.
    { rewrite Hp. destruct (string_take_cons (Z.to_nat (e + len)) ch r) as [r' ->];
        [lia|done]. }
    split; [by apply string_take_all_digits|].
    split; [by apply string_drop_all_digits|].
    rewrite length_string_drop. lia.
Qed.

(** X15: the amounts of a payload are sent in plain notation whenever the
    decimal has at most six decimals (an exponent from -6 to 0), as amounts
    of money have: the sign, the digits, and a point with exactly as many
    digits as the decimal has decimals, trailing zeros included, and never an
    exponent.  This holds for the total, the VAT and the amount of each
    line. *)
Theorem assemble_amounts_plain self w data w' t :
  assemble api self w = (Ok data, w', t) →
  (-6 ≤ dexp (get_total_amount_incl_vat self) ≤ 0 →
   ∃ s, data !! "AmountDC" = Some (Scalar (PyStr s)) ∧
        data !! "AmountFC" = Some (Scalar (PyStr s)) ∧
        plain_notation (get_total_amount_incl_vat self) s) ∧
  (-6 ≤ dexp (get_total_vat self) ≤ 0 →
   ∃ s, data !! "VATAmountDC" = Some (Scalar (PyStr s)) ∧
        data !! "VATAmountFC" = Some (Scalar (PyStr s)) ∧
        plain_notation (get_total_vat self) s) ∧
  ∃ entries : list record,
    data !! "SalesEntryLines" = Some (Lines entries) ∧
    ∀ i line, get_ledger_lines self !! i = Some line →
      -6 ≤ dexp (total_amount_excl_vat line) ≤ 0 →
      ∃ entry s, entries !! i = Some entry ∧
        entry !! "AmountDC" = Some (PyStr s) ∧
        entry !! "AmountFC" = Some (PyStr s) ∧
        plain_notation (total_amount_excl_vat line) s.
Proof.
  intros (name & guid & ids & entries & _ & HF & ->)%assemble_inv_ok.
  split; [|split].
  - intros Hexp. eexists. split; [done|]. split; [done|]. by apply str_plain.
  - intros Hexp. eexists. split; [done|]. split; [done|]. by apply str_plain.
  - exists entries. split; [by rewrite lookup_insert_eq|].
    intros i line Hi Hexp.
    destruct (entries_lookup _ _ _ _ _ HF Hi) as (entry & Hentry & Hline).
    apply assemble_line_inv_ok in Hline as (? & ? & ? & _ & _ & _ & ->).
    eexists _, _. split; [exact Hentry|]. split; [done|]. split; [done|].
    by apply str_plain.
Qed.

End Plain.

(** ** The failures of the loop *)

Section LoopFailures.

Context {W : Type} (api : Api W).

(** X16: once the customer is resolved and the ledger codes are looked up,
    [assemble] can fail in two ways only, both at the first ledger line that
    is not in order: with [ExactOnlineError] and the code of that line when
    the lookup returned no row for it, or with [NotImplementedError] and its
    percentage when that is neither 0 nor 21.  The lines before it had a row
    and a percentage of 0 or 21, the dictionary of identifiers was bound (no
    [UnboundLocalError]), and no call follows the lookup. *)
Theorem assemble_loop_failure self w data0 w1 t1 ids w2 t2 e w' t :
  assemble_header api self w = (Ok data0, w1, t1) →
  fetch_ledger_ids api (get_ledger_lines self) w1 = (Ok ids, w2, t2) →
  assemble api self w = (Raise e, w', t) →
  w' = w2 ∧ t = t1 ++ t2 ∧
  ∃ ledger_ids pre line post,
    ids = Some ledger_ids ∧
    get_ledger_lines self = pre ++ line :: post ∧
    Forall (λ l, is_Some (ledger_ids !! code l) ∧
                 (vat_percentage l = 0 ∨ vat_percentage l = 21)) pre ∧
    ((ledger_ids !! code line = None ∧
      e = ExactOnlineError ("Cannot submit invoice with ledger code " +:+ code line)) ∨
     (is_Some (ledger_ids !! code line) ∧
      vat_percentage line ≠ 0 ∧ vat_percentage line ≠ 21 ∧
      e = NotImplementedError ("Unknown VAT: " +:+ pretty (vat_percentage line)))).
Proof.
  intros Hh Hf. rewrite (assemble_after_lookup _ _ _ _ _ _ _ _ _ Hh Hf).
  intros [= Hloop <- <-]. split; [done|]. split; [done|].
  eapply assemble_lines_inv_raise in Hloop as (pre & line & post & Hlines & Hpre & Hline);
    [|by eapply assemble_header_lines].
  assert (∃ ledger_ids, ids = Some ledger_ids) as [ledger_ids ->].
  { rewrite fetch_ledger_ids_run, Hlines in Hf.
    destruct pre; simpl in Hf;
      destruct (ledgeraccounts_filter api _ w1) as [[rows|?] ?]; try discriminate Hf;
      destruct (ledger_dict rows ∅); try discriminate Hf;
      injection Hf as <- _ _; eauto. }
  exists ledger_ids, pre, line, post. split; [done|]. split; [done|].
  split; [|by apply assemble_line_inv_raise].
  eapply Forall_impl; [exact Hpre|]. intros l [entry Hentry]. simpl.
  apply assemble_line_inv_ok in Hentry as (ids' & id & vc & [= <-] & Hid & Hvat & _).
  split; [by eexists|].
  apply vatcode_of_inv_ok in Hvat as [[? _]|[? _]]; auto.
Qed.

End LoopFailures.

(** ** These properties at work on concrete invoices *)

(** A lookup of INV-001 that is out of order, and a record of it without
    [EntryID]: [commit] stops after the lookup. *)
Lemma commit_lookup_failure_aborts_witness :
  commit (Outage.client Outage.InvoicesGet) Remote.inv001 Remote.fresh
    = (Raise Outage.unavailable, Remote.fresh, [EvInvoicesGet "INV-001"]) ∧
  commit Remote.api Remote.inv001 Outage.untagged
    = (Raise (KeyError "EntryID"), Outage.untagged, [EvInvoicesGet "INV-001"]).
Proof.
  split.
  - pose proof (commit_lookup_failure_aborts (Outage.client Outage.InvoicesGet)
                  Remote.inv001 Remote.fresh) as H.
    cbv zeta in H. destruct H as [H _].
    apply H; [reflexivity|discriminate].
  - pose proof (commit_lookup_failure_aborts Remote.api Remote.inv001 Outage.untagged)
      as H.
    cbv zeta in H. destruct H as [_ H].
    apply (H ∅); by_evaluation.
Defined.

(** An update of INV-001 that fails gives no warning; a creation that fails
    is the failure of [commit]. *)
Lemma commit_submission_failure_witness :
  let updated := commit (Outage.client Outage.InvoicesUpdate) Remote.inv001 Remote.known in
  let created := commit (Outage.client Outage.InvoicesCreate) Remote.inv001 Remote.fresh in
  (updated.1.1 = Raise Outage.unavailable ∧ count is_warn (calls updated) = 0%nat) ∧
  created.1.1 = Raise Outage.unavailable.
Proof.
  intros updated created. split.
  - pose (assembled := assemble (Outage.client Outage.InvoicesUpdate) Remote.inv001
                         Remote.known).
    pose proof (commit_submission_failure (Outage.client Outage.InvoicesUpdate)
                  Remote.inv001 Remote.known Remote.known (returned assembled ∅)
                  (final assembled) (calls assembled) Outage.unavailable
                  (final assembled)) as H.
    cbv zeta in H. destruct H as [H _]; [by_evaluation|].
    destruct (H (<["EntryID" := PyStr "guid-INV-001"]> ∅) (PyStr "guid-INV-001"))
      as [Hrun Hwarn]; [by_evaluation..|].
    split; [|exact Hwarn]. unfold updated. by rewrite Hrun.
  - pose (assembled := assemble (Outage.client Outage.InvoicesCreate) Remote.inv001
                         Remote.fresh).
    pose proof (commit_submission_failure (Outage.client Outage.InvoicesCreate)
                  Remote.inv001 Remote.fresh Remote.fresh (returned assembled ∅)
                  (final assembled) (calls assembled) Outage.unavailable
                  (final assembled)) as H.
    cbv zeta in H. destruct H as [_ H]; [by_evaluation|].
    unfold created. rewrite H; [reflexivity|by_evaluation..].
Defined.

(** Each collaborator of [assemble] out of order in turn, for INV-001 on a
    remote without the customer. *)
Lemma assemble_collaborator_failure_witness :
  let run f := assemble (Outage.client f) Remote.inv001 Remote.fresh in
  run Outage.CustomerGetName
    = (Raise Outage.unavailable, Remote.fresh, [EvCustomerGetName "ACME"]) ∧
  run Outage.CustomerGetGuid
    = (Raise Outage.unavailable, Remote.fresh,
       [EvCustomerGetName "ACME"; EvCustomerGetGuid "ACME"]) ∧
  run Outage.CustomerCommit
    = (Raise Outage.unavailable, Remote.fresh,
       [EvCustomerGetName "ACME"; EvCustomerGetGuid "ACME"; EvCustomerCommit "ACME"]) ∧
  run Outage.CommitLost
    = (Raise ObjectDoesNotExist, Remote.fresh,
       [EvCustomerGetName "ACME"; EvCustomerGetGuid "ACME"; EvCustomerCommit "ACME";
        EvCustomerGetGuid "ACME"]) ∧
  (run Outage.LedgerFilter).1.1 = Raise Outage.unavailable.
Proof.
  intros run. unfold run.
  split; [|split; [|split; [|split]]].
  - pose proof (assemble_collaborator_failure (Outage.client Outage.CustomerGetName)
                  Remote.inv001 Remote.fresh Outage.unavailable) as H.
    cbv zeta in H. destruct H as (H & _ & _). by apply H.
  - pose proof (assemble_collaborator_failure (Outage.client Outage.CustomerGetGuid)
                  Remote.inv001 Remote.fresh Outage.unavailable) as H.
    cbv zeta in H. destruct H as (_ & H & _).
    destruct (H "Relation ACME" Remote.fresh eq_refl ltac:(simpl; lia)) as (H1 & _ & _).
    apply H1; [reflexivity|discriminate].
  - pose proof (assemble_collaborator_failure (Outage.client Outage.CustomerCommit)
                  Remote.inv001 Remote.fresh Outage.unavailable) as H.
    cbv zeta in H. destruct H as (_ & H & _).
    destruct (H "Relation ACME" Remote.fresh eq_refl ltac:(simpl; lia)) as (_ & H2 & _).
    apply (H2 Remote.fresh); reflexivity.
  - pose proof (assemble_collaborator_failure (Outage.client Outage.CommitLost)
                  Remote.inv001 Remote.fresh ObjectDoesNotExist) as H.
    cbv zeta in H. destruct H as (_ & H & _).
    destruct (H "Relation ACME" Remote.fresh eq_refl ltac:(simpl; lia)) as (_ & _ & H3).
    apply (H3 Remote.fresh tt Remote.fresh); reflexivity.
  - pose (header := assemble_header (Outage.client Outage.LedgerFilter) Remote.inv001
                      Remote.fresh).
    pose proof (assemble_collaborator_failure (Outage.client Outage.LedgerFilter)
                  Remote.inv001 Remote.fresh Outage.unavailable) as H.
    cbv zeta in H. destruct H as (_ & _ & H).
    rewrite (H (returned header ∅) (final header) (calls header) (final header));
      [reflexivity|by_evaluation|discriminate|by_evaluation].
Defined.

(** INV-001 has one line, resolved and at 21%: a payload is returned. *)
Lemma assemble_succeeds_iff_witness :
  let header := assemble_header Remote.api Remote.inv001 Remote.fresh in
  let lookup := fetch_ledger_ids Remote.api [Remote.goods] (final header) in
  ∃ data, assemble Remote.api Remote.inv001 Remote.fresh
          = (Ok data, final lookup, calls header ++ calls lookup).
Proof.
  intros header lookup.
  apply (assemble_succeeds_iff Remote.api Remote.inv001 Remote.fresh
           (returned header ∅) (final header) (calls header)
           (returned lookup None) (final lookup) (calls lookup));
    [by_evaluation..|].
  constructor; [|constructor].
  exists (default ∅ (returned lookup None)).
  split; [by_evaluation|]. split; [|by right].
  exists (PyStr "ledger-1234"). by_evaluation.
Defined.

(** Of two rows for the code 1234 the last one decides; the code 9999 has no
    row. *)
Lemma ledger_dict_last_row_wins_witness :
  let ids := match ledger_dict Outage.twice ∅ with Ok ids => ids | Raise _ => ∅ end in
  ids !! "1234" = Some (PyStr "ledger-new") ∧ ids !! "9999" = None.
Proof.
  intros ids. split.
  - destruct (ledger_dict_last_row_wins Outage.twice ids "1234") as [Hsome _];
      [by_evaluation|].
    apply Hsome.
    exists [Remote.row "1234" (PyStr "ledger-old"); Remote.row "5678" (PyStr "ledger-5678")],
           (Remote.row "1234" (PyStr "ledger-new")), [].
    split; [reflexivity|]. split; [unfold row_has_code; by_evaluation|].
    split; [by_evaluation|constructor].
  - destruct (ledger_dict_last_row_wins Outage.twice ids "9999") as [_ Hnone];
      [by_evaluation|].
    apply Hnone. unfold Outage.twice.
    repeat (constructor; [unfold row_has_code; intros Hrow; vm_compute in Hrow;
                          discriminate Hrow|]).
    constructor.
Defined.

(** The entry of INV-001 has the identifier of the row for 1234. *)
Lemma assemble_gl_account_witness :
  let header := assemble_header Remote.api Remote.inv001 Remote.fresh in
  let run := assemble Remote.api Remote.inv001 Remote.fresh in
  ∃ rows (entries : list record),
    ledgeraccounts_filter Remote.api (list_to_set (code <$> [Remote.goods]))
      (final header) = (Ok rows, final run) ∧
    returned run ∅ !! "SalesEntryLines" = Some (Lines entries) ∧
    ∀ i line, [Remote.goods] !! i = Some line →
      ∃ entry pre r post,
        entries !! i = Some entry ∧
        rows = pre ++ r :: post ∧
        row_has_code (code line) r ∧
        Forall (λ j, ¬ row_has_code (code line) j) post ∧
        entry !! "GLAccount" = r !! "ID".
Proof.
  intros header run.
  pose proof (assemble_gl_account Remote.api Remote.inv001 Remote.fresh
                (returned header ∅) (final header) (calls header)
                (returned run ∅) (final run) (calls run)) as H.
  cbv zeta in H.
  destruct H as (rows & entries & Hfilter & Hlines & Hrows);
    [by_evaluation|discriminate|by_evaluation|].
  exists rows, entries. split; [exact Hfilter|]. split; [exact Hlines|exact Hrows].
Defined.


(** The keys of the payload of INV-001. *)
Lemma assemble_payload_keys_witness :
  let run := assemble Remote.api Remote.inv001 Remote.fresh in
  dom (returned run ∅) = payload_keys ∧
  ∃ entries : list record,
    returned run ∅ !! "SalesEntryLines" = Some (Lines entries) ∧
    Forall (λ entry, dom entry = entry_keys) entries.
Proof.
  intros run.
  apply (assemble_payload_keys Remote.api Remote.inv001 Remote.fresh
           (returned run ∅) (final run) (calls run)).
  by_evaluation.
Defined.

(** The description and the references of INV-001. *)
Lemma assemble_references_witness :
  let run := assemble Remote.api Remote.inv001 Remote.fresh in
  returned run ∅ !! "Description"
    = Some (Scalar (PyStr "INV-001 - Relation ACME, 03-2024")) ∧
  returned run ∅ !! "YourRef" = Some (Scalar (PyStr "INV-001")) ∧
  returned run ∅ !! "Journal" = Some (Scalar (PyStr "70")) ∧
  returned run ∅ !! "InvoiceNumber" = Some (Scalar PyNone).
Proof.
  intros run.
  destruct (assemble_references Remote.api Remote.inv001 Remote.fresh
              (returned run ∅) (final run) (calls run))
    as (name & w0 & Hname & Hd & Hy & Hj & Hn); [by_evaluation|].
  injection Hname as <- _.
  split; [exact Hd|]. split; [exact Hy|]. split; [exact Hj|exact Hn].
Defined.

(** The creation of INV-001 is the one request, with all the keys. *)
Lemma commit_submits_once_witness :
  let assembled := assemble Remote.api Remote.inv001 Remote.fresh in
  let t := calls (commit Remote.api Remote.inv001 Remote.fresh) in
  (count is_invoices_create t + count is_invoices_update t ≤ 1)%nat ∧
  count is_invoices_get t = 1%nat ∧
  dom (returned assembled ∅) = payload_keys.
Proof.
  intros assembled t.
  pose proof (commit_submits_once Remote.api Remote.inv001 Remote.fresh) as H.
  cbv zeta in H. destruct H as (Hone & _ & Hget & Hcreate & _).
  split; [exact Hone|]. split; [exact Hget|].
  apply Hcreate.
  assert (Ht : calls (commit Remote.api Remote.inv001 Remote.fresh)
               = [EvInvoicesGet "INV-001"] ++ calls assembled ++
                 [EvInvoicesCreate (returned assembled ∅)]) by by_evaluation.
  rewrite Ht, !elem_of_app. right. right. apply list_elem_of_singleton. reflexivity.
Defined.

(** [ExactInvoice] itself, and INV-001 without [get_total_vat]. *)
Lemma getter_failure_makes_no_call_witness :
  Class.get_guid Remote.api Class.ExactInvoice Remote.fresh
    = (Raise (NotImplementedError ""), Remote.fresh, []) ∧
  Class.commit Remote.api Class.ExactInvoice Remote.fresh
    = (Raise (NotImplementedError ""), Remote.fresh, []) ∧
  ∃ e, Class.assemble Remote.api Outage.without_total_vat Remote.fresh
       = (Raise e, Remote.fresh, []).
Proof.
  destruct (getter_failure_makes_no_call Remote.api Class.ExactInvoice Remote.fresh)
    as (Hfirst & _ & _ & _).
  destruct (Hfirst (NotImplementedError "") eq_refl) as (Hguid & _ & Hcommit).
  split; [exact Hguid|]. split; [apply Hcommit; discriminate|].
  destruct (getter_failure_makes_no_call Remote.api Outage.without_total_vat Remote.fresh)
    as (_ & Hearly & _).
  apply Hearly. right. right. right. left. by eexists.
Defined.

(** INV-001 without [get_created_date]: an [AttributeError] after the
    customer's name was asked. *)
Lemma created_date_not_overridden_witness :
  Class.assemble Remote.api Outage.without_created_date Remote.fresh
  = (Raise (AttributeError "strftime"), Remote.fresh, [EvCustomerGetName "ACME"]).
Proof.
  exact (proj2 (created_date_not_overridden Remote.api Outage.without_created_date
                  Remote.fresh "INV-001" "ACME"
                  {| dsign := false; dcoeff := 12100; dexp := -2 |}
                  {| dsign := false; dcoeff := 2100; dexp := -2 |})
           eq_refl eq_refl eq_refl eq_refl eq_refl).
Defined.

(** INV-001 without [get_exact_journal]: the customer is created, then
    [NotImplementedError]. *)
Lemma late_getter_failure_witness :
  Class.assemble Remote.api Outage.without_journal Remote.fresh
  = (Raise (NotImplementedError ""),
     (customer_commit Remote.api "ACME" Remote.fresh).2,
     [EvCustomerGetName "ACME"; EvCustomerGetGuid "ACME"; EvCustomerCommit "ACME";
      EvCustomerGetGuid "ACME"]).
Proof.
  pose proof (late_getter_failure Remote.api Outage.without_journal Remote.fresh
                "INV-001" "ACME"
                {| dsign := false; dcoeff := 12100; dexp := -2 |}
                {| dsign := false; dcoeff := 2100; dexp := -2 |}
                {| year := 2024; month := 3; day := 15 |}
                "Relation ACME" Remote.fresh (PyStr "cust-ACME")
                (customer_commit Remote.api "ACME" Remote.fresh).2
                [EvCustomerGetGuid "ACME"; EvCustomerCommit "ACME"; EvCustomerGetGuid "ACME"]
                (NotImplementedError "")
                eq_refl eq_refl eq_refl eq_refl eq_refl) as H.
  cbv zeta in H.
  destruct H as (Hjournal & _); [simpl; lia|reflexivity|by_evaluation|].
  by apply Hjournal.
Defined.

(** The total of INV-001 is sent as a number with two decimals. *)
Lemma assemble_amounts_plain_witness :
  let run := assemble Remote.api Remote.inv001 Remote.fresh in
  ∃ s, returned run ∅ !! "AmountDC" = Some (Scalar (PyStr s)) ∧
       returned run ∅ !! "AmountFC" = Some (Scalar (PyStr s)) ∧
       plain_notation {| dsign := false; dcoeff := 12100; dexp := -2 |} s.
Proof.
  intros run.
  destruct (assemble_amounts_plain Remote.api Remote.inv001 Remote.fresh
              (returned run ∅) (final run) (calls run)) as (Htotal & _);
    [by_evaluation|].
  apply Htotal. simpl. lia.
Defined.

(** INV-002 stops at its first line, which has a ledger account and 5%. *)
Lemma assemble_loop_failure_witness :
  let run := assemble Remote.api Remote.mixed Remote.fresh in
  let header := assemble_header Remote.api Remote.mixed Remote.fresh in
  let lookup := fetch_ledger_ids Remote.api (get_ledger_lines Remote.mixed)
                  (final header) in
  run.1.1 = Raise (NotImplementedError "Unknown VAT: 5") ∧
  final run = final lookup ∧ calls run = calls header ++ calls lookup.
Proof.
  intros run header lookup.
  destruct (assemble_loop_failure Remote.api Remote.mixed Remote.fresh
              (returned header ∅) (final header) (calls header)
              (returned lookup None) (final lookup) (calls lookup)
              (NotImplementedError "Unknown VAT: 5") (final run) (calls run))
    as (Hfinal & Hcalls & _); [by_evaluation..|].
  split; [by_evaluation|]. split; [exact Hfinal|exact Hcalls].
Defined.
